(** * Kisan Call Centre: the plant-disease route and the chat submission flow

    A shallow embedding of

    - [src/app/api/plant-disease/route.ts]: the [POST] handler and its helper
      [getFallbackAnalysis];
    - the [submitMessage] callback of the [AICallAgentModal] component.

    Both are asynchronous functions that talk to the outside world ([fetch],
    the clock, React state setters, speech synthesis).  They are written here
    as programs over a signature of events; every [await] of the source is an
    event node, [throw], [try/catch] and [finally] are operators on programs.
    A program is run against a world that answers the events, and properties
    that hold for every world are proved through a weakest-precondition
    predicate.

    Conventions.
    - A JavaScript string is the [string] of its UTF-8 bytes.
    - A JSON number is the rational it denotes.
    - [undefined] is [None] in an [option value]; JSON never contains it.
    - [console.log] and [console.error] are not modelled: they cannot throw
      and nothing reads them back. *)

From Stdlib Require Import String Ascii List ZArith QArith Bool Lia DecimalString.
From Stdlib Require DecimalZ DecimalPos.
Import ListNotations.
Local Open Scope string_scope.
Local Open Scope Z_scope.

Set Implicit Arguments.
Local Set Warnings "-register-all".

(* ================================================================== *)
(** * JavaScript values and the primitives the handlers use            *)
(* ================================================================== *)

Module Js.

(** JSON values, as [JSON.parse] and [response.json()] produce them.  The
    fields of an object are listed in the engine's enumeration order. *)
Inductive value : Type :=
| Null
| Bool (b : bool)
| Num (q : Q)
| Str (s : string)
| Arr (items : list value)
| Obj (fields : list (string * value)).

(** What the engine raises on its own; the text of its message is the
    engine's, see [Runtime]. *)
Inductive Fault : Type :=
| ReadOfNull (prop : string)     (* TypeError: property read on null *)
| NotAFunction (name : string)   (* TypeError: call of a non-function *)
| NoPrimitive                    (* TypeError: object to primitive conversion *)
| BadJSON                        (* SyntaxError of JSON.parse or of a body read *)
| FetchFailed                    (* TypeError: fetch rejected *)
| HostFailure.                   (* an exception of a browser API *)

(** Thrown values.  Everything thrown in the modelled code is an instance of
    [Error]; only its [message] is ever read. *)
Inductive Exn : Type :=
| Error (message : string).

Definition message (e : Exn) : string :=
  match e with Error m => m end.

(** The parts of the platform that the handlers call and that are not
    repository code. *)
Record Runtime : Type := {
  JSON_parse : string -> option value;   (* None: SyntaxError *)
  Number_toString : Q -> string;         (* Number.prototype.toString *)
  engine_message : Fault -> string
}.

Definition raise (rt : Runtime) (f : Fault) : Exn :=
  Error (engine_message rt f).

(** ** Truthiness *)

Definition truthy (v : value) : bool :=
  match v with
  | Null => false
  | Bool b => b
  | Num q => negb (Qeq_bool q 0)
  | Str s => negb (s =? "")%string
  | Arr _ => true
  | Obj _ => true
  end.

Definition truthy_opt (o : option value) : bool :=
  match o with
  | Some v => truthy v
  | None => false
  end.

(** [a || b] on possibly undefined values, with [b] a defined default. *)
Definition or_else (o : option value) (d : value) : value :=
  match o with
  | Some v => if truthy v then v else d
  | None => d
  end.

(** ** Property reads *)

Fixpoint lookup (k : string) (fields : list (string * value)) : option value :=
  match fields with
  | [] => None
  | (k', v) :: rest => if (k =? k')%string then Some v else lookup k rest
  end.

(** The first character of a string, as a string ([s[0]]). *)
Definition continuation_byte (c : ascii) : bool :=
  let n := N_of_ascii c in ((128 <=? n) && (n <? 192))%N.

Fixpoint take_continuation (s : string) : string :=
  match s with
  | String c r => if continuation_byte c then String c (take_continuation r) else ""
  | EmptyString => ""
  end.

Definition first_char (s : string) : option string :=
  match s with
  | EmptyString => None
  | String c r => Some (String c (take_continuation r))
  end.

(** [v.k] for a name [k] that no prototype defines (the handlers read only
    [imageBase64], [language], [error], [message], [choices], [content],
    [disease], [symptoms] and [response]): an own property of an object,
    [undefined] on every other non-null value.  Reading from [null] is a
    [TypeError], signalled by the outer [None]. *)
Definition get (v : value) (k : string) : option (option value) :=
  match v with
  | Null => None
  | Obj fields => Some (lookup k fields)
  | _ => Some None
  end.

(** [o?.k]: short-circuits on [undefined] and [null]. *)
Definition get_opt (o : option value) (k : string) : option value :=
  match o with
  | None | Some Null => None
  | Some (Obj fields) => lookup k fields
  | Some _ => None
  end.

(** [o?.[0]] *)
Definition index0_opt (o : option value) : option value :=
  match o with
  | None | Some Null => None
  | Some (Arr items) => nth_error items 0
  | Some (Str s) => option_map Str (first_char s)
  | Some (Obj fields) => lookup "0" fields
  | Some _ => None
  end.

Definition isArray (o : option value) : bool :=
  match o with
  | Some (Arr _) => true
  | _ => false
  end.

(** ** Conversion to string *)

Definition string_of_nat (n : nat) : string :=
  NilZero.string_of_uint (Nat.to_uint n).

Definition string_of_Z (z : Z) : string :=
  NilZero.string_of_int (Z.to_int z).

Section ToString.
Variable rt : Runtime.

(** [ToString(v)].  An array joins its elements with a comma, [null]
    elements giving the empty string; a plain object is
    ["[object Object]"] unless it has an own [toString] property, which
    (not being callable) leaves no way to a primitive: [None] is that
    [TypeError]. *)
Fixpoint to_string (v : value) : option string :=
  match v with
  | Null => Some "null"
  | Bool true => Some "true"
  | Bool false => Some "false"
  | Num q => Some (Number_toString rt q)
  | Str s => Some s
  | Arr items =>
      (fix join_items (l : list value) : option string :=
         match l with
         | [] => Some ""
         | x :: rest =>
             match (match x with Null => Some "" | _ => to_string x end) with
             | None => None
             | Some sx =>
                 match rest with
                 | [] => Some sx
                 | _ => match join_items rest with
                        | None => None
                        | Some sr => Some (sx ++ "," ++ sr)
                        end
                 end
             end
         end) items
  | Obj fields =>
      match lookup "toString" fields with
      | Some _ => None
      | None => Some "[object Object]"
      end
  end.

(** [items.join(sep)] *)
Fixpoint join (sep : string) (items : list value) : option string :=
  match items with
  | [] => Some ""
  | x :: rest =>
      match (match x with Null => Some "" | _ => to_string x end) with
      | None => None
      | Some sx =>
          match rest with
          | [] => Some sx
          | _ => match join sep rest with
                 | None => None
                 | Some sr => Some (sx ++ sep ++ sr)
                 end
          end
      end
  end.

(** [JSON.parse(v)]: the argument is converted to a string first. *)
Definition JSON_parse_value (v : value) : option value :=
  match to_string v with
  | Some s => JSON_parse rt s
  | None => None
  end.
End ToString.

(** ** Strings *)

Fixpoint is_prefix (p s : string) : bool :=
  match p, s with
  | EmptyString, _ => true
  | String a p', String b s' => Ascii.eqb a b && is_prefix p' s'
  | String _ _, EmptyString => false
  end.

(** [s.includes(needle)] *)
Fixpoint includes (needle s : string) : bool :=
  is_prefix needle s ||
  match s with
  | EmptyString => false
  | String _ s' => includes needle s'
  end.

(** The regular expression [/\{[\s\S]*\}/]: the leftmost match starts at the
    first opening brace and, the star being greedy, runs to the last closing
    brace after it. *)
Fixpoint from_first_open (s : string) : option string :=
  match s with
  | EmptyString => None
  | String c r => if Ascii.eqb c "{" then Some r else from_first_open r
  end.

Fixpoint upto_last_close (s : string) : option string :=
  match s with
  | EmptyString => None
  | String c r =>
      match upto_last_close r with
      | Some p => Some (String c p)
      | None => if Ascii.eqb c "}" then Some (String c "") else None
      end
  end.

(** [s.match(/\{[\s\S]*\}/)], giving [jsonMatch[0]] when there is a match. *)
Definition match_braces (s : string) : option string :=
  match from_first_open s with
  | Some r => option_map (String "{") (upto_last_close r)
  | None => None
  end.

(** ** Building objects *)

(** Assignment of an own property: replaced in place when present, appended
    otherwise. *)
Fixpoint set (k : string) (v : value) (fields : list (string * value))
  : list (string * value) :=
  match fields with
  | [] => [(k, v)]
  | (k', v') :: rest =>
      if (k =? k')%string then (k, v) :: rest else (k', v') :: set k v rest
  end.

Fixpoint indexed (i : nat) (items : list value) : list (string * value) :=
  match items with
  | [] => []
  | x :: rest => (string_of_nat i, x) :: indexed (S i) rest
  end.

Fixpoint drop_continuation (s : string) : string :=
  match s with
  | String c r => if continuation_byte c then drop_continuation r else s
  | EmptyString => ""
  end.

Fixpoint chars (fuel : nat) (s : string) : list value :=
  match fuel, s with
  | S fuel', String c r =>
      Str (String c (take_continuation r)) :: chars fuel' (drop_continuation r)
  | _, _ => []
  end.

(** The own enumerable properties that [{...v}] copies. *)
Definition spread (v : value) : list (string * value) :=
  match v with
  | Obj fields => fields
  | Arr items => indexed 0 items
  | Str s => indexed 0 (chars (String.length s) s)
  | _ => []
  end.

End Js.

(* ================================================================== *)
(** * Programs over events                                             *)
(* ================================================================== *)

Module Prog.
Import Js.

Section Programs.
(** The events of a handler: [E X] is a request to the world that is
    answered by an [X]. *)
Variable E : Type -> Type.

Inductive t (A : Type) : Type :=
| Ret (a : A)
| Throw (e : Exn)
| Vis (X : Type) (ev : E X) (k : X -> t A).

Arguments Ret {A} a.
Arguments Throw {A} e.
Arguments Vis {A X} ev k.

Fixpoint bind {A B : Type} (p : t A) (f : A -> t B) : t B :=
  match p with
  | Ret a => f a
  | Throw e => Throw e
  | Vis ev k => Vis ev (fun x => bind (k x) f)
  end.

(** [try { p } catch (e) { h e }] *)
Fixpoint try_catch {A : Type} (p : t A) (h : Exn -> t A) : t A :=
  match p with
  | Ret a => Ret a
  | Throw e => h e
  | Vis ev k => Vis ev (fun x => try_catch (k x) h)
  end.

(** [try { p } finally { f }], for a block [p] that returns nothing; an
    exception of [f] replaces the pending one. *)
Fixpoint try_finally (p : t unit) (f : t unit) : t unit :=
  match p with
  | Ret _ => f
  | Throw e => bind f (fun _ => Throw e)
  | Vis ev k => Vis ev (fun x => try_finally (k x) f)
  end.

Definition trigger {X : Type} (ev : E X) : t X := Vis ev (fun x => Ret x).

(** ** Running a program against a world *)

Inductive outcome (A : Type) : Type :=
| Returned (a : A)
| Raised (e : Exn).

Arguments Returned {A} a.
Arguments Raised {A} e.

Section Run.
(** The world is a state [W] and an answer to every event. *)
Variable W : Type.
Variable answer : forall X : Type, E X -> W -> X * W.

Fixpoint run {A : Type} (p : t A) (w : W) : outcome A * W :=
  match p with
  | Ret a => (Returned a, w)
  | Throw e => (Raised e, w)
  | Vis ev k => let (x, w') := answer ev w in run (k x) w'
  end.
End Run.

(** ** Weakest precondition: whatever the world answers, the program
    returns a value in [Q] or throws an exception in [R]. *)
Fixpoint wp {A : Type} (p : t A) (Q : A -> Prop) (R : Exn -> Prop) : Prop :=
  match p with
  | Ret a => Q a
  | Throw e => R e
  | Vis ev k => forall x, wp (k x) Q R
  end.

End Programs.

Arguments Ret {E A} a.
Arguments Throw {E A} e.
Arguments Vis {E A X} ev k.
Arguments Returned {A} a.
Arguments Raised {A} e.
Arguments trigger {E X} ev.

Declare Scope prog_scope.
Delimit Scope prog_scope with prog.
Notation "x <- p ;; q" := (bind p (fun x => q))
  (at level 61, p at next level, right associativity) : prog_scope.
Notation "p ;;; q" := (bind p (fun _ => q))
  (at level 61, right associativity) : prog_scope.

End Prog.

(* ================================================================== *)
(** * HTTP as the handlers see it                                      *)
(* ================================================================== *)

Module Http.
Import Js.

(** A response, with the outcome of the single [await response.json()] that
    the handlers perform on it ([None]: the body is not JSON and the read
    rejects). *)
Record Response : Type := {
  status : Z;
  json : option value
}.

(** [response.ok] *)
Definition ok (r : Response) : bool :=
  (200 <=? status r) && (status r <=? 299).

Inductive FetchResult : Type :=
| Rejected                 (* the promise of [fetch] rejects *)
| Answered (r : Response).

(** The second argument of [fetch]; [body] is the object handed to
    [JSON.stringify]. *)
Record RequestInit : Type := {
  method : string;
  headers : list (string * string);
  body : value
}.

(** A remote call: the two arguments of [fetch]. *)
Definition Call : Type := string * RequestInit.

End Http.

(* ================================================================== *)
(** * src/app/api/plant-disease/route.ts                               *)
(* ================================================================== *)

Module Route.
Import Js Prog Http.
Local Open Scope prog_scope.

(** ** The world of the handler *)

Inductive Event : Type -> Type :=
| fetch (url : string) (init : RequestInit) : Event FetchResult
| Date_toISOString : Event string.     (* new Date().toISOString() *)

Definition Handler := Prog.t Event.

(** [process.env] *)
Record Env : Type := {
  GROQ_API_KEY : option string
}.

(** The incoming request: the outcome of [request.json()]. *)
Record NextRequest : Type := {
  request_json : option value
}.

(** What [NextResponse.json(body, { status })] builds. *)
Record NextResponse : Type := {
  res_body : value;
  res_status : Z
}.

Definition NextResponse_json (b : value) (st : Z) : NextResponse :=
  {| res_body := b; res_status := st |}.

(** ** Text constants *)

Definition nl : string := String (ascii_of_nat 10) "".
Definition dq : string := String (ascii_of_nat 34) "".
Definition quoted (s : string) : string := dq ++ s ++ dq.

Definition endpoint : string := "https://api.groq.com/openai/v1/chat/completions".

Definition vision_prompt : string :=
  "You are an expert plant pathologist and agricultural specialist in India. Analyze this plant/leaf image and identify any diseases or health issues." ++ nl ++
  nl ++
  "IMPORTANT: Respond ONLY with valid JSON (no other text) in this format:" ++ nl ++
  "{" ++ nl ++
  "  " ++ quoted "disease" ++ ": " ++ quoted "Disease name or 'Healthy Plant'" ++ "," ++ nl ++
  "  " ++ quoted "confidence" ++ ": 0.85," ++ nl ++
  "  " ++ quoted "description" ++ ": " ++ quoted "Brief description of the condition" ++ "," ++ nl ++
  "  " ++ quoted "symptoms" ++ ": [" ++ quoted "symptom 1" ++ ", " ++ quoted "symptom 2" ++ ", " ++ quoted "symptom 3" ++ "]," ++ nl ++
  "  " ++ quoted "treatment" ++ ": [" ++ quoted "treatment 1" ++ ", " ++ quoted "treatment 2" ++ "]," ++ nl ++
  "  " ++ quoted "prevention" ++ ": [" ++ quoted "prevention 1" ++ ", " ++ quoted "prevention 2" ++ "]" ++ nl ++
  "}" ++ nl ++
  nl ++
  "Be specific and accurate based on what you observe.".

(** [language === 'hi' ? 'Hindi' : language === 'kn' ? 'Kannada' : 'English'] *)
Definition language_name (language : value) : string :=
  match language with
  | Str s => if (s =? "hi")%string then "Hindi"
             else if (s =? "kn")%string then "Kannada" else "English"
  | _ => "English"
  end.

Definition treatment_system_prompt (language : value) : string :=
  "You are an expert agricultural advisor from India's Ministry of Agriculture. Provide practical advice for Indian farmers in " ++ language_name language ++ "." ++ nl ++
  nl ++
  "Be specific with:" ++ nl ++
  "- Cost estimates in â‚¹" ++ nl ++
  "- Local remedy options" ++ nl ++
  "- Government schemes applicable" ++ nl ++
  "- Day-by-day action plan".

Definition treatment_user_prompt (disease symptoms : string) : string :=
  "Disease: " ++ disease ++ nl ++
  "Symptoms: " ++ symptoms ++ nl ++
  nl ++
  "Provide practical treatment and prevention advice suitable for Karnataka farmers.".

Definition guidance_system_prompt (language : value) : string :=
  "You are a helpful agricultural AI assistant providing guidance to Indian farmers. Respond in " ++ language_name language ++ ".".

Definition guidance_user_prompt : string :=
  "A farmer wants to diagnose their plant disease. Since direct image analysis is temporarily unavailable, provide general guidance on:" ++ nl ++
  "1. How to identify common plant diseases in Karnataka" ++ nl ++
  "2. Common symptoms to look for" ++ nl ++
  "3. When to contact an agricultural expert" ++ nl ++
  nl ++
  "Keep it simple and practical for farmers.".

(** ** The three upstream requests *)

Definition post_json (groqApiKey : string) (b : value) : RequestInit :=
  {| method := "POST";
     headers := [("Authorization", "Bearer " ++ groqApiKey);
                 ("Content-Type", "application/json")];
     body := b |}.

Definition text_message (role content : string) : value :=
  Obj [("role", Str role); ("content", Str content)].

Definition vision_request (groqApiKey : string) (imageBase64 : value) : RequestInit :=
  post_json groqApiKey
    (Obj [("model", Str "meta-llama/llama-4-scout-17b-16e-instruct");
          ("messages",
           Arr [Obj [("role", Str "user");
                     ("content",
                      Arr [Obj [("type", Str "text"); ("text", Str vision_prompt)];
                           Obj [("type", Str "image_url");
                                ("image_url", Obj [("url", imageBase64)])]])]]);
          ("temperature", Num (3 # 10));
          ("max_tokens", Num (1024 # 1))]).

Definition treatment_request (groqApiKey : string) (language : value)
    (disease symptoms : string) : RequestInit :=
  post_json groqApiKey
    (Obj [("model", Str "llama-3.3-70b-versatile");
          ("messages",
           Arr [text_message "system" (treatment_system_prompt language);
                text_message "user" (treatment_user_prompt disease symptoms)]);
          ("temperature", Num (7 # 10));
          ("max_tokens", Num (1024 # 1))]).

Definition guidance_request (groqApiKey : string) (language : value) : RequestInit :=
  post_json groqApiKey
    (Obj [("model", Str "llama-3.3-70b-versatile");
          ("messages",
           Arr [text_message "system" (guidance_system_prompt language);
                text_message "user" guidance_user_prompt]);
          ("temperature", Num (7 # 10));
          ("max_tokens", Num (1024 # 1))]).

(** ** Steps shared by the calls *)

Section Handler.
Variable rt : Runtime.
Variable env : Env.

(** [await fetch(endpoint, init)] *)
Definition await_fetch (init : RequestInit) : Handler Response :=
  r <- trigger (fetch endpoint init) ;;
  match r with
  | Rejected => Throw (raise rt FetchFailed)
  | Answered resp => Ret resp
  end.

(** [await response.json()] *)
Definition await_json (resp : Response) : Handler value :=
  match json resp with
  | Some v => Ret v
  | None => Throw (raise rt BadJSON)
  end.

(** [data.choices?.[0]?.message?.content] *)
Definition choice_content (data : value) : Handler (option value) :=
  match get data "choices" with
  | None => Throw (raise rt (ReadOfNull "choices"))
  | Some choices =>
      Ret (get_opt (get_opt (index0_opt choices) "message") "content")
  end.

(** [v === word] *)
Definition is_word (word : string) (v : value) : bool :=
  match v with
  | Str s => (s =? word)%string
  | _ => false
  end.

(** [errorData.error?.message?.includes(word)], as a condition.  A string
    message is searched for the word, an array message for an element equal
    to it; any other message that is not [null] has no callable
    [includes]. *)
Definition error_mentions (errorData : value) (word : string) : Handler bool :=
  match get errorData "error" with
  | None => Throw (raise rt (ReadOfNull "error"))
  | Some err =>
      match get_opt err "message" with
      | None => Ret false
      | Some Null => Ret false
      | Some (Str s) => Ret (includes word s)
      | Some (Arr items) => Ret (existsb (is_word word) items)
      | Some _ => Throw (raise rt (NotAFunction "includes"))
      end
  end.

(** A template-literal substitution [${v}]. *)
Definition interpolate (o : option value) : Handler string :=
  match o with
  | None => Ret "undefined"
  | Some v =>
      match to_string rt v with
      | Some s => Ret s
      | None => Throw (raise rt NoPrimitive)
      end
  end.

(** [o.join(sep)] *)
Definition call_join (o : option value) (sep : string) : Handler string :=
  match o with
  | Some (Arr items) =>
      match join rt sep items with
      | Some s => Ret s
      | None => Throw (raise rt NoPrimitive)
      end
  | _ => Throw (raise rt (NotAFunction "join"))
  end.

(** ** [getFallbackAnalysis] (lines 162-221) *)

Definition guidance_payload (guidanceContent : option value)
    (analysisTimestamp : string) (language : value) : value :=
  Obj [("disease", Str "Analysis Service - Use Guidance");
       ("confidence", Num (6 # 10));
       ("description", Str "Direct image analysis is temporarily unavailable. Follow the guidance below to diagnose your plant.");
       ("symptoms", Arr [Str "Image upload successful";
                         Str "Please use the recommendations below"]);
       ("treatment", Arr [Str "Upload a clear, well-lit image of affected leaf";
                          Str "Include both affected and healthy parts";
                          Str "Ensure good camera focus"]);
       ("prevention", Arr [Str "Contact local Agricultural Department for precise diagnosis"]);
       ("aiGeneratedTreatment",
        or_else guidanceContent
          (Str "Please try uploading your image again or contact your local Krishi Vigyan Kendra (KVK) for expert assistance."));
       ("fallbackMode", Bool true);
       ("analysisTimestamp", Str analysisTimestamp);
       ("language", language)].

Definition unavailable_payload (analysisTimestamp : string) : value :=
  Obj [("disease", Str "Service Temporarily Unavailable");
       ("confidence", Num 0);
       ("description", Str "The AI plant disease analysis service is currently unavailable.");
       ("symptoms", Arr [Str "Service error - please try again later"]);
       ("treatment", Arr [Str "Try uploading again in a few moments";
                          Str "Contact your local Agricultural Department"]);
       ("prevention", Arr []);
       ("aiGeneratedTreatment", Str "For immediate assistance, please contact your nearest Krishi Vigyan Kendra (KVK) or Agricultural Extension Office in your district.");
       ("fallbackMode", Bool true);
       ("analysisTimestamp", Str analysisTimestamp)].

Definition getFallbackAnalysis (groqApiKey : string) (language : value)
  : Handler NextResponse :=
  try_catch
    (fallbackResponse <- await_fetch (guidance_request groqApiKey language) ;;
     fallbackData <- await_json fallbackResponse ;;
     guidanceContent <- choice_content fallbackData ;;
     now <- trigger Date_toISOString ;;
     Ret (NextResponse_json (guidance_payload guidanceContent now language) 200))
    (fun fallbackError =>
       now <- trigger Date_toISOString ;;
       Ret (NextResponse_json (unavailable_payload now) 200)).

(** ** [POST] (lines 3-159) *)

(** Lines 82-92: the direct parse, and in its [catch] the parse of the
    brace-delimited span. *)
Definition parse_analysis (analysisContent : value) : Handler value :=
  try_catch
    (match JSON_parse_value rt analysisContent with
     | Some analysis => Ret analysis
     | None => Throw (raise rt BadJSON)
     end)
    (fun e =>
       match analysisContent with
       | Str text =>
           match match_braces text with
           | Some jsonMatch0 =>
               match JSON_parse rt jsonMatch0 with
               | Some analysis => Ret analysis
               | None => Throw (raise rt BadJSON)
               end
           | None => Throw (Error "Invalid response format")
           end
       | _ => Throw (raise rt (NotAFunction "match"))
       end).

(** [analysis.k], a [TypeError] when [analysis] is [null]. *)
Definition read (analysis : value) (k : string) : Handler (option value) :=
  match get analysis k with
  | Some o => Ret o
  | None => Throw (raise rt (ReadOfNull k))
  end.

(** Lines 94-96 *)
Definition validate (analysis : value) : Handler unit :=
  disease <- read analysis "disease" ;;
  if negb (truthy_opt disease) then Throw (Error "Invalid analysis structure")
  else
    symptoms <- read analysis "symptoms" ;;
    if negb (isArray symptoms) then Throw (Error "Invalid analysis structure")
    else Ret tt.

(** Lines 136-141 *)
Definition enhancedAnalysis (analysis : value) (treatmentContent : option value)
    (analysisTimestamp : string) (language : value) : value :=
  Obj (set "language" language
        (set "analysisTimestamp" (Str analysisTimestamp)
          (set "aiGeneratedTreatment" (or_else treatmentContent (Str ""))
            (spread analysis)))).

(** Lines 100-143: the narrative call and the merge. *)
Definition narrate (groqApiKey : string) (language : value) (analysis : value)
  : Handler NextResponse :=
  disease <- read analysis "disease" ;;
  diseaseText <- interpolate disease ;;
  symptoms <- read analysis "symptoms" ;;
  symptomsText <- call_join symptoms ", " ;;
  treatmentResponse <-
    await_fetch (treatment_request groqApiKey language diseaseText symptomsText) ;;
  treatmentData <- await_json treatmentResponse ;;
  treatmentContent <- choice_content treatmentData ;;
  now <- trigger Date_toISOString ;;
  Ret (NextResponse_json
         (enhancedAnalysis analysis treatmentContent now language) 200).

(** Lines 62-143: what follows the arrival of the vision response. *)
Definition on_vision_response (groqApiKey : string) (language : value)
    (response : Response) : Handler NextResponse :=
  if negb (ok response) then
    errorData <- await_json response ;;
    image <- error_mentions errorData "image" ;;
    unsupported <-
      (if image then Ret true else error_mentions errorData "vision") ;;
    if (unsupported : bool) then getFallbackAnalysis groqApiKey language
    else Throw (Error ("Groq API error: " ++ string_of_Z (status response)))
  else
    data <- await_json response ;;
    analysisContent <- choice_content data ;;
    match analysisContent with
    | None => Throw (Error "No content in response")
    | Some content =>
        if negb (truthy content) then Throw (Error "No content in response")
        else
          analysis <- parse_analysis content ;;
          validate analysis ;;;
          narrate groqApiKey language analysis
    end.

(** Lines 18-143: the block of the inner [try]. *)
Definition vision_tier (groqApiKey : string) (imageBase64 language : value)
  : Handler NextResponse :=
  response <- await_fetch (vision_request groqApiKey imageBase64) ;;
  on_vision_response groqApiKey language response.

(** Lines 18-147: the inner [try] and its [catch]. *)
Definition analyse (groqApiKey : string) (imageBase64 language : value)
  : Handler NextResponse :=
  try_catch
    (vision_tier groqApiKey imageBase64 language)
    (fun groqError => getFallbackAnalysis groqApiKey language).

(** Line 5: [const { imageBase64, language = 'en' } = await request.json()] *)
Definition destructure (b : value) : Handler (option value * value) :=
  match get b "imageBase64", get b "language" with
  | Some imageBase64, Some language =>
      Ret (imageBase64,
           match language with
           | Some l => l
           | None => Str "en"
           end)
  | _, _ => Throw (raise rt (ReadOfNull "imageBase64"))
  end.

Definition POST (request : NextRequest) : Handler NextResponse :=
  try_catch
    (b <- match request_json request with
          | Some v => Ret v
          | None => Throw (raise rt BadJSON)
          end ;;
     args <- destructure b ;;
     let (imageBase64, language) := (args : option value * value) in
     match imageBase64 with
     | None => Ret (NextResponse_json (Obj [("error", Str "No image provided")]) 400)
     | Some image =>
         if negb (truthy image) then
           Ret (NextResponse_json (Obj [("error", Str "No image provided")]) 400)
         else
           match GROQ_API_KEY env with
           | None =>
               Ret (NextResponse_json (Obj [("error", Str "Groq API key not configured")]) 500)
           | Some groqApiKey =>
               if (groqApiKey =? "")%string then
                 Ret (NextResponse_json (Obj [("error", Str "Groq API key not configured")]) 500)
               else analyse groqApiKey image language
           end
     end)
    (fun error =>
       Ret (NextResponse_json
              (Obj [("error", Str "Analysis service temporarily unavailable");
                    ("details", Str (message error))]) 500)).
End Handler.

(** ** Worlds *)

(** A world answers a [fetch] and reads the clock as a function of the calls
    made so far in the request being served; any deterministic upstream is of
    this form, and the theorems quantify over all of them. *)
Record World : Type := {
  upstream : list Call -> RequestInit -> FetchResult;
  clock : list Call -> string
}.

Definition answer (w : World) (X : Type) (ev : Event X) (calls : list Call)
  : X * list Call :=
  match ev in Event T return T * list Call with
  | fetch url init => (upstream w calls init, (calls ++ [(url, init)])%list)
  | Date_toISOString => (clock w calls, calls)
  end.

(** The run of a handler that has already made the calls [calls]: its
    outcome and the calls made when it ends. *)
Definition run_from (w : World) (A : Type) (p : Handler A) (calls : list Call)
  : outcome A * list Call :=
  run (answer w) p calls.

Definition exec (w : World) (A : Type) (p : Handler A) : outcome A * list Call :=
  run_from w p [].

(** The three calls. *)
Definition vision_call (groqApiKey : string) (imageBase64 : value) : Call :=
  (endpoint, vision_request groqApiKey imageBase64).

Definition treatment_call (groqApiKey : string) (language : value)
    (disease symptoms : string) : Call :=
  (endpoint, treatment_request groqApiKey language disease symptoms).

Definition guidance_call (groqApiKey : string) (language : value) : Call :=
  (endpoint, guidance_request groqApiKey language).

(** A call is raised on, in the sense of the [catch] blocks, when [fetch]
    rejects, when the body cannot be read as JSON, or when the body is
    [null] (the read of [choices] then throws). *)
Definition raises (r : FetchResult) : bool :=
  match r with
  | Rejected => true
  | Answered resp =>
      match json resp with
      | None => true
      | Some Null => true
      | Some _ => false
      end
  end.

(** The content a call that does not raise delivers. *)
Definition content_of (r : FetchResult) : option value :=
  match r with
  | Answered {| json := Some data |} =>
      get_opt (get_opt (index0_opt (get_opt (Some data) "choices")) "message") "content"
  | _ => None
  end.

(** ** The data model of the specification *)

(** The spans of a text that start with an opening and end with a closing
    brace. *)
Fixpoint closings (s : string) : list string :=
  match s with
  | EmptyString => []
  | String c r =>
      ((if Ascii.eqb c "}" then [String c ""] else []) ++ map (String c) (closings r))%list
  end.

Fixpoint spans (s : string) : list string :=
  match s with
  | EmptyString => []
  | String c r =>
      ((if Ascii.eqb c "{" then map (String c) (closings r) else []) ++ spans r)%list
  end.

Definition parseable (rt : Runtime) (s : string) : bool :=
  match JSON_parse rt s with
  | Some _ => true
  | None => false
  end.

(** The text is neither JSON itself nor contains a brace-delimited span that
    is. *)
Definition malformed (rt : Runtime) (text : string) : bool :=
  negb (parseable rt text) && negb (existsb (parseable rt) (spans text)).

(** The text is not JSON itself, and neither is the span located in it: the
    first match of [/\{[\s\S]*\}/], which runs from the first opening brace to
    the last closing brace. *)
Definition unparsed (rt : Runtime) (text : string) : bool :=
  negb (parseable rt text) &&
  match match_braces text with
  | Some located => negb (parseable rt located)
  | None => true
  end.

Definition is_text (o : option value) : bool :=
  match o with
  | Some (Str _) => true
  | _ => false
  end.

Definition is_number (o : option value) : bool :=
  match o with
  | Some (Num _) => true
  | _ => false
  end.

Definition is_text_value (v : value) : bool :=
  match v with
  | Str _ => true
  | _ => false
  end.

Definition is_texts (o : option value) : bool :=
  match o with
  | Some (Arr items) => forallb is_text_value items
  | _ => false
  end.

(** Follows the specification's data model (section 3): a DiseaseAnalysis
    has a textual [disease], [description] and [aiGeneratedTreatment], a
    numeric [confidence], and sequences of text for [symptoms], [treatment]
    and [prevention].  [language] and [fallbackMode] are not required: the
    specification itself lets them be absent. *)
Definition spec_DiseaseAnalysis (v : value) : bool :=
  match v with
  | Obj fields =>
      is_text (lookup "disease" fields) &&
      is_number (lookup "confidence" fields) &&
      is_text (lookup "description" fields) &&
      is_texts (lookup "symptoms" fields) &&
      is_texts (lookup "treatment" fields) &&
      is_texts (lookup "prevention" fields) &&
      is_text (lookup "aiGeneratedTreatment" fields)
  | _ => false
  end.

Definition field (b : value) (k : string) : option value :=
  get_opt (Some b) k.

(** ** Vocabulary of the statements *)

(** A step that has no event: it returns or throws on the spot. *)
Definition settled (A : Type) (p : Handler A) : Prop :=
  (exists a, p = Ret a) \/ (exists e, p = Throw e).

(** What a call that raises throws. *)
Definition failure (r : FetchResult) : Fault :=
  match r with
  | Rejected => FetchFailed
  | Answered resp =>
      match json resp with
      | None => BadJSON
      | Some _ => ReadOfNull "choices"
      end
  end.

(** The request passes the two guards of [POST]: the body was read, it has a
    truthy [imageBase64], and the credential is configured.  [language] is
    the language the handler goes on with. *)
Definition accepted (env : Env) (request : NextRequest)
    (groqApiKey : string) (imageBase64 language : value) : Prop :=
  exists b,
    request_json request = Some b /\
    get b "imageBase64" = Some (Some imageBase64) /\
    truthy imageBase64 = true /\
    language = match field b "language" with
               | Some l => l
               | None => Str "en"
               end /\
    GROQ_API_KEY env = Some groqApiKey /\
    groqApiKey <> "".

(** Steps 2 to 4 pass on the vision response: it is a 2xx response whose
    body is read, has content, parses to [analysis] and passes the structural
    validation. *)
Definition primary_succeeds (rt : Runtime) (r : FetchResult) (analysis : value)
  : Prop :=
  exists resp content,
    r = Answered resp /\
    ok resp = true /\
    raises r = false /\
    content_of r = Some content /\
    truthy content = true /\
    parse_analysis rt content = Ret analysis /\
    validate rt analysis = Ret tt.

(** The vision response reports that the model cannot take images: it is not
    a 2xx response and the message of its error mentions the image or
    vision (lines 62-70). *)
Definition unsupported (rt : Runtime) (resp : Response) : Prop :=
  ok resp = false /\
  exists errorData,
    json resp = Some errorData /\
    (error_mentions rt errorData "image" = Ret true \/
     (error_mentions rt errorData "image" = Ret false /\
      error_mentions rt errorData "vision" = Ret true)).

(** The vision tier fails after the calls [calls]: its block throws, or it
    hands over to the fallback sub-flow on an unsupported image. *)
Definition vision_tier_fails (rt : Runtime) (w : World) (groqApiKey : string)
    (imageBase64 language : value) (calls : list Call) : Prop :=
  (exists e,
     run_from w (vision_tier rt groqApiKey imageBase64 language) [] =
     (Raised e, calls)) \/
  (calls = [vision_call groqApiKey imageBase64] /\
   exists resp,
     upstream w [] (vision_request groqApiKey imageBase64) = Answered resp /\
     unsupported rt resp).

End Route.


(* ================================================================== *)
(** * The chat submission flow of [AICallAgentModal]                   *)
(* ================================================================== *)

Module Chat.
Import Js Prog Http.
Local Open Scope prog_scope.

(** ** [String.prototype.trim] *)

Definition byte (c : ascii) : N := N_of_ascii c.

(** The code point of one UTF-8 encoded character. *)
Definition code_point (ch : string) : N :=
  match ch with
  | String a EmptyString => byte a
  | String a (String b EmptyString) =>
      N.lor (N.shiftl (N.land (byte a) 31) 6) (N.land (byte b) 63)
  | String a (String b (String c EmptyString)) =>
      N.lor (N.shiftl (N.land (byte a) 15) 12)
        (N.lor (N.shiftl (N.land (byte b) 63) 6) (N.land (byte c) 63))
  | String a (String b (String c (String d EmptyString))) =>
      N.lor (N.shiftl (N.land (byte a) 7) 18)
        (N.lor (N.shiftl (N.land (byte b) 63) 12)
           (N.lor (N.shiftl (N.land (byte c) 63) 6) (N.land (byte d) 63)))
  | _ => 65533
  end%N.

(** WhiteSpace and LineTerminator of ECMAScript. *)
Definition is_space (cp : N) : bool :=
  ((cp =? 9) || (cp =? 10) || (cp =? 11) || (cp =? 12) || (cp =? 13) ||
   (cp =? 32) || (cp =? 160) || (cp =? 5760) ||
   ((8192 <=? cp) && (cp <=? 8202)) ||
   (cp =? 8232) || (cp =? 8233) || (cp =? 8239) || (cp =? 8287) ||
   (cp =? 12288) || (cp =? 65279))%N.

Fixpoint characters (fuel : nat) (s : string) : list string :=
  match fuel, s with
  | S fuel', String c r =>
      String c (take_continuation r) :: characters fuel' (drop_continuation r)
  | _, _ => []
  end.

Fixpoint drop_spaces (l : list string) : list string :=
  match l with
  | ch :: rest => if is_space (code_point ch) then drop_spaces rest else l
  | [] => []
  end.

Definition trim (s : string) : string :=
  String.concat ""
    (rev (drop_spaces (rev (drop_spaces (characters (String.length s) s))))).

(** ** The component's state and its messages *)

Inductive Role : Type := user | assistant.

Record Message : Type := {
  id : string;
  role : Role;
  content : value;
  timestamp : Z        (* a [Date], as milliseconds since the epoch *)
}.

(** What [codes[loc] || 'en-US'] evaluates to.  [codes] is an object
    literal, so that the read also finds the members it inherits from
    [Object.prototype]: a function, or for [__proto__] the prototype itself,
    which are truthy and returned as they are. *)
Inductive LanguageCode : Type :=
| Code (code : string)
| Inherited (name : string).       (* [Object.prototype[name]] *)

Inductive Event : Type -> Type :=
| Date_now : Event Z                              (* Date.now() *)
| new_Date : Event Z                              (* new Date() *)
| setMessages_append (m : Message) : Event unit   (* setMessages(prev => [...prev, m]) *)
| setInput (s : string) : Event unit
| setIsLoading (b : bool) : Event unit
| fetch (url : string) (init : RequestInit) : Event FetchResult
| speak (text : value) (lang : LanguageCode) : Event bool.
    (* the speech-synthesis calls of [speakText]; [false]: one of them threw *)

Definition Flow := Prog.t Event.

Section Component.
Variable rt : Runtime.

(** The values the callback closes over (its dependency list). *)
Variable isLoading : bool.
Variable locale : string.
Variable isMuted : bool.

(** [getLanguageCode] *)
Definition codes : list (string * string) :=
  [("en", "en-US"); ("hi", "hi-IN"); ("kn", "kn-IN"); ("ta", "ta-IN");
   ("te", "te-IN"); ("bn", "bn-IN"); ("ml", "ml-IN"); ("ur", "ur-IN")].

Fixpoint assoc (k : string) (table : list (string * string)) : option string :=
  match table with
  | [] => None
  | (k', v) :: rest => if (k =? k')%string then Some v else assoc k rest
  end.

(** The properties of [Object.prototype] (ECMAScript, with its annex B). *)
Definition Object_prototype : list string :=
  ["constructor"; "__proto__"; "hasOwnProperty"; "isPrototypeOf";
   "propertyIsEnumerable"; "toLocaleString"; "toString"; "valueOf";
   "__defineGetter__"; "__defineSetter__"; "__lookupGetter__";
   "__lookupSetter__"].

Definition getLanguageCode (loc : string) : LanguageCode :=
  match assoc loc codes with
  | Some code => if (code =? "")%string then Code "en-US" else Code code
  | None =>
      if existsb (String.eqb loc) Object_prototype then Inherited loc
      else Code "en-US"
  end.

(** [speakText]: everything happens inside its own [try], the [catch] only
    logs. *)
Definition speakText (text : value) : Flow unit :=
  try_catch
    (spoken <- trigger (speak text (getLanguageCode locale)) ;;
     if (spoken : bool) then
       match text with
       | Str _ => Ret tt                                    (* text.substring(0, 50) *)
       | _ => Throw (raise rt (NotAFunction "substring"))
       end
     else Throw (raise rt HostFailure))
    (fun error => Ret tt).

Definition query_request (messageText : string) : RequestInit :=
  {| method := "POST";
     headers := [("Content-Type", "application/json")];
     body := Obj [("query", Str messageText); ("language", Str locale)] |}.

Definition apology : string := "Sorry, there was an error. Please try again.".

(** [submitMessage] (lines 358-415) *)
Definition submitMessage (messageText : string) : Flow unit :=
  if (trim messageText =? "")%string || isLoading then Ret tt
  else
    now <- trigger Date_now ;;
    date <- trigger new_Date ;;
    let userMessage :=
      {| id := string_of_Z now; role := user;
         content := Str messageText; timestamp := date |} in
    trigger (setMessages_append userMessage) ;;;
    trigger (setInput "") ;;;
    trigger (setIsLoading true) ;;;
    try_finally
      (try_catch
         (r <- trigger (fetch "/api/groq-query" (query_request messageText)) ;;
          response <- match r with
                      | Rejected => Throw (raise rt FetchFailed)
                      | Answered resp => Ret resp
                      end ;;
          if negb (ok response) then Throw (Error "API call failed")
          else
            data <- match json response with
                    | Some v => Ret v
                    | None => Throw (raise rt BadJSON)
                    end ;;
            now <- trigger Date_now ;;
            response_text <- match get data "response" with
                             | Some o => Ret o
                             | None => Throw (raise rt (ReadOfNull "response"))
                             end ;;
            date <- trigger new_Date ;;
            let assistantMessage :=
              {| id := string_of_Z (now + 1); role := assistant;
                 content := or_else response_text (Str "No response from AI");
                 timestamp := date |} in
            trigger (setMessages_append assistantMessage) ;;;
            match response_text with
            | Some text =>
                if negb isMuted && truthy text then speakText text else Ret tt
            | None => Ret tt
            end)
         (fun error =>
            now <- trigger Date_now ;;
            date <- trigger new_Date ;;
            let errorMessage :=
              {| id := string_of_Z (now + 2); role := assistant;
                 content := Str apology; timestamp := date |} in
            trigger (setMessages_append errorMessage)))
      (trigger (setIsLoading false)).
End Component.

(** ** Sessions: the state of the component and the world around it *)

Record World : Type := {
  server : list Call -> RequestInit -> FetchResult;
  time : nat -> Z;                  (* the successive readings of the clock *)
  speech : value -> bool
}.

Record Session : Type := {
  messages : list Message;
  input : string;
  loading : bool;
  requests : list Call;             (* the network requests issued so far *)
  ticks : nat                       (* the clock readings taken so far *)
}.

Definition answer (w : World) (X : Type) (ev : Event X) (s : Session)
  : X * Session :=
  match ev in Event T return T * Session with
  | Date_now =>
      (time w (ticks s),
       {| messages := messages s; input := input s; loading := loading s;
          requests := requests s; ticks := S (ticks s) |})
  | new_Date =>
      (time w (ticks s),
       {| messages := messages s; input := input s; loading := loading s;
          requests := requests s; ticks := S (ticks s) |})
  | setMessages_append m =>
      (tt,
       {| messages := (messages s ++ [m])%list; input := input s;
          loading := loading s; requests := requests s; ticks := ticks s |})
  | setInput v =>
      (tt,
       {| messages := messages s; input := v; loading := loading s;
          requests := requests s; ticks := ticks s |})
  | setIsLoading b =>
      (tt,
       {| messages := messages s; input := input s; loading := b;
          requests := requests s; ticks := ticks s |})
  | fetch url init =>
      (server w (requests s) init,
       {| messages := messages s; input := input s; loading := loading s;
          requests := (requests s ++ [(url, init)])%list; ticks := ticks s |})
  | speak text lang => (speech w text, s)
  end.

Definition exec (w : World) (A : Type) (p : Flow A) (s : Session)
  : outcome A * Session :=
  run (answer w) p s.

End Chat.


(* ================================================================== *)
(** * A reference engine                                               *)
(* ================================================================== *)

(** The theorems below hold for every [Runtime].  To evaluate the handlers
    on concrete inputs an engine is needed; this one reads JSON by the
    grammar of RFC 8259 and prints numbers in plain decimal notation. *)

Module Engine.
Import Js.

Definition quote : ascii := ascii_of_nat 34.
Definition backslash : ascii := ascii_of_nat 92.

Definition is_digit (c : ascii) : bool :=
  let n := N_of_ascii c in ((48 <=? n) && (n <=? 57))%N.

Definition digit (c : ascii) : Z := Z.of_N (N_of_ascii c) - 48.

Definition is_ws (c : ascii) : bool :=
  let n := N_of_ascii c in ((n =? 32) || (n =? 9) || (n =? 10) || (n =? 13))%N.

Fixpoint skip_ws (s : string) : string :=
  match s with
  | String c r => if is_ws c then skip_ws r else s
  | EmptyString => s
  end.

(** A run of digits: its value, its length and what follows it. *)
Fixpoint digits (acc : Z) (n : nat) (s : string) : Z * nat * string :=
  match s with
  | String c r =>
      if is_digit c then digits (10 * acc + digit c) (S n) r else (acc, n, s)
  | EmptyString => (acc, n, s)
  end.

Definition scale (m : Z) (e : Z) : Q :=
  if 0 <=? e then Qred ((m * 10 ^ e) # 1)
  else Qred (m # Z.to_pos (10 ^ (- e))).

Definition parse_exponent (s : string) : option (Z * string) :=
  match s with
  | String c r =>
      if Ascii.eqb c "e" || Ascii.eqb c "E" then
        let (negative, r1) :=
          match r with
          | String d r' =>
              if Ascii.eqb d "-" then (true, r')
              else if Ascii.eqb d "+" then (false, r') else (false, r)
          | EmptyString => (false, r)
          end in
        match digits 0 0 r1 with
        | (_, O, _) => None
        | (v, _, rest) => Some (if negative then - v else v, rest)
        end
      else Some (0, s)
  | EmptyString => Some (0, s)
  end.

Definition parse_fraction (s : string) : option (Z * nat * string) :=
  match s with
  | String c r =>
      if Ascii.eqb c "." then
        match digits 0 0 r with
        | (_, O, _) => None
        | (v, n, rest) => Some (v, n, rest)
        end
      else Some (0, O, s)
  | EmptyString => Some (0, O, s)
  end.

Definition parse_number (s : string) : option (Q * string) :=
  let (negative, s1) :=
    match s with
    | String c r => if Ascii.eqb c "-" then (true, r) else (false, s)
    | EmptyString => (false, s)
    end in
  match s1 with
  | String c r =>
      if is_digit c then
        let (whole, rest) :=
          if Ascii.eqb c "0" then (0, r)
          else match digits 0 0 s1 with (v, _, r') => (v, r') end in
        match parse_fraction rest with
        | None => None
        | Some (frac, places, rest1) =>
            match parse_exponent rest1 with
            | None => None
            | Some (e, rest2) =>
                let m := whole * 10 ^ Z.of_nat places + frac in
                Some (scale (if negative then - m else m) (e - Z.of_nat places),
                      rest2)
            end
        end
      else None
  | EmptyString => None
  end.

Definition hex (c : ascii) : option N :=
  let n := N_of_ascii c in
  if ((48 <=? n) && (n <=? 57))%N then Some (n - 48)%N
  else if ((97 <=? n) && (n <=? 102))%N then Some (n - 87)%N
  else if ((65 <=? n) && (n <=? 70))%N then Some (n - 55)%N
  else None.

Definition utf8 (cp : N) : string :=
  if (cp <? 128)%N then String (ascii_of_N cp) ""
  else if (cp <? 2048)%N then
    String (ascii_of_N (192 + N.shiftr cp 6))
      (String (ascii_of_N (128 + N.land cp 63)) "")
  else
    String (ascii_of_N (224 + N.shiftr cp 12))
      (String (ascii_of_N (128 + N.land (N.shiftr cp 6) 63))
         (String (ascii_of_N (128 + N.land cp 63)) "")).

Definition escape (e : ascii) : option string :=
  if Ascii.eqb e quote then Some (String quote "")
  else if Ascii.eqb e backslash then Some (String backslash "")
  else if Ascii.eqb e "/" then Some "/"
  else if Ascii.eqb e "b" then Some (String (ascii_of_nat 8) "")
  else if Ascii.eqb e "f" then Some (String (ascii_of_nat 12) "")
  else if Ascii.eqb e "n" then Some (String (ascii_of_nat 10) "")
  else if Ascii.eqb e "r" then Some (String (ascii_of_nat 13) "")
  else if Ascii.eqb e "t" then Some (String (ascii_of_nat 9) "")
  else None.

(** The characters of a string literal after its opening quote. *)
Fixpoint parse_chars (s : string) : option (string * string) :=
  match s with
  | EmptyString => None
  | String c r =>
      if Ascii.eqb c quote then Some ("", r)
      else if Ascii.eqb c backslash then
        match r with
        | String e r1 =>
            if Ascii.eqb e "u" then
              match r1 with
              | String h1 (String h2 (String h3 (String h4 r2))) =>
                  match hex h1, hex h2, hex h3, hex h4, parse_chars r2 with
                  | Some a, Some b, Some c', Some d, Some (tail, rest) =>
                      Some (utf8 (4096 * a + 256 * b + 16 * c' + d)%N ++ tail, rest)
                  | _, _, _, _, _ => None
                  end
              | _ => None
              end
            else
              match escape e, parse_chars r1 with
              | Some x, Some (tail, rest) => Some (x ++ tail, rest)
              | _, _ => None
              end
        | EmptyString => None
        end
      else if (N_of_ascii c <? 32)%N then None
      else
        match parse_chars r with
        | Some (tail, rest) => Some (String c tail, rest)
        | None => None
        end
  end.

Definition drop (n : nat) (s : string) : string :=
  substring n (String.length s - n) s.

Fixpoint parse_value (fuel : nat) (s : string) : option (value * string) :=
  match fuel with
  | O => None
  | S fuel' =>
      let s := skip_ws s in
      match s with
      | EmptyString => None
      | String c r =>
          if Ascii.eqb c "{" then
            match skip_ws r with
            | String c' r' =>
                if Ascii.eqb c' "}" then Some (Obj [], r')
                else
                  match parse_members fuel' [] r with
                  | Some (fields, rest) => Some (Obj fields, rest)
                  | None => None
                  end
            | EmptyString => None
            end
          else if Ascii.eqb c "[" then
            match skip_ws r with
            | String c' r' =>
                if Ascii.eqb c' "]" then Some (Arr [], r')
                else
                  match parse_elements fuel' r with
                  | Some (items, rest) => Some (Arr items, rest)
                  | None => None
                  end
            | EmptyString => None
            end
          else if Ascii.eqb c quote then
            match parse_chars r with
            | Some (str, rest) => Some (Str str, rest)
            | None => None
            end
          else if is_prefix "true" s then Some (Bool true, drop 4 s)
          else if is_prefix "false" s then Some (Bool false, drop 5 s)
          else if is_prefix "null" s then Some (Null, drop 4 s)
          else
            match parse_number s with
            | Some (q, rest) => Some (Num q, rest)
            | None => None
            end
      end
  end

with parse_elements (fuel : nat) (s : string) : option (list value * string) :=
  match fuel with
  | O => None
  | S fuel' =>
      match parse_value fuel' s with
      | None => None
      | Some (v, rest) =>
          match skip_ws rest with
          | String c r =>
              if Ascii.eqb c "," then
                match parse_elements fuel' r with
                | Some (items, rest') => Some (v :: items, rest')
                | None => None
                end
              else if Ascii.eqb c "]" then Some ([v], r)
              else None
          | EmptyString => None
          end
      end
  end

with parse_members (fuel : nat) (acc : list (string * value)) (s : string)
  : option (list (string * value) * string) :=
  match fuel with
  | O => None
  | S fuel' =>
      match skip_ws s with
      | String c r =>
          if Ascii.eqb c quote then
            match parse_chars r with
            | None => None
            | Some (key, rest) =>
                match skip_ws rest with
                | String c1 r1 =>
                    if Ascii.eqb c1 ":" then
                      match parse_value fuel' r1 with
                      | None => None
                      | Some (v, rest1) =>
                          (* a repeated key keeps its place and takes the
                             later value *)
                          let acc' := set key v acc in
                          match skip_ws rest1 with
                          | String c2 r2 =>
                              if Ascii.eqb c2 "," then parse_members fuel' acc' r2
                              else if Ascii.eqb c2 "}" then Some (acc', r2)
                              else None
                          | EmptyString => None
                          end
                      end
                    else None
                | EmptyString => None
                end
            end
          else None
      | EmptyString => None
      end
  end.

Definition JSON_parse (s : string) : option value :=
  match parse_value (2 * String.length s + 2) s with
  | Some (v, rest) =>
      match skip_ws rest with
      | EmptyString => Some v
      | String _ _ => None
      end
  | None => None
  end.

(** Numbers in decimal notation, with at most seventeen fractional digits and
    no trailing zero. *)
Fixpoint fraction_digits (fuel : nat) (num den : Z) : string :=
  match fuel with
  | O => ""
  | S fuel' =>
      if num =? 0 then ""
      else
        let n10 := 10 * num in
        string_of_Z (n10 / den) ++ fraction_digits fuel' (n10 mod den) den
  end.

Definition Number_toString (q : Q) : string :=
  let num := Qnum q in
  let den := Z.pos (Qden q) in
  let whole := Z.abs num / den in
  let frac := fraction_digits 17 (Z.abs num mod den) den in
  (if num <? 0 then "-" else "") ++ string_of_Z whole ++
  (if (frac =? "")%string then "" else "." ++ frac).

Definition engine_message (f : Fault) : string :=
  match f with
  | ReadOfNull prop =>
      "Cannot read properties of null (reading '" ++ prop ++ "')"
  | NotAFunction name => name ++ " is not a function"
  | NoPrimitive => "Cannot convert object to primitive value"
  | BadJSON => "Unexpected token in JSON"
  | FetchFailed => "fetch failed"
  | HostFailure => "The operation failed"
  end.

Definition runtime : Runtime :=
  {| Js.JSON_parse := JSON_parse;
     Js.Number_toString := Number_toString;
     Js.engine_message := engine_message |}.

End Engine.


(* ================================================================== *)
(** * Scenarios                                                        *)
(* ================================================================== *)

(** Concrete requests, replies and worlds on which the handlers are
    evaluated. *)

Module Scenario.
Import Js Http Route.

Definition env_configured : Env := {| GROQ_API_KEY := Some "gsk_test_key" |}.
Definition env_unconfigured : Env := {| GROQ_API_KEY := None |}.

Definition leaf_image : value := Str "data:image/jpeg;base64,/9j/4AAQSkZJRg==".

Definition request_with_image : NextRequest :=
  {| request_json := Some (Obj [("imageBase64", leaf_image); ("language", Str "en")]) |}.

(** [{imageBase64: "", language: "en"}] *)
Definition request_without_image : NextRequest :=
  {| request_json := Some (Obj [("imageBase64", Str ""); ("language", Str "en")]) |}.

(** A request whose body is the JSON text [null]. *)
Definition request_with_null_body : NextRequest :=
  {| request_json := Some Null |}.

(** A chat-completion reply with one choice. *)
Definition completion (content : string) : FetchResult :=
  Answered
    {| status := 200;
       json := Some (Obj [("choices",
                           Arr [Obj [("index", Num 0);
                                     ("message",
                                      Obj [("role", Str "assistant");
                                           ("content", Str content)])]])]) |}.

(** A world that answers the calls of a request in order, and whose clock
    stands still. *)
Definition scripted (answers : list FetchResult) : World :=
  {| upstream := fun calls _ => nth (List.length calls) answers Rejected;
     clock := fun _ => "2026-01-15T10:30:00.000Z" |}.

Definition pair (k v : string) : string := quoted k ++ ":" ++ v.

(** [{"disease":"Leaf Blight","confidence":0.9,"symptoms":["yellow spots"],
      "treatment":["fungicide"],"prevention":["rotate crops"]}] *)
Definition leaf_blight : string :=
  "{" ++ pair "disease" (quoted "Leaf Blight") ++ "," ++
         pair "confidence" "0.9" ++ "," ++
         pair "symptoms" ("[" ++ quoted "yellow spots" ++ "]") ++ "," ++
         pair "treatment" ("[" ++ quoted "fungicide" ++ "]") ++ "," ++
         pair "prevention" ("[" ++ quoted "rotate crops" ++ "]") ++ "}".

Definition leaf_blight_analysis : value :=
  Obj [("disease", Str "Leaf Blight");
       ("confidence", Num (9 # 10));
       ("symptoms", Arr [Str "yellow spots"]);
       ("treatment", Arr [Str "fungicide"]);
       ("prevention", Arr [Str "rotate crops"])].

(** The same diagnosis without the optional fields. *)
Definition leaf_blight_bare : string :=
  "{" ++ pair "disease" (quoted "Leaf Blight") ++ "," ++
         pair "symptoms" ("[" ++ quoted "yellow spots" ++ "]") ++ "}".

(** The same diagnosis with a confidence in words. *)
Definition leaf_blight_worded : string :=
  "{" ++ pair "disease" (quoted "Leaf Blight") ++ "," ++
         pair "confidence" (quoted "high") ++ "," ++
         pair "description" (quoted "Brown lesions on the leaf") ++ "," ++
         pair "symptoms" ("[" ++ quoted "yellow spots" ++ "]") ++ "," ++
         pair "treatment" ("[" ++ quoted "fungicide" ++ "]") ++ "," ++
         pair "prevention" ("[" ++ quoted "rotate crops" ++ "]") ++ "}".

(** A diagnosis whose symptoms are a single text. *)
Definition scalar_symptoms : string :=
  "{" ++ pair "disease" (quoted "Leaf Blight") ++ "," ++
         pair "symptoms" (quoted "yellow spots") ++ "}".

Definition scalar_symptoms_analysis : value :=
  Obj [("disease", Str "Leaf Blight"); ("symptoms", Str "yellow spots")].

Definition narrative : string := "Spray a copper fungicide at 2 g per litre.".
Definition guidance : string := "Look for spots, wilting and discolouration.".

(** An upstream error reply, with a JSON body. *)
Definition upstream_error (code : Z) (msg : string) : FetchResult :=
  Answered
    {| status := code;
       json := Some (Obj [("error", Obj [("message", Str msg)])]) |}.

(** The worlds of the examples. *)

(** The vision call cannot be reached and the guidance call is turned down
    with a 500 that has a JSON body. *)
Definition guidance_refused : World :=
  scripted [Rejected; upstream_error 500 "Internal server error"].

(** The vision reply is the full diagnosis and the narrative call cannot be
    reached. *)
Definition narrative_unreachable : World :=
  scripted [completion leaf_blight; Rejected; completion guidance].

(** The vision reply is the full diagnosis and the narrative call is turned
    down with a 429 that has a JSON body. *)
Definition narrative_throttled : World :=
  scripted [completion leaf_blight; upstream_error 429 "Rate limit reached"].

(** The vision reply has only the two validated fields. *)
Definition bare_reply : World :=
  scripted [completion leaf_blight_bare; completion narrative].

(** The vision reply has a confidence in words. *)
Definition worded_reply : World :=
  scripted [completion leaf_blight_worded; completion narrative].

(** Everything works. *)
Definition healthy : World :=
  scripted [completion leaf_blight; completion narrative].

(** A reply with the bare diagnosis followed by a second object. *)
Definition two_objects : string :=
  "Diagnosis: " ++ leaf_blight_bare ++ " Source: {" ++ pair "model" (quoted "scout") ++ "}".

End Scenario.


(** Sessions of the chat modal. *)

Module ChatScenario.
Import Js Http Chat.

Definition advice : string := "Water early in the morning, twice a week.".

(** The chat endpoint answers; the clock advances by a millisecond at each
    reading. *)
Definition online : World :=
  {| server := fun _ _ =>
       Answered {| status := 200; json := Some (Obj [("response", Str advice)]) |};
     time := fun n => 1768473000000 + Z.of_nat n;
     speech := fun _ => true |}.

(** The chat endpoint cannot be reached. *)
Definition offline : World :=
  {| server := fun _ _ => Rejected;
     time := fun n => 1768473000000 + Z.of_nat n;
     speech := fun _ => true |}.

Definition question : string := "How often should I water tomatoes?".

Definition typing : Session :=
  {| messages := []; input := question; loading := false;
     requests := []; ticks := 0 |}.


End ChatScenario.


(* ================================================================== *)
(** * Observing programs                                               *)
(* ================================================================== *)

Module Observe.
Import Js Prog.

Section Events.
Variable E : Type -> Type.

(** Every event the program can issue, whatever the answers it gets,
    satisfies [P]. *)
Fixpoint always (P : forall X : Type, E X -> Prop) (A : Type) (p : Prog.t E A)
  : Prop :=
  match p with
  | Ret _ => True
  | Throw _ => True
  | Vis ev k => P _ ev /\ forall x, always P (k x)
  end.

(** Two programs issue the same events in the same order, throw the same
    exceptions, and return values related by [R]. *)
Inductive alike (A : Type) (R : A -> A -> Prop)
  : Prog.t E A -> Prog.t E A -> Prop :=
| alike_Ret (a b : A) : R a b -> alike R (Ret a) (Ret b)
| alike_Throw (e : Exn) : alike R (Throw e) (Throw e)
| alike_Vis (X : Type) (ev : E X) (k k' : X -> Prog.t E A) :
    (forall x, alike R (k x) (k' x)) -> alike R (Vis ev k) (Vis ev k').
End Events.

End Observe.


(* ================================================================== *)
(** * The speech handlers of [AICallAgentModal]                        *)
(* ================================================================== *)

Module Voice.
Import Js Prog Chat.
Local Open Scope prog_scope.

(** One entry of [event.results]: the transcripts of its alternatives, best
    first, and its [isFinal] flag. *)
Record Result : Type := {
  alternatives : list string;
  isFinal : bool
}.

(** The event handed to [recognition.onresult]. *)
Record ResultEvent : Type := {
  resultIndex : nat;
  results : list Result
}.

Inductive Event : Type -> Type :=
| setInput (s : string) : Event unit
| setIsListening (b : bool) : Event unit
| setRecognitionError (s : string) : Event unit
| setTimeout_submitMessage (messageText : string) (delay : Z) : Event unit
    (* setTimeout(() => { submitMessage(messageText); }, delay) *)
| alert (s : string) : Event unit
| recognition_start : Event bool     (* [false]: start() threw *)
| recognition_stop : Event unit.

Definition Handler := Prog.t Event.

Section Handlers.
Variable rt : Runtime.

(** [event.results[i][0].transcript] *)
Definition transcript_of (r : Result) : Handler string :=
  match alternatives r with
  | t :: _ => Ret t
  | [] => Throw (raise rt (ReadOfNull "transcript"))
  end.

(** The loop of [onresult] (lines 294-299), from the entries at
    [resultIndex] on. *)
Fixpoint accumulate (finalTranscript : string) (rest : list Result)
  : Handler string :=
  match rest with
  | [] => Ret finalTranscript
  | r :: rest' =>
      transcript <- transcript_of r ;;
      accumulate (finalTranscript ++ transcript) rest'
  end.

(** [recognition.onresult] (lines 291-312) *)
Definition onresult (event : ResultEvent) : Handler unit :=
  finalTranscript <- accumulate "" (skipn (resultIndex event) (results event)) ;;
  (if (trim finalTranscript =? "")%string then Ret tt
   else
     trigger (setInput (trim finalTranscript)) ;;;
     trigger (setTimeout_submitMessage (trim finalTranscript) 300)) ;;;
  trigger (setIsListening false).

(** [recognition.onstart] (lines 285-289) *)
Definition onstart : Handler unit :=
  trigger (setIsListening true) ;;;
  trigger (setRecognitionError "").

(** [recognition.onerror] (lines 314-318), given [event.error]. *)
Definition onerror (error : string) : Handler unit :=
  trigger (setRecognitionError ("Error: " ++ error)) ;;;
  trigger (setIsListening false).

(** [recognition.onend] (lines 320-323) *)
Definition onend : Handler unit :=
  trigger (setIsListening false).

(** [handleVoiceClick] (lines 421-439); [supported] tells whether
    [recognitionRef.current] is set. *)
Definition handleVoiceClick (supported isListening : bool) : Handler unit :=
  if negb supported then
    trigger (alert "Speech recognition is not supported in your browser. Please use text input instead.")
  else if isListening then
    trigger recognition_stop ;;;
    trigger (setIsListening false)
  else
    try_catch
      (started <- trigger recognition_start ;;
       if (started : bool) then Ret tt else Throw (raise rt HostFailure))
      (fun error =>
         trigger (setRecognitionError "Could not start recording. Please try again.")).
End Handlers.

(** The part of the component's state that these handlers touch, with the
    submissions scheduled and the alerts shown so far. *)
Record State : Type := {
  input : string;
  isListening : bool;
  recognitionError : string;
  scheduled : list (string * Z);
  alerts : list string;
  started : nat;                     (* calls of start() *)
  stopped : nat                      (* calls of stop() *)
}.

(** [start_ok n]: whether the call number [n] of [start()] succeeds. *)
Definition answer (start_ok : nat -> bool) (X : Type) (ev : Event X) (s : State)
  : X * State :=
  match ev in Event T return T * State with
  | setInput v =>
      (tt, {| input := v; isListening := isListening s;
              recognitionError := recognitionError s; scheduled := scheduled s;
              alerts := alerts s; started := started s; stopped := stopped s |})
  | setIsListening b =>
      (tt, {| input := input s; isListening := b;
              recognitionError := recognitionError s; scheduled := scheduled s;
              alerts := alerts s; started := started s; stopped := stopped s |})
  | setRecognitionError e =>
      (tt, {| input := input s; isListening := isListening s;
              recognitionError := e; scheduled := scheduled s;
              alerts := alerts s; started := started s; stopped := stopped s |})
  | setTimeout_submitMessage t d =>
      (tt, {| input := input s; isListening := isListening s;
              recognitionError := recognitionError s;
              scheduled := (scheduled s ++ [(t, d)])%list;
              alerts := alerts s; started := started s; stopped := stopped s |})
  | alert a =>
      (tt, {| input := input s; isListening := isListening s;
              recognitionError := recognitionError s; scheduled := scheduled s;
              alerts := (alerts s ++ [a])%list; started := started s;
              stopped := stopped s |})
  | recognition_start =>
      (start_ok (started s),
       {| input := input s; isListening := isListening s;
          recognitionError := recognitionError s; scheduled := scheduled s;
          alerts := alerts s; started := S (started s); stopped := stopped s |})
  | recognition_stop =>
      (tt, {| input := input s; isListening := isListening s;
              recognitionError := recognitionError s; scheduled := scheduled s;
              alerts := alerts s; started := started s; stopped := S (stopped s) |})
  end.

Definition exec (start_ok : nat -> bool) (A : Type) (p : Handler A) (s : State)
  : outcome A * State :=
  run (answer start_ok) p s.

(** The transcripts the loop concatenates when every entry has an
    alternative. *)
Definition heard (event : ResultEvent) : string :=
  String.concat ""
    (map (fun r => hd "" (alternatives r))
         (skipn (resultIndex event) (results event))).

Definition well_formed (event : ResultEvent) : Prop :=
  Forall (fun r => alternatives r <> []) (results event).

End Voice.


(* ================================================================== *)
(** * The language switch of [Navigation]                              *)
(* ================================================================== *)

Module Navigation.
Import Js.

(** The first occurrence of [pattern] in [s]: what precedes it and what
    follows it. *)
Fixpoint split_at_first (pattern s : string) : option (string * string) :=
  if is_prefix pattern s then
    Some ("", substring (String.length pattern)
                (String.length s - String.length pattern) s)
  else
    match s with
    | EmptyString => None
    | String c r =>
        match split_at_first pattern r with
        | Some (before, after) => Some (String c before, after)
        | None => None
        end
    end.

(** The substitution of the replacement patterns in the second argument of
    [replace], for a search string (no captures): [$$], [$&], [$`] and
    [$']; any other [$] stands for itself. *)
Fixpoint expand (matched before after template : string) : string :=
  match template with
  | EmptyString => ""
  | String c rest =>
      if Ascii.eqb c "$" then
        match rest with
        | String d rest' =>
            if Ascii.eqb d "$" then "$" ++ expand matched before after rest'
            else if Ascii.eqb d "&" then matched ++ expand matched before after rest'
            else if Ascii.eqb d "`" then before ++ expand matched before after rest'
            else if Ascii.eqb d "'" then after ++ expand matched before after rest'
            else String c (expand matched before after rest)
        | EmptyString => String c ""
        end
      else String c (expand matched before after rest)
  end.

(** [s.replace(pattern, replacement)] for a string [pattern]: the first
    occurrence only. *)
Definition replace (s pattern replacement : string) : string :=
  match split_at_first pattern s with
  | Some (before, after) =>
      before ++ expand pattern before after replacement ++ after
  | None => s
  end.

(** [(params?.locale as Locale) || 'en'] *)
Definition locale_of (param : option string) : string :=
  match param with
  | Some l => if (l =? "")%string then "en" else l
  | None => "en"
  end.

(** [handleLanguageChange] (lines 795-798): the path handed to
    [router.push]. *)
Definition handleLanguageChange (pathname locale newLocale : string) : string :=
  replace pathname ("/" ++ locale) ("/" ++ newLocale).

(** No dollar sign in the text. *)
Fixpoint plain (s : string) : bool :=
  match s with
  | EmptyString => true
  | String c r => negb (Ascii.eqb c "$") && plain r
  end.

End Navigation.


(* ================================================================== *)
(** * More vocabulary for the route                                    *)
(* ================================================================== *)

Module RouteMore.
Import Js Http Route.

(** The character does not occur in the text. *)
Fixpoint lacks (c : ascii) (s : string) : bool :=
  match s with
  | EmptyString => true
  | String a r => negb (Ascii.eqb a c) && lacks c r
  end.

(** Two responses agree in status and in every field but [language]. *)
Definition same_but_language (a b : NextResponse) : Prop :=
  res_status a = res_status b /\
  forall k, k <> "language" -> field (res_body a) k = field (res_body b) k.

(** A call made by POST to the completions endpoint, with the key as bearer
    token. *)
Definition authorized (groqApiKey : string) (c : Call) : Prop :=
  fst c = endpoint /\
  method (snd c) = "POST" /\
  headers (snd c) = [("Authorization", "Bearer " ++ groqApiKey);
                     ("Content-Type", "application/json")].

(** The text of the guidance tier when the guidance call delivers none. *)
Definition default_guidance : string :=
  "Please try uploading your image again or contact your local Krishi Vigyan Kendra (KVK) for expert assistance.".

End RouteMore.


(* ================================================================== *)
(** * More vocabulary for the chat                                     *)
(* ================================================================== *)

Module ChatMore.
Import Js Http Chat.

(** Only continuation bytes. *)
Fixpoint continuation (s : string) : bool :=
  match s with
  | EmptyString => true
  | String c r => continuation_byte c && continuation r
  end.

(** Empty, or starting with a byte that is not a continuation byte. *)
Definition starts_character (s : string) : bool :=
  match s with
  | EmptyString => true
  | String c _ => negb (continuation_byte c)
  end.

(** One character as [characters] cuts it: a byte and the continuation
    bytes that follow it. *)
Definition character (ch : string) : Prop :=
  exists c k, ch = String c k /\ continuation k = true.

(** A character that is not the first of its text: its first byte is not a
    continuation byte. *)
Definition inner (ch : string) : Prop :=
  exists c k,
    ch = String c k /\ continuation_byte c = false /\ continuation k = true.

Definition characters_of_a_text (l : list string) : Prop :=
  match l with
  | [] => True
  | ch :: rest => character ch /\ Forall inner rest
  end.

(** The characters of a text without the white space at its end. *)
Definition trim_end (l : list string) : list string :=
  rev (drop_spaces (rev l)).

(** The clock never goes back. *)
Definition monotone (w : World) : Prop :=
  forall n m : nat, (n <= m)%nat -> time w n <= time w m.

(** The events other than [speak]. *)
Definition silent_event (X : Type) (ev : Chat.Event X) : Prop :=
  match ev with
  | speak _ _ => False
  | _ => True
  end.

(** The [speak] events in the language of the locale, and all others. *)
Definition speaks_in (lang : LanguageCode) (X : Type) (ev : Chat.Event X) : Prop :=
  match ev with
  | speak _ l => l = lang
  | _ => True
  end.

End ChatMore.


(* ================================================================== *)
(** * The mounted [AICallAgentModal]: renders and the callbacks held   *)
(* ================================================================== *)

Module Modal.
Import Js Prog Http Chat.

(** What a render reads of the state, and what the [submitMessage] it
    creates closes over (the dependency list of line 415). *)
Record Render : Type := {
  isLoading : bool;
  locale : string;
  isMuted : bool
}.

(** The mounted component: its state, its [locale] prop, and the render in
    which the effect of lines 269-337 last ran.  The handlers that effect
    installs on the recognition object call the [submitMessage] of that
    render until the effect runs again, which its dependency list
    [[isOpen, locale]] lets happen only when the modal is opened or the
    locale changes. *)
Record Component : Type := {
  session : Session;            (* messages, input, isLoading *)
  muted : bool;                 (* isMuted *)
  language : string;            (* the [locale] prop *)
  installed : Render
}.

(** The render of the current state. *)
Definition render (c : Component) : Render :=
  {| isLoading := loading (session c); locale := language c;
     isMuted := muted c |}.


(** The mute button (line 558): [setIsMuted(!isMuted)]. *)
Definition toggle_mute (c : Component) : Component :=
  {| session := session c; muted := negb (muted c); language := language c;
     installed := installed c |}.


Section Callbacks.
Variable rt : Runtime.

(** The [submitMessage] a render creates. *)
Definition submitMessage_of (r : Render) (messageText : string) : Flow unit :=
  submitMessage rt (isLoading r) (locale r) (isMuted r) messageText.

(** [handleSendMessage] (lines 417-419), the handler of the Send button and
    of the Enter key: [submitMessage(input)] of the current render. *)
Definition handleSendMessage (c : Component) : Flow unit :=
  submitMessage_of (render c) (input (session c)).

(** The callback [onresult] hands to [setTimeout] (lines 306-308):
    [submitMessage(finalTranscript.trim())] of the render in which the
    effect ran. *)
Definition voice_submission (c : Component) (messageText : string) : Flow unit :=
  submitMessage_of (installed c) messageText.
End Callbacks.







End Modal.


(** More scenarios. *)

Module Scenario2.
Import Js Http Route.

Definition request_in (language : string) : NextRequest :=
  {| request_json :=
       Some (Obj [("imageBase64", Scenario.leaf_image); ("language", Str language)]) |}.

Definition request_without_language : NextRequest :=
  {| request_json := Some (Obj [("imageBase64", Scenario.leaf_image)]) |}.


(** The vision call is turned down with a 401. *)
Definition unauthorized : World :=
  Scenario.scripted
    [Scenario.upstream_error 401 "Invalid API Key";
     Scenario.upstream_error 401 "Invalid API Key"].

(** The diagnosis wrapped in prose. *)
Definition leaf_blight_inside : string :=
  substring 1 (String.length Scenario.leaf_blight - 2) Scenario.leaf_blight.

Definition wrapped : string :=
  "Here is my analysis: " ++ ("{" ++ leaf_blight_inside ++ "}") ++ " I hope this helps.".

End Scenario2.


(* ================================================================== *)
(** * Facts about programs                                             *)
(* ================================================================== *)

Module ProgFacts.
Import Js Prog.

Section Facts.
Variable E : Type -> Type.

Lemma wp_mono (A : Type) (p : Prog.t E A) (Q Q' : A -> Prop) (R R' : Exn -> Prop) :
  (forall a, Q a -> Q' a) -> (forall e, R e -> R' e) ->
  wp p Q R -> wp p Q' R'.
Proof.
  intros HQ HR. induction p as [a | e | X ev k IH]; simpl; auto.
Qed.

Lemma wp_bind (A B : Type) (p : Prog.t E A) (f : A -> Prog.t E B)
    (Q : B -> Prop) (R : Exn -> Prop) :
  wp p (fun a => wp (f a) Q R) R -> wp (bind p f) Q R.
Proof.
  induction p as [a | e | X ev k IH]; simpl; auto.
Qed.

Lemma wp_try_catch (A : Type) (p : Prog.t E A) (h : Exn -> Prog.t E A)
    (Q : A -> Prop) (R : Exn -> Prop) :
  wp p Q (fun e => wp (h e) Q R) -> wp (try_catch p h) Q R.
Proof.
  induction p as [a | e | X ev k IH]; simpl; auto.
Qed.

Lemma wp_try_finally (p f : Prog.t E unit) (Q : unit -> Prop) (R : Exn -> Prop) :
  wp p (fun _ => wp f Q R) (fun e => wp f (fun _ => R e) R) ->
  wp (try_finally p f) Q R.
Proof.
  induction p as [a | e | X ev k IH]; simpl; auto.
  intros H. apply wp_bind. exact H.
Qed.

Section Runs.
Variable W : Type.
Variable answer : forall X : Type, E X -> W -> X * W.

Lemma run_bind (A B : Type) (p : Prog.t E A) (f : A -> Prog.t E B) (w : W) :
  run answer (bind p f) w =
  match run answer p w with
  | (Returned a, w') => run answer (f a) w'
  | (Raised e, w') => (Raised e, w')
  end.
Proof.
  revert w. induction p as [a | e | X ev k IH]; intros w; simpl; auto.
  destruct (answer ev w) as [x w']. apply IH.
Qed.

Lemma run_try_catch (A : Type) (p : Prog.t E A) (h : Exn -> Prog.t E A) (w : W) :
  run answer (try_catch p h) w =
  match run answer p w with
  | (Returned a, w') => (Returned a, w')
  | (Raised e, w') => run answer (h e) w'
  end.
Proof.
  revert w. induction p as [a | e | X ev k IH]; intros w; simpl; auto.
  destruct (answer ev w) as [x w']. apply IH.
Qed.

Lemma run_try_finally (p f : Prog.t E unit) (w : W) :
  run answer (try_finally p f) w =
  match run answer p w with
  | (Returned _, w') => run answer f w'
  | (Raised e, w') =>
      match run answer f w' with
      | (Returned _, w'') => (Raised e, w'')
      | (Raised e', w'') => (Raised e', w'')
      end
  end.
Proof.
  revert w. induction p as [a | e | X ev k IH]; intros w; simpl; auto.
  - rewrite run_bind. destruct (run answer f w) as [[u | e'] w']; reflexivity.
  - destruct (answer ev w) as [x w']. apply IH.
Qed.

(** Soundness of [wp]: it speaks for every world. *)
Lemma wp_run (A : Type) (p : Prog.t E A) (Q : A -> Prop) (R : Exn -> Prop) (w : W) :
  wp p Q R ->
  match fst (run answer p w) with
  | Returned a => Q a
  | Raised e => R e
  end.
Proof.
  revert w. induction p as [a | e | X ev k IH]; intros w; simpl; auto.
  intros H. destruct (answer ev w) as [x w']. apply IH, H.
Qed.

(** A program without event nodes leaves the world as it found it. *)
Lemma run_Ret (A : Type) (a : A) (w : W) :
  run answer (Ret a) w = (Returned a, w).
Proof. reflexivity. Qed.
End Runs.
End Facts.

End ProgFacts.


(* ================================================================== *)
(** * Facts about the JavaScript primitives                            *)
(* ================================================================== *)

Module JsFacts.
Import Js.

Lemma lookup_set (k k' : string) (v : value) (fields : list (string * value)) :
  lookup k (set k' v fields) =
  if (k =? k')%string then Some v else lookup k fields.
Proof.
  induction fields as [| [a x] rest IH]; simpl.
  - destruct (k =? k')%string; reflexivity.
  - destruct (k' =? a)%string eqn:Ha; simpl.
    + apply String.eqb_eq in Ha. subst a.
      destruct (k =? k')%string; reflexivity.
    + destruct (k =? a)%string eqn:Hk.
      * apply String.eqb_eq in Hk. subst a.
        rewrite String.eqb_sym, Ha. reflexivity.
      * exact IH.
Qed.

Lemma get_field (v : value) (k : string) :
  v <> Null -> get v k = Some (get_opt (Some v) k).
Proof. destruct v; simpl; congruence. Qed.

(** The span the regular expression matches is one of the brace-delimited
    spans of the text. *)
Lemma upto_last_close_prefix (s p : string) :
  upto_last_close s = Some p -> exists post, s = p ++ post.
Proof.
  revert p. induction s as [| c r IH]; simpl; intros p H; [discriminate |].
  destruct (upto_last_close r) as [p' |] eqn:Hr.
  - inversion H; subst. destruct (IH p' eq_refl) as [post Hpost].
    exists post. simpl. rewrite <- Hpost. reflexivity.
  - destruct (Ascii.eqb c "}") eqn:Hc; [| discriminate].
    inversion H; subst. exists r. reflexivity.
Qed.

Lemma from_first_open_suffix (s r : string) :
  from_first_open s = Some r -> exists pre, s = pre ++ String "{" r.
Proof.
  revert r. induction s as [| c t IH]; simpl; intros r H; [discriminate |].
  destruct (Ascii.eqb c "{") eqn:Hc.
  - inversion H; subst. apply Ascii.eqb_eq in Hc. subst c.
    exists "". reflexivity.
  - destruct (IH r H) as [pre Hpre]. exists (String c pre).
    simpl. rewrite <- Hpre. reflexivity.
Qed.

Lemma match_braces_substring (text m : string) :
  match_braces text = Some m ->
  exists pre post, text = pre ++ m ++ post.
Proof.
  unfold match_braces. intros H.
  destruct (from_first_open text) as [r |] eqn:Hr; [| discriminate].
  destruct (upto_last_close r) as [p |] eqn:Hp; [| discriminate].
  simpl in H. inversion H; subst.
  destruct (from_first_open_suffix _ Hr) as [pre Hpre].
  destruct (upto_last_close_prefix _ Hp) as [post Hpost].
  exists pre, post. rewrite Hpre, Hpost. reflexivity.
Qed.

End JsFacts.


(* ================================================================== *)
(** * Facts about the plant-disease route                              *)
(* ================================================================== *)

Module RouteFacts.
Import Js Prog Http Route ProgFacts JsFacts.
Local Open Scope prog_scope.

(** ** The brace-delimited span *)

Lemma upto_last_close_closings (r p : string) :
  upto_last_close r = Some p -> In p (closings r).
Proof.
  revert p. induction r as [| c r IH]; simpl; intros p H; [discriminate |].
  apply in_or_app.
  destruct (upto_last_close r) as [p' |].
  - inversion H; subst. right. apply in_map. apply IH. reflexivity.
  - destruct (Ascii.eqb c "}"); [| discriminate].
    inversion H; subst. left. left. reflexivity.
Qed.

Lemma match_braces_spans (text m : string) :
  match_braces text = Some m -> In m (spans text).
Proof.
  unfold match_braces.
  induction text as [| c t IH]; simpl; [discriminate |].
  destruct (Ascii.eqb c "{") eqn:Hc.
  - apply Ascii.eqb_eq in Hc. subst c.
    destruct (upto_last_close t) as [p |] eqn:Hp; simpl; [| discriminate].
    intros H. inversion H; subst. apply in_or_app. left.
    apply in_map. apply upto_last_close_closings. exact Hp.
  - intros H. apply in_or_app. right. apply IH. exact H.
Qed.

(** ** Steps without events return or throw on the spot *)

Section Steps.
Variable rt : Runtime.

Lemma parse_analysis_settled (content : value) :
  settled (parse_analysis rt content).
Proof.
  unfold settled, parse_analysis.
  destruct (JSON_parse_value rt content) as [a |]; simpl; [eauto |].
  destruct content as [| b | q | s | items | fields]; eauto.
  destruct (match_braces s) as [m |]; eauto.
  destruct (JSON_parse rt m); eauto.
Qed.

Lemma unparsed_not_parsed (text : string) :
  unparsed rt text = true ->
  exists e, parse_analysis rt (Str text) = Throw e.
Proof.
  unfold unparsed, parseable, parse_analysis, JSON_parse_value. simpl.
  intros H. apply andb_true_iff in H. destruct H as [Hd Hs].
  destruct (JSON_parse rt text); [discriminate |]. simpl.
  destruct (match_braces text) as [m |]; [| eauto].
  destruct (JSON_parse rt m); [discriminate | eauto].
Qed.

(** A text without any parseable span is in particular unparsed. *)
Lemma malformed_unparsed (text : string) :
  malformed rt text = true -> unparsed rt text = true.
Proof.
  unfold malformed, unparsed. intros H.
  apply andb_true_iff in H. destruct H as [Hd Hs]. rewrite Hd. simpl.
  destruct (match_braces text) as [m |] eqn:Hm; [| reflexivity].
  destruct (parseable rt m) eqn:Hp; [| reflexivity].
  exfalso. apply negb_true_iff in Hs.
  assert (Hex : existsb (parseable rt) (spans text) = true).
  { apply existsb_exists. exists m. split; [| exact Hp].
    apply match_braces_spans. exact Hm. }
  congruence.
Qed.

Lemma validate_settled (analysis : value) :
  settled (validate rt analysis).
Proof.
  unfold settled, validate, read.
  destruct analysis as [| b | q | s | items | fields]; simpl; eauto.
  destruct (truthy_opt (lookup "disease" fields)); simpl; eauto.
  destruct (isArray (lookup "symptoms" fields)); simpl; eauto.
Qed.

(** What passes the structural validation is an object with a truthy
    [disease] and an array of [symptoms]. *)
Lemma validate_accepts (analysis : value) (u : unit) :
  validate rt analysis = Ret u ->
  exists fields items,
    analysis = Obj fields /\
    truthy_opt (lookup "disease" fields) = true /\
    lookup "symptoms" fields = Some (Arr items).
Proof.
  unfold validate, read.
  destruct analysis as [| b | q | s | items | fields]; simpl; try discriminate.
  destruct (truthy_opt (lookup "disease" fields)) eqn:Hd; simpl; [| discriminate].
  destruct (lookup "symptoms" fields) as [[] |] eqn:Hs; simpl; try discriminate.
  intros _. eauto.
Qed.

Lemma validate_rejects (analysis : value) :
  field analysis "disease" = None \/ isArray (field analysis "symptoms") = false ->
  exists e, validate rt analysis = Throw e.
Proof.
  unfold validate, read, field.
  destruct analysis as [| b | q | s | items | fields]; simpl; eauto.
  intros [H | H].
  - rewrite H. simpl. eauto.
  - destruct (truthy_opt (lookup "disease" fields)); simpl; eauto.
    rewrite H. simpl. eauto.
Qed.
End Steps.

(** ** Runs of the fallback sub-flow *)

Arguments vision_request : simpl never.
Arguments treatment_request : simpl never.
Arguments guidance_request : simpl never.
Arguments guidance_payload : simpl never.
Arguments unavailable_payload : simpl never.
Arguments enhancedAnalysis : simpl never.
Arguments endpoint : simpl never.
Arguments analyse : simpl never.

Section Runs.
Variable rt : Runtime.
Variable w : World.

(** The fallback sub-flow makes exactly one call, the guidance call, and
    returns a 200 response: the hardcoded payload when the call raises, the
    guidance payload otherwise.  It never throws. *)
Lemma getFallbackAnalysis_run (groqApiKey : string) (language : value)
    (calls : list Call) :
  run_from w (getFallbackAnalysis rt groqApiKey language) calls =
  let r := upstream w calls (guidance_request groqApiKey language) in
  let calls' := (calls ++ [guidance_call groqApiKey language])%list in
  (Returned
     (NextResponse_json
        (if raises r then unavailable_payload (clock w calls')
         else guidance_payload (content_of r) (clock w calls') language)
        200),
   calls').
Proof.
  unfold run_from, getFallbackAnalysis, await_fetch, guidance_call. simpl.
  destruct (upstream w calls (guidance_request groqApiKey language))
    as [| [st [data |]]]; simpl; try reflexivity.
  destruct data; reflexivity.
Qed.

Lemma getFallbackAnalysis_never_throws (groqApiKey : string) (language : value) :
  wp (getFallbackAnalysis rt groqApiKey language)
     (fun res => res_status res = 200) (fun _ => False).
Proof.
  unfold getFallbackAnalysis, await_fetch. simpl.
  intros [| [st [data |]]]; simpl; auto.
  destruct data; simpl; auto.
Qed.

(** ** The narrative call and the merge *)

Lemma interpolate_settled (o : option value) : settled (interpolate rt o).
Proof.
  unfold settled, interpolate. destruct o as [v |]; eauto.
  destruct (to_string rt v); eauto.
Qed.

Lemma call_join_settled (o : option value) (sep : string) :
  settled (call_join rt o sep).
Proof.
  unfold settled, call_join.
  destruct o as [[| b | q | s | items | fields] |]; eauto.
  destruct (join rt sep items); eauto.
Qed.

(** With its two prompts built, [narrate] makes the treatment call; it
    throws when the call raises and returns the merged object otherwise. *)
Lemma narrate_run (groqApiKey : string) (language : value)
    (fields : list (string * value)) (d s : string) (calls : list Call) :
  interpolate rt (lookup "disease" fields) = Ret d ->
  call_join rt (lookup "symptoms" fields) ", " = Ret s ->
  run_from w (narrate rt groqApiKey language (Obj fields)) calls =
  let r := upstream w calls (treatment_request groqApiKey language d s) in
  let calls' := (calls ++ [treatment_call groqApiKey language d s])%list in
  if raises r then (Raised (raise rt (failure r)), calls')
  else
    (Returned
       (NextResponse_json
          (enhancedAnalysis (Obj fields) (content_of r) (clock w calls') language)
          200),
     calls').
Proof.
  intros Hd Hs. unfold run_from, narrate, read, treatment_call. simpl.
  rewrite Hd. simpl. rewrite Hs. unfold await_fetch. simpl.
  destruct (upstream w calls (treatment_request groqApiKey language d s))
    as [| [st [data |]]]; simpl; try reflexivity.
  destruct data; reflexivity.
Qed.

(** Without them it throws before any call. *)
Lemma narrate_unbuilt (groqApiKey : string) (language : value)
    (fields : list (string * value)) (calls : list Call) :
  (exists e, interpolate rt (lookup "disease" fields) = Throw e) \/
  (exists e, call_join rt (lookup "symptoms" fields) ", " = Throw e) ->
  exists e,
    run_from w (narrate rt groqApiKey language (Obj fields)) calls = (Raised e, calls).
Proof.
  unfold run_from, narrate, read. simpl. intros [[e He] | [e He]].
  - rewrite He. simpl. eauto.
  - destruct (interpolate_settled (lookup "disease" fields)) as [[d Hd] | [e' Hd]];
      rewrite Hd; simpl; [| eauto].
    rewrite He. simpl. eauto.
Qed.

(** ** The vision tier *)

Lemma error_mentions_settled (errorData : value) (word : string) :
  settled (error_mentions rt errorData word).
Proof.
  unfold settled, error_mentions.
  destruct (get errorData "error") as [err |]; eauto.
  destruct (get_opt err "message") as [[| b | q | s | items | fields] |]; eauto.
Qed.

Lemma on_vision_response_succeeds (groqApiKey : string) (language : value)
    (resp : Response) (analysis : value) :
  primary_succeeds rt (Answered resp) analysis ->
  on_vision_response rt groqApiKey language resp =
  narrate rt groqApiKey language analysis.
Proof.
  intros (resp' & content & Hr & Hok & Hraise & Hc & Ht & Hp & Hv).
  inversion Hr; subst resp'. clear Hr.
  unfold on_vision_response. rewrite Hok. simpl.
  destruct resp as [st [data |]]; simpl in *; [| discriminate].
  unfold choice_content.
  destruct data as [| b | q | s | items | fields]; simpl in *; try discriminate;
    rewrite Hc; simpl; rewrite Ht; simpl; rewrite Hp; simpl; rewrite Hv; reflexivity.
Qed.

(** Whatever the vision response, what follows it hands over to the fallback
    sub-flow, throws on the spot, or goes on to the narrative call with an
    analysis that passed steps 2 to 4. *)
Lemma on_vision_response_cases (groqApiKey : string) (language : value)
    (resp : Response) :
  on_vision_response rt groqApiKey language resp =
    getFallbackAnalysis rt groqApiKey language \/
  (exists e, on_vision_response rt groqApiKey language resp = Throw e) \/
  (exists analysis, primary_succeeds rt (Answered resp) analysis).
Proof.
  unfold on_vision_response.
  destruct (ok resp) eqn:Hok; simpl.
  - destruct resp as [st [data |]]; simpl in *; [| eauto].
    unfold choice_content.
    destruct (get data "choices") as [choices |] eqn:Hch; simpl; [| eauto].
    destruct (get_opt (get_opt (index0_opt choices) "message") "content")
      as [content |] eqn:Hc; [| eauto].
    destruct (truthy content) eqn:Ht; simpl; [| eauto].
    destruct (parse_analysis_settled rt content) as [[a Ha] | [e Ha]];
      rewrite Ha; simpl; [| eauto].
    destruct (validate_settled rt a) as [[[] Hv] | [e Hv]];
      rewrite Hv; simpl; [| eauto].
    right. right. exists a. exists {| status := st; json := Some data |}, content.
    destruct data as [| b | q | s | items | fields]; simpl in *;
      try discriminate; inversion Hch; subst choices;
      repeat split; auto.
  - unfold await_json. destruct (json resp) as [errorData |]; simpl; [| eauto].
    destruct (error_mentions_settled errorData "image") as [[[] H1] | [e H1]];
      rewrite H1; simpl; eauto.
    destruct (error_mentions_settled errorData "vision") as [[[] H2] | [e H2]];
      rewrite H2; simpl; eauto.
Qed.

Lemma vision_tier_run (groqApiKey : string) (imageBase64 language : value) :
  run_from w (vision_tier rt groqApiKey imageBase64 language) [] =
  match upstream w [] (vision_request groqApiKey imageBase64) with
  | Rejected => (Raised (raise rt FetchFailed), [vision_call groqApiKey imageBase64])
  | Answered resp =>
      run_from w (on_vision_response rt groqApiKey language resp)
        [vision_call groqApiKey imageBase64]
  end.
Proof.
  unfold run_from, vision_tier, await_fetch, vision_call. simpl.
  destruct (upstream w [] (vision_request groqApiKey imageBase64)); reflexivity.
Qed.

Lemma analyse_run (groqApiKey : string) (imageBase64 language : value) :
  run_from w (analyse rt groqApiKey imageBase64 language) [] =
  match run_from w (vision_tier rt groqApiKey imageBase64 language) [] with
  | (Returned res, calls) => (Returned res, calls)
  | (Raised e, calls) =>
      run_from w (getFallbackAnalysis rt groqApiKey language) calls
  end.
Proof. unfold run_from, analyse. apply run_try_catch. Qed.

(** A request that passes the guards is served by the inner [try]; the outer
    [catch] has nothing to catch, as the fallback sub-flow never throws. *)
Lemma POST_accepted (env : Env) (request : NextRequest) (groqApiKey : string)
    (imageBase64 language : value) :
  accepted env request groqApiKey imageBase64 language ->
  exec w (POST rt env request) =
  run_from w (analyse rt groqApiKey imageBase64 language) [].
Proof.
  intros (b & Hb & Hi & Ht & Hl & Hk & Hne).
  assert (Hlang : get b "language" = Some (field b "language")).
  { apply get_field. intros ->. discriminate. }
  apply String.eqb_neq in Hne.
  unfold exec, run_from, POST, destructure.
  rewrite Hb. cbn [bind]. rewrite Hi, Hlang. cbn [bind].
  rewrite Ht. cbn [negb]. rewrite Hk, Hne, <- Hl.
  rewrite run_try_catch.
  change (run (answer w) (analyse rt groqApiKey imageBase64 language) [])
    with (run_from w (analyse rt groqApiKey imageBase64 language) []).
  rewrite analyse_run.
  destruct (run_from w (vision_tier rt groqApiKey imageBase64 language) [])
    as [[res | e] calls]; [reflexivity |].
  rewrite getFallbackAnalysis_run. reflexivity.
Qed.

(** A failed vision tier is followed by the fallback sub-flow. *)
Lemma failed_tier_falls_back (env : Env) (request : NextRequest)
    (groqApiKey : string) (imageBase64 language : value) (calls : list Call) :
  accepted env request groqApiKey imageBase64 language ->
  vision_tier_fails rt w groqApiKey imageBase64 language calls ->
  exec w (POST rt env request) =
  run_from w (getFallbackAnalysis rt groqApiKey language) calls.
Proof.
  intros Hacc Hfail. rewrite (POST_accepted Hacc), analyse_run.
  destruct Hfail as [[e He] | [Hcalls (resp & Hresp & Hok & errorData & Hjson & Hm)]].
  - rewrite He. reflexivity.
  - subst calls. rewrite vision_tier_run, Hresp.
    assert (Hov : on_vision_response rt groqApiKey language resp =
                  getFallbackAnalysis rt groqApiKey language).
    { unfold on_vision_response, await_json. rewrite Hok, Hjson. simpl.
      destruct Hm as [H1 | [H1 H2]].
      - rewrite H1. reflexivity.
      - rewrite H1. simpl. rewrite H2. reflexivity. }
    rewrite Hov, getFallbackAnalysis_run. reflexivity.
Qed.

(** A vision response after which the handler throws on the spot. *)
Lemma thrown_after_vision (env : Env) (request : NextRequest)
    (groqApiKey : string) (imageBase64 language : value) (resp : Response) :
  accepted env request groqApiKey imageBase64 language ->
  upstream w [] (vision_request groqApiKey imageBase64) = Answered resp ->
  (exists e, on_vision_response rt groqApiKey language resp = Throw e) ->
  exec w (POST rt env request) =
  run_from w (getFallbackAnalysis rt groqApiKey language)
    [vision_call groqApiKey imageBase64].
Proof.
  intros Hacc Hresp [e He].
  apply (failed_tier_falls_back Hacc). left. exists e.
  rewrite vision_tier_run, Hresp, He. reflexivity.
Qed.

(** The ways an accepted request ends: with the validated analysis of the
    vision reply, merged with what the narrative call delivered, or in the
    fallback sub-flow. *)
Lemma POST_outcomes (env : Env) (request : NextRequest)
    (groqApiKey : string) (imageBase64 language : value) :
  accepted env request groqApiKey imageBase64 language ->
  (exists fields items d s,
     primary_succeeds rt (upstream w [] (vision_request groqApiKey imageBase64))
       (Obj fields) /\
     truthy_opt (lookup "disease" fields) = true /\
     lookup "symptoms" fields = Some (Arr items) /\
     let calls := [vision_call groqApiKey imageBase64;
                   treatment_call groqApiKey language d s] in
     let r2 := upstream w [vision_call groqApiKey imageBase64]
                 (treatment_request groqApiKey language d s) in
     raises r2 = false /\
     exec w (POST rt env request) =
     (Returned
        (NextResponse_json
           (enhancedAnalysis (Obj fields) (content_of r2) (clock w calls) language)
           200),
      calls)) \/
  (exists calls,
     exec w (POST rt env request) =
     run_from w (getFallbackAnalysis rt groqApiKey language) calls).
Proof.
  intros Hacc.
  destruct (upstream w [] (vision_request groqApiKey imageBase64))
    as [| resp] eqn:Hresp.
  { right. eexists. apply (failed_tier_falls_back Hacc). left. eexists.
    rewrite vision_tier_run, Hresp. reflexivity. }
  destruct (on_vision_response_cases groqApiKey language resp)
    as [Hf | [Ht | [analysis Hs]]].
  - right. exists [vision_call groqApiKey imageBase64].
    rewrite (POST_accepted Hacc), analyse_run, vision_tier_run, Hresp, Hf.
    rewrite getFallbackAnalysis_run. reflexivity.
  - right. eexists. apply (thrown_after_vision Hacc Hresp Ht).
  - pose proof (on_vision_response_succeeds groqApiKey language Hs) as Hn.
    destruct Hs as (resp' & content & Hr & Hok & Hraise & Hc & Htr & Hp & Hv).
    destruct (validate_accepts rt _ Hv) as (fields & items & -> & Hd & Hsy).
    destruct (interpolate_settled (lookup "disease" fields)) as [[d Hid] | Hthrow].
    2:{ right. eexists. apply (failed_tier_falls_back Hacc). left.
        destruct (@narrate_unbuilt groqApiKey language fields
                    [vision_call groqApiKey imageBase64] (or_introl Hthrow))
          as [e He].
        exists e. rewrite vision_tier_run, Hresp, Hn. exact He. }
    destruct (call_join_settled (lookup "symptoms" fields) ", ") as [[s Hjs] | Hthrow].
    2:{ right. eexists. apply (failed_tier_falls_back Hacc). left.
        destruct (@narrate_unbuilt groqApiKey language fields
                    [vision_call groqApiKey imageBase64] (or_intror Hthrow))
          as [e He].
        exists e. rewrite vision_tier_run, Hresp, Hn. exact He. }
    pose proof (@narrate_run groqApiKey language fields d s
                  [vision_call groqApiKey imageBase64] Hid Hjs) as Hrun.
    simpl in Hrun.
    destruct (raises (upstream w [vision_call groqApiKey imageBase64]
                        (treatment_request groqApiKey language d s))) eqn:Hr2.
    + right. eexists. apply (failed_tier_falls_back Hacc). left. eexists.
      rewrite vision_tier_run, Hresp, Hn. exact Hrun.
    + left. exists fields, items, d, s.
      split; [exists resp', content; repeat split; assumption |].
      split; [exact Hd |]. split; [exact Hsy |].
      simpl. split; [exact Hr2 |].
      rewrite (POST_accepted Hacc), analyse_run, vision_tier_run, Hresp, Hn, Hrun.
      reflexivity.
Qed.
End Runs.

(** ** No exception leaves the handler *)

Section Total.
Variable rt : Runtime.

Lemma read_settled (analysis : value) (k : string) : settled (read rt analysis k).
Proof. unfold settled, read. destruct (get analysis k); eauto. Qed.

Lemma narrate_wp (groqApiKey : string) (language analysis : value) :
  wp (narrate rt groqApiKey language analysis)
     (fun res => res_status res = 200) (fun _ => True).
Proof.
  unfold narrate.
  destruct (read_settled analysis "disease") as [[o H] | [e H]];
    rewrite H; simpl; [| exact I].
  destruct (interpolate_settled rt o) as [[d Hd] | [e Hd]];
    rewrite Hd; simpl; [| exact I].
  destruct (read_settled analysis "symptoms") as [[o' H'] | [e H']];
    rewrite H'; simpl; [| exact I].
  destruct (call_join_settled rt o' ", ") as [[s Hs] | [e Hs]];
    rewrite Hs; simpl; [| exact I].
  unfold await_fetch. simpl.
  intros [| [st [data |]]]; simpl; auto.
  destruct data; simpl; auto.
Qed.

Lemma on_vision_response_wp (groqApiKey : string) (language : value)
    (resp : Response) :
  wp (on_vision_response rt groqApiKey language resp)
     (fun res => res_status res = 200) (fun _ => True).
Proof.
  destruct (on_vision_response_cases rt groqApiKey language resp)
    as [H | [[e H] | [analysis H]]].
  - rewrite H. eapply wp_mono; [| | apply getFallbackAnalysis_never_throws]; auto.
  - rewrite H. exact I.
  - rewrite (on_vision_response_succeeds groqApiKey language H).
    apply narrate_wp.
Qed.

(** Whatever the request, the environment and the world, [POST] returns a
    response, of status 200, 400 or 500. *)
Lemma POST_never_throws (env : Env) (request : NextRequest) :
  wp (POST rt env request)
     (fun res => res_status res = 200 \/ res_status res = 400 \/ res_status res = 500)
     (fun _ => False).
Proof.
  unfold POST. apply wp_try_catch.
  destruct (request_json request) as [b |]; simpl; [| auto].
  unfold destructure.
  destruct (get b "imageBase64") as [[image |] |]; simpl;
    destruct (get b "language") as [language |]; simpl; auto.
  destruct (truthy image); simpl; [| auto].
  destruct (GROQ_API_KEY env) as [groqApiKey |]; simpl; [| auto].
  destruct (groqApiKey =? "")%string; simpl; [auto |].
  intros [| resp]; cbn [bind try_catch].
  - eapply wp_mono; [| | apply getFallbackAnalysis_never_throws]; simpl; auto.
  - apply wp_try_catch.
    eapply wp_mono; [| | apply on_vision_response_wp].
    + intros res Hres. left. exact Hres.
    + intros e _.
      eapply wp_mono; [| | apply getFallbackAnalysis_never_throws]; simpl; auto.
Qed.

Lemma POST_returns (env : Env) (request : NextRequest) (w : World) :
  exists res, fst (exec w (POST rt env request)) = Returned res.
Proof.
  pose proof (wp_run (answer w) (POST rt env request) _ _ []
                (POST_never_throws env request)) as H.
  unfold exec, run_from.
  destruct (fst (run (answer w) (POST rt env request) [])) as [res | e];
    [eauto | contradiction].
Qed.
End Total.

(** ** The guards *)

(** C6, as stated, fails on a body that is [null]: it holds no image, and
    the destructuring of line 5 throws on it, so that the answer is the 500
    of the outer [catch] and not a 400. *)
Lemma C6_counterexample :
  truthy_opt (field Null "imageBase64") = false /\
  exists res,
    (forall w,
       exec w (POST Engine.runtime Scenario.env_configured
                 Scenario.request_with_null_body) = (Returned res, [])) /\
    res_status res = 500 /\
    field (res_body res) "error" =
      Some (Str "Analysis service temporarily unavailable").
Proof.
  split; [reflexivity |].
  eexists. split; [intros w; vm_compute; reflexivity |].
  split; reflexivity.
Qed.

(** C6 (amended).  A POST that holds no image is answered without any remote
    call, whatever the world.  When the body was read as a JSON value other
    than [null] and its [imageBase64] is absent or falsy (the empty string,
    [null], [false] or [0]), the answer has status 400 and the body
    [{error: "No image provided"}].  When the body cannot be read as JSON, or
    is [null], the answer is the 500 of the outer [catch], with the message
    of the exception as [details]. *)
Theorem C6_no_image_is_rejected_without_a_call (rt : Runtime) (env : Env)
    (request : NextRequest) :
  match request_json request with
  | Some b => truthy_opt (field b "imageBase64") = false
  | None => True
  end ->
  exists res,
    POST rt env request = Ret res /\
    (forall w, exec w (POST rt env request) = (Returned res, [])) /\
    match request_json request with
    | None =>
        res = NextResponse_json
                (Obj [("error", Str "Analysis service temporarily unavailable");
                      ("details", Str (message (raise rt BadJSON)))]) 500
    | Some Null =>
        res = NextResponse_json
                (Obj [("error", Str "Analysis service temporarily unavailable");
                      ("details",
                       Str (message (raise rt (ReadOfNull "imageBase64"))))]) 500
    | Some _ =>
        res = NextResponse_json (Obj [("error", Str "No image provided")]) 400
    end.
Proof.
  intros Hi.
  assert (Hrun : forall res, POST rt env request = Ret res ->
                 forall w, exec w (POST rt env request) = (Returned res, [])).
  { intros res H w. rewrite H. reflexivity. }
  destruct (request_json request) as [b |] eqn:Hb.
  - assert (Hcases : b = Null \/ b <> Null).
    { destruct b; [left; reflexivity | right; discriminate ..]. }
    destruct Hcases as [-> | Hnn].
    + eexists. split; [| split; [apply Hrun |]];
        [| | reflexivity]; unfold POST; rewrite Hb; reflexivity.
    + assert (H400 : POST rt env request =
                Ret (NextResponse_json (Obj [("error", Str "No image provided")]) 400)).
      { unfold POST, destructure. rewrite Hb. cbn [bind].
        rewrite !(get_field _ Hnn). fold (field b "imageBase64").
        destruct (field b "imageBase64") as [image |]; [| reflexivity].
        simpl in Hi. cbn [bind try_catch]. rewrite Hi. reflexivity. }
      eexists. split; [exact H400 |]. split; [apply Hrun; exact H400 |].
      destruct b; [congruence | reflexivity ..].
  - eexists. split; [| split; [apply Hrun |]];
      [| | reflexivity]; unfold POST; rewrite Hb; reflexivity.
Qed.

Lemma C6_witness :
  exists res,
    POST Engine.runtime Scenario.env_configured Scenario.request_without_image =
      Ret res /\
    (forall w,
       exec w (POST Engine.runtime Scenario.env_configured
                 Scenario.request_without_image) = (Returned res, [])) /\
    res = NextResponse_json (Obj [("error", Str "No image provided")]) 400.
Proof.
  apply (@C6_no_image_is_rejected_without_a_call Engine.runtime
           Scenario.env_configured Scenario.request_without_image).
  reflexivity.
Defined.

(** C7.  A POST with an image payload, served while the credential
    GROQ_API_KEY is absent (or empty), is answered with status 500 and the
    configuration error [{error: "Groq API key not configured"}]; the handler
    is then a plain return, so that no remote call is made. *)
Theorem C7_missing_credential_is_500 (rt : Runtime) (env : Env)
    (request : NextRequest) (b imageBase64 : value) :
  request_json request = Some b ->
  get b "imageBase64" = Some (Some imageBase64) ->
  truthy imageBase64 = true ->
  GROQ_API_KEY env = None \/ GROQ_API_KEY env = Some "" ->
  let rejection :=
    NextResponse_json (Obj [("error", Str "Groq API key not configured")]) 500 in
  POST rt env request = Ret rejection /\
  forall w, exec w (POST rt env request) = (Returned rejection, []).
Proof.
  intros Hb Hi Ht Hk.
  assert (H : POST rt env request
              = Ret (NextResponse_json
                       (Obj [("error", Str "Groq API key not configured")]) 500)).
  { assert (Hl : get b "language" = Some (field b "language")).
    { apply get_field. intros ->. discriminate. }
    unfold POST, destructure. rewrite Hb. cbn [bind]. rewrite Hi, Hl. cbn [bind].
    rewrite Ht. cbn [negb].
    destruct Hk as [Hk | Hk]; rewrite Hk; reflexivity. }
  simpl. split; [exact H |]. intros w. rewrite H. reflexivity.
Qed.

Lemma C7_witness :
  POST Engine.runtime Scenario.env_unconfigured Scenario.request_with_image =
    Ret (NextResponse_json (Obj [("error", Str "Groq API key not configured")]) 500) /\
  forall w,
    exec w (POST Engine.runtime Scenario.env_unconfigured Scenario.request_with_image) =
    (Returned
       (NextResponse_json (Obj [("error", Str "Groq API key not configured")]) 500),
     []).
Proof.
  apply (@C7_missing_credential_is_500 Engine.runtime Scenario.env_unconfigured
           Scenario.request_with_image
           (Obj [("imageBase64", Scenario.leaf_image); ("language", Str "en")])
           Scenario.leaf_image).
  - reflexivity.
  - reflexivity.
  - reflexivity.
  - left. reflexivity.
Defined.

(** ** Parsing and validation failures *)

(** C2.  When the reply of the primary vision call is a text that is neither
    JSON itself nor contains a parseable brace-delimited span, the span being
    located as the first match of the handler's expression (first opening
    brace to last closing brace), the flow transfers to the fallback tier
    (the one further call is the guidance call) and the caller receives a 200
    response whose object has [fallbackMode: true].  By [malformed_unparsed]
    this covers every text none of whose spans parses. *)
Theorem C2_malformed_reply_falls_back (rt : Runtime) (w : World) (env : Env)
    (request : NextRequest) (groqApiKey : string) (imageBase64 language : value)
    (resp : Response) (text : string) :
  accepted env request groqApiKey imageBase64 language ->
  upstream w [] (vision_request groqApiKey imageBase64) = Answered resp ->
  ok resp = true ->
  content_of (Answered resp) = Some (Str text) ->
  unparsed rt text = true ->
  exists res,
    exec w (POST rt env request) =
    (Returned res,
     [vision_call groqApiKey imageBase64; guidance_call groqApiKey language]) /\
    res_status res = 200 /\
    field (res_body res) "fallbackMode" = Some (Bool true).
Proof.
  intros Hacc Hresp Hok Hc Hbad.
  assert (Ht : exists e, on_vision_response rt groqApiKey language resp = Throw e).
  { unfold on_vision_response, await_json, choice_content. rewrite Hok.
    destruct resp as [st [data |]]; simpl in *; [| discriminate].
    destruct data as [| b | q | s | items | fields]; simpl in *;
      try discriminate.
    rewrite Hc. simpl.
    destruct (text =? "")%string; simpl; [eauto |].
    destruct (unparsed_not_parsed rt text Hbad) as [e He].
    rewrite He. simpl. eauto. }
  rewrite (thrown_after_vision rt w Hacc Hresp Ht), getFallbackAnalysis_run.
  eexists. split; [reflexivity |].
  split; [reflexivity |]. simpl.
  destruct (raises _); reflexivity.
Qed.

Lemma C2_witness :
  exists res,
    exec (Scenario.scripted
            [Scenario.completion "Result: {disease: Leaf Blight}";
             Scenario.completion Scenario.guidance])
         (POST Engine.runtime Scenario.env_configured Scenario.request_with_image) =
    (Returned res,
     [vision_call "gsk_test_key" Scenario.leaf_image;
      guidance_call "gsk_test_key" (Str "en")]) /\
    res_status res = 200 /\
    field (res_body res) "fallbackMode" = Some (Bool true).
Proof.
  apply (@C2_malformed_reply_falls_back Engine.runtime _ Scenario.env_configured
           Scenario.request_with_image "gsk_test_key" Scenario.leaf_image (Str "en")
           {| status := 200;
              json := Some (Obj [("choices",
                                  Arr [Obj [("index", Num 0);
                                            ("message",
                                             Obj [("role", Str "assistant");
                                                  ("content",
                                                   Str "Result: {disease: Leaf Blight}")])]])]) |}
           "Result: {disease: Leaf Blight}").
  - exists (Obj [("imageBase64", Scenario.leaf_image); ("language", Str "en")]).
    repeat split; try reflexivity. discriminate.
  - reflexivity.
  - reflexivity.
  - reflexivity.
  - vm_compute. reflexivity.
Defined.

(** The located span is greedy: a reply that wraps a valid diagnosis in prose
    and goes on with a second object has a parseable span, yet the span the
    expression matches runs to the last closing brace and does not parse. *)
Example located_span_is_greedy :
  malformed Engine.runtime Scenario.two_objects = false /\
  unparsed Engine.runtime Scenario.two_objects = true /\
  match_braces Scenario.two_objects =
    Some (Scenario.leaf_blight_bare ++ " Source: {" ++
          Scenario.pair "model" (quoted "scout") ++ "}").
Proof. repeat split; vm_compute; reflexivity. Qed.

(** C3.  When the reply of the primary vision call parses as JSON but has no
    [disease] or a [symptoms] that is not an array, the structural validation
    rejects it, although it was parsed: the flow transfers to the fallback
    tier and the caller receives a 200 response whose object has
    [fallbackMode: true]. *)
Theorem C3_invalid_structure_falls_back (rt : Runtime) (w : World) (env : Env)
    (request : NextRequest) (groqApiKey : string) (imageBase64 language : value)
    (resp : Response) (content analysis : value) :
  accepted env request groqApiKey imageBase64 language ->
  upstream w [] (vision_request groqApiKey imageBase64) = Answered resp ->
  ok resp = true ->
  content_of (Answered resp) = Some content ->
  truthy content = true ->
  parse_analysis rt content = Ret analysis ->
  field analysis "disease" = None \/ isArray (field analysis "symptoms") = false ->
  (exists e, validate rt analysis = Throw e) /\
  exists res,
    exec w (POST rt env request) =
    (Returned res,
     [vision_call groqApiKey imageBase64; guidance_call groqApiKey language]) /\
    res_status res = 200 /\
    field (res_body res) "fallbackMode" = Some (Bool true).
Proof.
  intros Hacc Hresp Hok Hc Htruthy Hparse Hbad.
  destruct (validate_rejects rt analysis Hbad) as [e He].
  split; [exists e; exact He |].
  assert (Ht : exists e, on_vision_response rt groqApiKey language resp = Throw e).
  { unfold on_vision_response, await_json, choice_content. rewrite Hok.
    destruct resp as [st [data |]]; simpl in *; [| discriminate].
    destruct data as [| b | q | s | items | fields]; simpl in *;
      try discriminate.
    rewrite Hc. simpl. rewrite Htruthy. simpl. rewrite Hparse. simpl.
    rewrite He. simpl. eauto. }
  rewrite (thrown_after_vision rt w Hacc Hresp Ht), getFallbackAnalysis_run.
  eexists. split; [reflexivity |].
  split; [reflexivity |]. simpl.
  destruct (raises _); reflexivity.
Qed.

Lemma C3_witness :
  (exists e, validate Engine.runtime Scenario.scalar_symptoms_analysis = Throw e) /\
  exists res,
    exec (Scenario.scripted
            [Scenario.completion Scenario.scalar_symptoms;
             Scenario.completion Scenario.guidance])
         (POST Engine.runtime Scenario.env_configured Scenario.request_with_image) =
    (Returned res,
     [vision_call "gsk_test_key" Scenario.leaf_image;
      guidance_call "gsk_test_key" (Str "en")]) /\
    res_status res = 200 /\
    field (res_body res) "fallbackMode" = Some (Bool true).
Proof.
  apply (@C3_invalid_structure_falls_back Engine.runtime _ Scenario.env_configured
           Scenario.request_with_image "gsk_test_key" Scenario.leaf_image (Str "en")
           {| status := 200;
              json := Some (Obj [("choices",
                                  Arr [Obj [("index", Num 0);
                                            ("message",
                                             Obj [("role", Str "assistant");
                                                  ("content",
                                                   Str Scenario.scalar_symptoms)])]])]) |}
           (Str Scenario.scalar_symptoms) Scenario.scalar_symptoms_analysis).
  - exists (Obj [("imageBase64", Scenario.leaf_image); ("language", Str "en")]).
    repeat split; try reflexivity. discriminate.
  - reflexivity.
  - reflexivity.
  - reflexivity.
  - reflexivity.
  - vm_compute. reflexivity.
  - right. reflexivity.
Defined.

(** ** The last tier *)

(** C5, as stated, fails: the fallback sub-flow does not test the status of
    the guidance response.  With a vision call that cannot be reached and a
    guidance call that is turned down with a 500 and a JSON body, both calls
    have failed, and the caller receives the guidance payload: confidence
    0.6, the fixed advice, and the [language] field. *)
Lemma C5_counterexample :
  vision_tier_fails Engine.runtime Scenario.guidance_refused "gsk_test_key"
    Scenario.leaf_image (Str "en") [vision_call "gsk_test_key" Scenario.leaf_image] /\
  (exists resp,
     upstream Scenario.guidance_refused
       [vision_call "gsk_test_key" Scenario.leaf_image]
       (guidance_request "gsk_test_key" (Str "en")) = Answered resp /\
     ok resp = false) /\
  exists res,
    exec Scenario.guidance_refused
      (POST Engine.runtime Scenario.env_configured Scenario.request_with_image) =
    (Returned res,
     [vision_call "gsk_test_key" Scenario.leaf_image;
      guidance_call "gsk_test_key" (Str "en")]) /\
    field (res_body res) "disease" = Some (Str "Analysis Service - Use Guidance") /\
    field (res_body res) "confidence" = Some (Num (6 # 10)) /\
    field (res_body res) "language" = Some (Str "en").
Proof.
  split; [| split].
  - left. eexists. reflexivity.
  - eexists. split; reflexivity.
  - eexists. split; [vm_compute; reflexivity |]. repeat split.
Qed.

(** C5 (amended).  When the vision tier fails, the endpoint makes one more
    call, the guidance call, and answers with status 200.  If that call
    raises (its [fetch] rejects, or its body cannot be read as JSON or is
    [null]), the answer is the hardcoded "Service Temporarily Unavailable"
    analysis, of confidence 0, with [fallbackMode: true] and without a
    [language] field.  If it is answered with a JSON body, whatever its
    status, the answer is the guidance payload: confidence 0.6,
    [fallbackMode: true], the [language] of the request, and as
    [aiGeneratedTreatment] the content of the answer or the fixed advice. *)
Theorem C5_last_tier_is_reached_when_the_guidance_call_raises (rt : Runtime)
    (w : World) (env : Env) (request : NextRequest) (groqApiKey : string)
    (imageBase64 language : value) (calls : list Call) :
  accepted env request groqApiKey imageBase64 language ->
  vision_tier_fails rt w groqApiKey imageBase64 language calls ->
  let r := upstream w calls (guidance_request groqApiKey language) in
  let hardcoded (res : NextResponse) :=
    exists now,
      res_body res = unavailable_payload now /\
      field (res_body res) "disease" =
        Some (Str "Service Temporarily Unavailable") /\
      field (res_body res) "confidence" = Some (Num 0) /\
      field (res_body res) "fallbackMode" = Some (Bool true) /\
      field (res_body res) "language" = None in
  let guided (res : NextResponse) :=
    exists now,
      res_body res = guidance_payload (content_of r) now language /\
      field (res_body res) "disease" =
        Some (Str "Analysis Service - Use Guidance") /\
      field (res_body res) "confidence" = Some (Num (6 # 10)) /\
      field (res_body res) "fallbackMode" = Some (Bool true) /\
      field (res_body res) "language" = Some language /\
      field (res_body res) "aiGeneratedTreatment" =
        Some (or_else (content_of r) (Str RouteMore.default_guidance)) in
  exists res,
    exec w (POST rt env request) =
      (Returned res, (calls ++ [guidance_call groqApiKey language])%list) /\
    res_status res = 200 /\
    match r with
    | Rejected => hardcoded res
    | Answered resp =>
        match json resp with
        | None => hardcoded res
        | Some Null => hardcoded res
        | Some _ => guided res
        end
    end.
Proof.
  intros Hacc Hfail. cbv zeta.
  rewrite (failed_tier_falls_back Hacc Hfail), getFallbackAnalysis_run.
  cbv zeta. eexists. split; [reflexivity |]. split; [reflexivity |].
  destruct (upstream w calls (guidance_request groqApiKey language))
    as [| [st [data |]]]; simpl.
  - eexists. repeat split.
  - destruct data; simpl; eexists; repeat split.
  - eexists. repeat split.
Qed.

Lemma C5_witness :
  exists res,
    exec (Scenario.scripted [Rejected; Rejected])
         (POST Engine.runtime Scenario.env_configured Scenario.request_with_image) =
    (Returned res,
     ([vision_call "gsk_test_key" Scenario.leaf_image] ++
      [guidance_call "gsk_test_key" (Str "en")])%list) /\
    res_status res = 200 /\
    exists now,
      res_body res = unavailable_payload now /\
      field (res_body res) "disease" =
        Some (Str "Service Temporarily Unavailable") /\
      field (res_body res) "confidence" = Some (Num 0) /\
      field (res_body res) "fallbackMode" = Some (Bool true) /\
      field (res_body res) "language" = None.
Proof.
  apply (@C5_last_tier_is_reached_when_the_guidance_call_raises Engine.runtime
           (Scenario.scripted [Rejected; Rejected]) Scenario.env_configured
           Scenario.request_with_image "gsk_test_key" Scenario.leaf_image (Str "en")).
  - exists (Obj [("imageBase64", Scenario.leaf_image); ("language", Str "en")]).
    repeat split; try reflexivity. discriminate.
  - left. eexists. reflexivity.
Defined.

(** ** The shapes of the answer *)

Lemma enhanced_field (fields : list (string * value)) (tc : option value)
    (now : string) (language : value) (k : string) :
  (k =? "language")%string = false ->
  (k =? "analysisTimestamp")%string = false ->
  (k =? "aiGeneratedTreatment")%string = false ->
  field (enhancedAnalysis (Obj fields) tc now language) k = lookup k fields.
Proof.
  intros H1 H2 H3. unfold field, enhancedAnalysis. simpl.
  rewrite !lookup_set, H1, H2, H3. reflexivity.
Qed.

Lemma enhanced_additions (fields : list (string * value)) (tc : option value)
    (now : string) (language : value) :
  let b := enhancedAnalysis (Obj fields) tc now language in
  field b "aiGeneratedTreatment" = Some (or_else tc (Str "")) /\
  field b "analysisTimestamp" = Some (Str now) /\
  field b "language" = Some language.
Proof.
  unfold field, enhancedAnalysis. simpl. rewrite !lookup_set. simpl.
  repeat split.
Qed.

(** An accepted request is answered with status 200 by one of three
    objects. *)
Lemma POST_shapes (rt : Runtime) (w : World) (env : Env) (request : NextRequest)
    (groqApiKey : string) (imageBase64 language : value) :
  accepted env request groqApiKey imageBase64 language ->
  exists res calls,
    exec w (POST rt env request) = (Returned res, calls) /\
    res_status res = 200 /\
    ((exists fields items d s tc now,
        primary_succeeds rt (upstream w [] (vision_request groqApiKey imageBase64))
          (Obj fields) /\
        truthy_opt (lookup "disease" fields) = true /\
        lookup "symptoms" fields = Some (Arr items) /\
        calls = [vision_call groqApiKey imageBase64;
                 treatment_call groqApiKey language d s] /\
        res_body res = enhancedAnalysis (Obj fields) tc now language) \/
     (exists before g now,
        calls = (before ++ [guidance_call groqApiKey language])%list /\
        res_body res = guidance_payload g now language) \/
     (exists before now,
        calls = (before ++ [guidance_call groqApiKey language])%list /\
        res_body res = unavailable_payload now)).
Proof.
  intros Hacc.
  destruct (POST_outcomes rt w Hacc)
    as [(fields & items & d & s & Hp & Hd & Hs & Hr & Hrun) | [calls Hrun]].
  - eexists. eexists. split; [exact Hrun |]. split; [reflexivity |].
    left. exists fields, items, d, s. eexists. eexists.
    repeat split; try eassumption; reflexivity.
  - rewrite getFallbackAnalysis_run in Hrun. simpl in Hrun.
    eexists. eexists. split; [exact Hrun |]. split; [reflexivity |].
    right. simpl.
    destruct (raises (upstream w calls (guidance_request groqApiKey language))).
    + right. exists calls. eexists. split; reflexivity.
    + left. exists calls. eexists. eexists. split; reflexivity.
Qed.

(** ** The answer to an accepted request *)

(** C1, as stated, fails: the object returned on the success path is the
    vision reply with three fields added, and a reply that has only
    [disease] and [symptoms] yields a 200 response that is not a
    DiseaseAnalysis of the data model (no [confidence], [description],
    [treatment] or [prevention]). *)
Lemma C1_counterexample :
  accepted Scenario.env_configured Scenario.request_with_image
    "gsk_test_key" Scenario.leaf_image (Str "en") /\
  exists res calls,
    exec Scenario.bare_reply
      (POST Engine.runtime Scenario.env_configured Scenario.request_with_image) =
    (Returned res, calls) /\
    res_status res = 200 /\
    field (res_body res) "fallbackMode" = None /\
    field (res_body res) "confidence" = None /\
    spec_DiseaseAnalysis (res_body res) = false.
Proof.
  split.
  - exists (Obj [("imageBase64", Scenario.leaf_image); ("language", Str "en")]).
    repeat split; try reflexivity. discriminate.
  - eexists. eexists. split; [vm_compute; reflexivity |].
    repeat split.
Qed.

(** C1 (amended).  Every POST with a truthy [imageBase64], served with the
    credential configured, is answered with status 200 and never with an
    exception or a non-2xx response.  The body is an object with a present
    [disease], an array of [symptoms], an [aiGeneratedTreatment] and an
    [analysisTimestamp].  Either it is the validated vision reply with
    [aiGeneratedTreatment], [analysisTimestamp] and [language] added, its
    other fields being those of the reply, unchecked; or the flow went
    through the fallback tier and it is one of the two fixed payloads, with
    [fallbackMode: true], a numeric [confidence] and textual placeholders. *)
Theorem C1_accepted_request_is_answered_200 (rt : Runtime) (w : World) (env : Env)
    (request : NextRequest) (groqApiKey : string) (imageBase64 language : value) :
  accepted env request groqApiKey imageBase64 language ->
  exists res calls,
    exec w (POST rt env request) = (Returned res, calls) /\
    res_status res = 200 /\
    truthy_opt (field (res_body res) "disease") = true /\
    isArray (field (res_body res) "symptoms") = true /\
    (exists t, field (res_body res) "aiGeneratedTreatment" = Some t) /\
    (exists now, field (res_body res) "analysisTimestamp" = Some (Str now)) /\
    ((exists fields tc now,
        primary_succeeds rt (upstream w [] (vision_request groqApiKey imageBase64))
          (Obj fields) /\
        res_body res = enhancedAnalysis (Obj fields) tc now language) \/
     (field (res_body res) "fallbackMode" = Some (Bool true) /\
      is_text (field (res_body res) "disease") = true /\
      is_number (field (res_body res) "confidence") = true /\
      is_text (field (res_body res) "description") = true /\
      is_texts (field (res_body res) "symptoms") = true /\
      is_texts (field (res_body res) "treatment") = true /\
      is_texts (field (res_body res) "prevention") = true /\
      exists before,
        calls = (before ++ [guidance_call groqApiKey language])%list)).
Proof.
  intros Hacc.
  destruct (POST_shapes rt w Hacc) as (res & calls & Hrun & Hst & Hshape).
  exists res, calls. split; [exact Hrun |]. split; [exact Hst |].
  destruct Hshape
    as [(fields & items & d & s & tc & now & Hp & Hd & Hs & Hc & Hb)
       | [(before & g & now & Hc & Hb) | (before & now & Hc & Hb)]];
    rewrite Hb.
  - destruct (enhanced_additions fields tc now language) as (Ha & Hn & _).
    rewrite !enhanced_field by reflexivity. rewrite Hd, Hs.
    repeat split; eauto.
    left. exists fields, tc, now. split; [exact Hp | reflexivity].
  - repeat split; try (eexists; reflexivity).
    right. repeat split. exists before. exact Hc.
  - repeat split; try (eexists; reflexivity).
    right. repeat split. exists before. exact Hc.
Qed.

Lemma C1_witness :
  exists res calls,
    exec Scenario.healthy
      (POST Engine.runtime Scenario.env_configured Scenario.request_with_image) =
    (Returned res, calls) /\
    res_status res = 200 /\
    truthy_opt (field (res_body res) "disease") = true /\
    isArray (field (res_body res) "symptoms") = true /\
    (exists t, field (res_body res) "aiGeneratedTreatment" = Some t) /\
    (exists now, field (res_body res) "analysisTimestamp" = Some (Str now)) /\
    ((exists fields tc now,
        primary_succeeds Engine.runtime
          (upstream Scenario.healthy []
             (vision_request "gsk_test_key" Scenario.leaf_image))
          (Obj fields) /\
        res_body res = enhancedAnalysis (Obj fields) tc now (Str "en")) \/
     (field (res_body res) "fallbackMode" = Some (Bool true) /\
      is_text (field (res_body res) "disease") = true /\
      is_number (field (res_body res) "confidence") = true /\
      is_text (field (res_body res) "description") = true /\
      is_texts (field (res_body res) "symptoms") = true /\
      is_texts (field (res_body res) "treatment") = true /\
      is_texts (field (res_body res) "prevention") = true /\
      exists before,
        calls = (before ++ [guidance_call "gsk_test_key" (Str "en")])%list)).
Proof.
  apply (@C1_accepted_request_is_answered_200 Engine.runtime Scenario.healthy
           Scenario.env_configured Scenario.request_with_image
           "gsk_test_key" Scenario.leaf_image (Str "en")).
  exists (Obj [("imageBase64", Scenario.leaf_image); ("language", Str "en")]).
  repeat split; try reflexivity. discriminate.
Defined.

(** The example of the specification: the full diagnosis merged with a
    narrative comes back with status 200, all its fields, the narrative and
    no fallback flag. *)
Example healthy_request_is_merged :
  exec Scenario.healthy
    (POST Engine.runtime Scenario.env_configured Scenario.request_with_image) =
  (Returned
     (NextResponse_json
        (Obj [("disease", Str "Leaf Blight");
              ("confidence", Num (9 # 10));
              ("symptoms", Arr [Str "yellow spots"]);
              ("treatment", Arr [Str "fungicide"]);
              ("prevention", Arr [Str "rotate crops"]);
              ("aiGeneratedTreatment", Str Scenario.narrative);
              ("analysisTimestamp", Str "2026-01-15T10:30:00.000Z");
              ("language", Str "en")])
        200),
   [vision_call "gsk_test_key" Scenario.leaf_image;
    treatment_call "gsk_test_key" (Str "en") "Leaf Blight" "yellow spots"]).
Proof. vm_compute. reflexivity. Qed.

(** ** The confidence *)

(** C8, as stated, fails on the success path: the confidence of the vision
    reply is copied without a check, and a reply that gives it in words comes
    back with a confidence that is not a number. *)
Lemma C8_counterexample :
  exists res calls,
    exec Scenario.worded_reply
      (POST Engine.runtime Scenario.env_configured Scenario.request_with_image) =
    (Returned res, calls) /\
    res_status res = 200 /\
    field (res_body res) "fallbackMode" = None /\
    field (res_body res) "confidence" = Some (Str "high") /\
    is_number (field (res_body res) "confidence") = false.
Proof.
  eexists. eexists. split; [vm_compute; reflexivity |].
  repeat split.
Qed.

(** C8 (amended).  An accepted request ends in one of two ways.  On the
    success path (the primary call succeeds and the narrative call does not
    raise; the calls are the vision and the narrative call) the confidence
    of the returned object is that of the vision reply, copied as it is: it
    is numeric exactly when the reply gives a number.  Otherwise the last
    call is the guidance call and the object is that of a fallback tier,
    with [fallbackMode: true] and a numeric confidence: 0.6 on the guidance
    tier (the guidance call does not raise), 0 on the hardcoded tier (it
    raises). *)
Theorem C8_confidence_fixed_on_fallback_copied_on_success (rt : Runtime)
    (w : World) (env : Env) (request : NextRequest) (groqApiKey : string)
    (imageBase64 language : value) :
  accepted env request groqApiKey imageBase64 language ->
  let v := vision_call groqApiKey imageBase64 in
  let g := guidance_call groqApiKey language in
  exists res calls,
    exec w (POST rt env request) = (Returned res, calls) /\
    ((exists fields d s,
        primary_succeeds rt (upstream w [] (vision_request groqApiKey imageBase64))
          (Obj fields) /\
        raises (upstream w [v] (treatment_request groqApiKey language d s)) = false /\
        calls = [v; treatment_call groqApiKey language d s] /\
        field (res_body res) "confidence" = lookup "confidence" fields /\
        is_number (field (res_body res) "confidence") =
          is_number (lookup "confidence" fields)) \/
     (exists before,
        let r := upstream w before (guidance_request groqApiKey language) in
        calls = (before ++ [g])%list /\
        res_body res =
          (if raises r then unavailable_payload (clock w calls)
           else guidance_payload (content_of r) (clock w calls) language) /\
        field (res_body res) "fallbackMode" = Some (Bool true) /\
        field (res_body res) "confidence" =
          Some (Num (if raises r then 0 else 6 # 10)) /\
        is_number (field (res_body res) "confidence") = true)).
Proof.
  intros Hacc. cbv zeta.
  destruct (POST_outcomes rt w Hacc)
    as [(fields & items & d & s & Hp & Hd & Hs & Hr & Hrun) | [calls Hrun]].
  - eexists. eexists. split; [exact Hrun |]. left.
    exists fields, d, s. split; [exact Hp |]. split; [exact Hr |].
    split; [reflexivity |]. simpl res_body.
    rewrite enhanced_field by reflexivity. split; reflexivity.
  - rewrite getFallbackAnalysis_run in Hrun. cbv zeta in Hrun.
    eexists. eexists. split; [exact Hrun |]. right.
    exists calls. cbv zeta. split; [reflexivity |]. simpl res_body.
    destruct (raises (upstream w calls (guidance_request groqApiKey language)));
      repeat split.
Qed.

Lemma C8_witness :
  exists res calls,
    exec Scenario.healthy
      (POST Engine.runtime Scenario.env_configured Scenario.request_with_image) =
    (Returned res, calls) /\
    ((exists fields d s,
        primary_succeeds Engine.runtime
          (upstream Scenario.healthy []
             (vision_request "gsk_test_key" Scenario.leaf_image))
          (Obj fields) /\
        raises (upstream Scenario.healthy
                  [vision_call "gsk_test_key" Scenario.leaf_image]
                  (treatment_request "gsk_test_key" (Str "en") d s)) = false /\
        calls = [vision_call "gsk_test_key" Scenario.leaf_image;
                 treatment_call "gsk_test_key" (Str "en") d s] /\
        field (res_body res) "confidence" = lookup "confidence" fields /\
        is_number (field (res_body res) "confidence") =
          is_number (lookup "confidence" fields)) \/
     (exists before,
        calls = (before ++ [guidance_call "gsk_test_key" (Str "en")])%list /\
        res_body res =
          (if raises (upstream Scenario.healthy before
                        (guidance_request "gsk_test_key" (Str "en")))
           then unavailable_payload (clock Scenario.healthy calls)
           else guidance_payload
                  (content_of (upstream Scenario.healthy before
                                 (guidance_request "gsk_test_key" (Str "en"))))
                  (clock Scenario.healthy calls) (Str "en")) /\
        field (res_body res) "fallbackMode" = Some (Bool true) /\
        field (res_body res) "confidence" =
          Some (Num (if raises (upstream Scenario.healthy before
                                  (guidance_request "gsk_test_key" (Str "en")))
                     then 0 else 6 # 10)) /\
        is_number (field (res_body res) "confidence") = true)).
Proof.
  apply (@C8_confidence_fixed_on_fallback_copied_on_success Engine.runtime
           Scenario.healthy Scenario.env_configured Scenario.request_with_image
           "gsk_test_key" Scenario.leaf_image (Str "en")).
  exists (Obj [("imageBase64", Scenario.leaf_image); ("language", Str "en")]).
  repeat split; try reflexivity. discriminate.
Defined.

(** ** The narrative call *)

Lemma join_texts (rt : Runtime) (sep : string) (items : list value) :
  forallb is_text_value items = true -> exists s, join rt sep items = Some s.
Proof.
  induction items as [| x rest IH]; simpl; intros H; [eauto |].
  apply andb_true_iff in H. destruct H as [Hx Hrest].
  destruct x as [| b | q | sx | l | f]; try discriminate. simpl.
  destruct rest as [| y rest']; [eauto |].
  destruct (IH Hrest) as [sr Hsr]. rewrite Hsr. eauto.
Qed.

(** The prompts of the narrative call are built whenever the disease is a
    text and the symptoms are texts. *)
Lemma prompts_of_texts (rt : Runtime) (analysis : value) :
  is_text (field analysis "disease") = true ->
  is_texts (field analysis "symptoms") = true ->
  exists d s,
    interpolate rt (field analysis "disease") = Ret d /\
    call_join rt (field analysis "symptoms") ", " = Ret s.
Proof.
  intros Hd Hs.
  destruct (field analysis "disease") as [[| b | q | d | l | f] |];
    try discriminate.
  destruct (field analysis "symptoms") as [[| b | q | t | items | f] |];
    try discriminate.
  simpl in Hs. destruct (join_texts rt ", " items Hs) as [s Hjoin].
  exists d, s. simpl. rewrite Hjoin. split; reflexivity.
Qed.

(** C4, as stated, fails: the narrative call is made inside the same [try]
    as the vision call.  With a valid diagnosis from the vision call and a
    narrative call whose [fetch] rejects, the caller receives the guidance
    payload of the fallback tier and the diagnosis is lost. *)
Lemma C4_counterexample :
  primary_succeeds Engine.runtime
    (upstream Scenario.narrative_unreachable []
       (vision_request "gsk_test_key" Scenario.leaf_image))
    Scenario.leaf_blight_analysis /\
  upstream Scenario.narrative_unreachable
    [vision_call "gsk_test_key" Scenario.leaf_image]
    (treatment_request "gsk_test_key" (Str "en") "Leaf Blight" "yellow spots") =
  Rejected /\
  exists res,
    exec Scenario.narrative_unreachable
      (POST Engine.runtime Scenario.env_configured Scenario.request_with_image) =
    (Returned res,
     [vision_call "gsk_test_key" Scenario.leaf_image;
      treatment_call "gsk_test_key" (Str "en") "Leaf Blight" "yellow spots";
      guidance_call "gsk_test_key" (Str "en")]) /\
    field (res_body res) "fallbackMode" = Some (Bool true) /\
    field (res_body res) "disease" = Some (Str "Analysis Service - Use Guidance") /\
    field (res_body res) "treatment" <> field Scenario.leaf_blight_analysis "treatment".
Proof.
  split; [| split].
  - eexists. exists (Str Scenario.leaf_blight).
    repeat split; vm_compute; reflexivity.
  - reflexivity.
  - eexists. split; [vm_compute; reflexivity |].
    split; [reflexivity |]. split; [reflexivity |].
    intros H. vm_compute in H. discriminate H.
Qed.

(** C4 (amended).  Let the primary vision call succeed (steps 2 to 4 pass)
    and let the disease and the symptoms of its analysis be rendered as the
    texts of the narrative prompt.  If the narrative call is answered with a
    body that is read as JSON and is not [null], whatever its status and
    whether or not it has content, the returned object carries the
    [disease], [symptoms] and [treatment] of the primary reply,
    [aiGeneratedTreatment] is the narrative content, or the empty string
    when there is none, and no fallback flag is added.  If the narrative
    call raises (its [fetch] rejects, or its body is not JSON or is [null]),
    the enclosing [catch] transfers to the fallback tier: the answer is
    still a 200, and its body is what the fallback tier makes after one more
    call, the guidance call: the guidance payload, or the hardcoded payload
    when that call raises too.  It has [fallbackMode: true] and the
    placeholder [disease], [symptoms] and [treatment] of that payload
    instead of those of the primary reply. *)
Theorem C4_narrative_is_merged_when_answered (rt : Runtime) (w : World) (env : Env)
    (request : NextRequest) (groqApiKey : string) (imageBase64 language : value)
    (analysis : value) (d s : string) :
  accepted env request groqApiKey imageBase64 language ->
  primary_succeeds rt (upstream w [] (vision_request groqApiKey imageBase64))
    analysis ->
  interpolate rt (field analysis "disease") = Ret d ->
  call_join rt (field analysis "symptoms") ", " = Ret s ->
  let v := vision_call groqApiKey imageBase64 in
  let t := treatment_call groqApiKey language d s in
  let r2 := upstream w [v] (treatment_request groqApiKey language d s) in
  let g := guidance_call groqApiKey language in
  let r3 := upstream w [v; t] (guidance_request groqApiKey language) in
  exists res,
    res_status res = 200 /\
    if raises r2 then
      exec w (POST rt env request) = (Returned res, [v; t; g]) /\
      field (res_body res) "fallbackMode" = Some (Bool true) /\
      res_body res =
        (if raises r3 then unavailable_payload (clock w [v; t; g])
         else guidance_payload (content_of r3) (clock w [v; t; g]) language) /\
      field (res_body res) "disease" =
        Some (Str (if raises r3 then "Service Temporarily Unavailable"
                   else "Analysis Service - Use Guidance")) /\
      field (res_body res) "symptoms" =
        Some (Arr (if raises r3
                   then [Str "Service error - please try again later"]
                   else [Str "Image upload successful";
                         Str "Please use the recommendations below"])) /\
      field (res_body res) "treatment" =
        Some (Arr (if raises r3
                   then [Str "Try uploading again in a few moments";
                         Str "Contact your local Agricultural Department"]
                   else [Str "Upload a clear, well-lit image of affected leaf";
                         Str "Include both affected and healthy parts";
                         Str "Ensure good camera focus"]))
    else
      exec w (POST rt env request) = (Returned res, [v; t]) /\
      field (res_body res) "disease" = field analysis "disease" /\
      field (res_body res) "symptoms" = field analysis "symptoms" /\
      field (res_body res) "treatment" = field analysis "treatment" /\
      field (res_body res) "fallbackMode" = field analysis "fallbackMode" /\
      field (res_body res) "aiGeneratedTreatment" =
        Some (or_else (content_of r2) (Str "")) /\
      (truthy_opt (content_of r2) = false ->
       field (res_body res) "aiGeneratedTreatment" = Some (Str "")).
Proof.
  intros Hacc Hp Hd Hs. cbv zeta.
  assert (Hresp : exists resp,
             upstream w [] (vision_request groqApiKey imageBase64) = Answered resp).
  { destruct Hp as (resp & content & Hr & _). exists resp. exact Hr. }
  destruct Hresp as [resp Hresp]. rewrite Hresp in Hp.
  pose proof (on_vision_response_succeeds groqApiKey language Hp) as Hn.
  assert (Hv : validate rt analysis = Ret tt).
  { destruct Hp as (resp' & content & _ & _ & _ & _ & _ & _ & Hv). exact Hv. }
  destruct (validate_accepts rt _ Hv) as (fields & items & -> & _ & _).
  unfold field in Hd, Hs. simpl in Hd, Hs.
  pose proof (@narrate_run rt w groqApiKey language fields d s
                [vision_call groqApiKey imageBase64] Hd Hs) as Hrun.
  simpl in Hrun.
  destruct (raises (upstream w [vision_call groqApiKey imageBase64]
                      (treatment_request groqApiKey language d s))) eqn:Hr2.
  - assert (Hfail : vision_tier_fails rt w groqApiKey imageBase64 language
                      [vision_call groqApiKey imageBase64;
                       treatment_call groqApiKey language d s]).
    { left. eexists. rewrite vision_tier_run, Hresp, Hn. exact Hrun. }
    rewrite (failed_tier_falls_back Hacc Hfail), getFallbackAnalysis_run.
    eexists. refine (conj _ (conj eq_refl _)); [reflexivity |].
    simpl.
    match goal with
    | |- context [if raises ?r then _ else _] => destruct (raises r)
    end; repeat split.
  - rewrite (POST_accepted rt w Hacc), analyse_run, vision_tier_run, Hresp, Hn, Hrun.
    eexists. refine (conj _ (conj eq_refl _)); [reflexivity |].
    simpl res_body.
    match goal with
    | |- context [enhancedAnalysis _ ?tc ?now _] =>
        destruct (enhanced_additions fields tc now language) as (Ha & _ & _)
    end.
    rewrite !enhanced_field by reflexivity.
    repeat split; try exact Ha.
    intros Hfalsy. rewrite Ha. unfold or_else.
    match goal with
    | |- context [match ?c with Some _ => _ | None => _ end] =>
        destruct c as [c' |]; [| reflexivity]
    end.
    simpl in Hfalsy. rewrite Hfalsy. reflexivity.
Qed.

Lemma C4_witness :
  exists res,
    res_status res = 200 /\
    exec Scenario.narrative_throttled
      (POST Engine.runtime Scenario.env_configured Scenario.request_with_image) =
      (Returned res,
       [vision_call "gsk_test_key" Scenario.leaf_image;
        treatment_call "gsk_test_key" (Str "en") "Leaf Blight" "yellow spots"]) /\
    field (res_body res) "disease" = field Scenario.leaf_blight_analysis "disease" /\
    field (res_body res) "symptoms" = field Scenario.leaf_blight_analysis "symptoms" /\
    field (res_body res) "treatment" = field Scenario.leaf_blight_analysis "treatment" /\
    field (res_body res) "fallbackMode" =
      field Scenario.leaf_blight_analysis "fallbackMode" /\
    field (res_body res) "aiGeneratedTreatment" =
      Some (or_else
              (content_of (Scenario.upstream_error 429 "Rate limit reached"))
              (Str "")) /\
    (truthy_opt (content_of (Scenario.upstream_error 429 "Rate limit reached")) = false ->
     field (res_body res) "aiGeneratedTreatment" = Some (Str "")).
Proof.
  apply (@C4_narrative_is_merged_when_answered Engine.runtime
           Scenario.narrative_throttled
           Scenario.env_configured Scenario.request_with_image
           "gsk_test_key" Scenario.leaf_image (Str "en")
           Scenario.leaf_blight_analysis "Leaf Blight" "yellow spots").
  - exists (Obj [("imageBase64", Scenario.leaf_image); ("language", Str "en")]).
    repeat split; try reflexivity. discriminate.
  - eexists. exists (Str Scenario.leaf_blight).
    repeat split; vm_compute; reflexivity.
  - reflexivity.
  - reflexivity.
Defined.

End RouteFacts.


(* ================================================================== *)
(** * Facts about the chat submission flow                             *)
(* ================================================================== *)

Module ChatFacts.
Import Js Prog Http Chat ProgFacts.
Local Open Scope prog_scope.

(** [speakText] swallows whatever happens inside it and changes nothing in
    the session. *)
Lemma speakText_run (rt : Runtime) (w : World) (locale : string) (text : value)
    (s : Session) :
  exec w (speakText rt locale text) s = (Returned tt, s).
Proof.
  unfold exec, speakText. simpl.
  destruct (speech w text); simpl; [| reflexivity].
  destruct text; reflexivity.
Qed.

Lemma speakText_wp (rt : Runtime) (locale : string) (text : value) :
  wp (speakText rt locale text) (fun _ => True) (fun _ => False).
Proof.
  unfold speakText. apply wp_try_catch. simpl.
  intros [|]; simpl; [| exact I].
  destruct text; simpl; exact I.
Qed.

(** Whatever it is given and whatever the world does, [submitMessage] does
    not throw. *)
Lemma submitMessage_never_throws (rt : Runtime) (isLoading : bool)
    (locale : string) (isMuted : bool) (messageText : string) :
  wp (submitMessage rt isLoading locale isMuted messageText)
     (fun _ => True) (fun _ => False).
Proof.
  unfold submitMessage.
  destruct ((trim messageText =? "")%string || isLoading); simpl; [exact I |].
  intros now date [] [] [] [| resp]; simpl; [intros; exact I |].
  destruct (ok resp); simpl; [| intros; exact I].
  destruct (json resp) as [data |]; simpl; [| intros; exact I].
  intros now'.
  destruct (get data "response") as [response_text |]; simpl; [| intros; exact I].
  intros date' [].
  apply wp_try_finally. apply wp_try_catch.
  destruct response_text as [text |]; simpl; [| intros; exact I].
  destruct (negb isMuted && truthy text); [| simpl; intros; exact I].
  eapply wp_mono; [| | apply speakText_wp].
  - simpl. intros; exact I.
  - intros e [].
Qed.



End ChatFacts.


(* ================================================================== *)
(** * Facts about observations                                         *)
(* ================================================================== *)

Module ObserveFacts.
Import Js Prog Observe ProgFacts.

Section Facts.
Variable E : Type -> Type.

Lemma always_bind (P : forall X : Type, E X -> Prop) (A B : Type)
    (p : Prog.t E A) (f : A -> Prog.t E B) :
  always P p -> (forall a, always P (f a)) -> always P (bind p f).
Proof.
  intros Hp Hf. induction p as [a | e | X ev k IH]; simpl; auto.
  destruct Hp as [Hev Hk]. split; [exact Hev |]. intros x. apply IH, Hk.
Qed.

Lemma always_try_catch (P : forall X : Type, E X -> Prop) (A : Type)
    (p : Prog.t E A) (h : Exn -> Prog.t E A) :
  always P p -> (forall e, always P (h e)) -> always P (try_catch p h).
Proof.
  intros Hp Hh. induction p as [a | e | X ev k IH]; simpl; auto.
  destruct Hp as [Hev Hk]. split; [exact Hev |]. intros x. apply IH, Hk.
Qed.

Lemma always_try_finally (P : forall X : Type, E X -> Prop)
    (p f : Prog.t E unit) :
  always P p -> always P f -> always P (try_finally p f).
Proof.
  intros Hp Hf. induction p as [a | e | X ev k IH]; simpl; auto.
  - apply always_bind; [exact Hf | intros; exact I].
  - destruct Hp as [Hev Hk]. split; [exact Hev |]. intros x. apply IH, Hk.
Qed.

Lemma alike_bind (A B : Type) (R : A -> A -> Prop) (R' : B -> B -> Prop)
    (p q : Prog.t E A) (f g : A -> Prog.t E B) :
  alike R p q ->
  (forall a b, R a b -> alike R' (f a) (g b)) ->
  alike R' (bind p f) (bind q g).
Proof.
  intros Hpq Hfg. induction Hpq as [a b Hab | e | X ev k k' Hk IH]; simpl.
  - apply Hfg, Hab.
  - constructor.
  - constructor. exact IH.
Qed.

Lemma alike_try_catch (A : Type) (R : A -> A -> Prop)
    (p q : Prog.t E A) (h h' : Exn -> Prog.t E A) :
  alike R p q ->
  (forall e, alike R (h e) (h' e)) ->
  alike R (try_catch p h) (try_catch q h').
Proof.
  intros Hpq Hh. induction Hpq as [a b Hab | e | X ev k k' Hk IH]; simpl.
  - constructor. exact Hab.
  - apply Hh.
  - constructor. exact IH.
Qed.

Lemma alike_refl (A : Type) (R : A -> A -> Prop) (p : Prog.t E A) :
  (forall a, R a a) -> alike R p p.
Proof.
  intros HR. induction p as [a | e | X ev k IH]; constructor; auto.
Qed.

(** Run against the same world, programs that are alike leave it in the same
    state, with outcomes related by [R]. *)
Lemma alike_run (W : Type) (answer : forall X : Type, E X -> W -> X * W)
    (A : Type) (R : A -> A -> Prop) (p q : Prog.t E A) (w : W) :
  alike R p q ->
  snd (run answer p w) = snd (run answer q w) /\
  match fst (run answer p w), fst (run answer q w) with
  | Returned a, Returned b => R a b
  | Raised e, Raised e' => e = e'
  | _, _ => False
  end.
Proof.
  intros H. revert w.
  induction H as [a b Hab | e | X ev k k' Hk IH]; intros w; simpl; auto.
  destruct (answer X ev w) as [x w']. apply IH.
Qed.
End Facts.

End ObserveFacts.


(* ================================================================== *)
(** * More facts about the plant-disease route                         *)
(* ================================================================== *)

Module RouteMoreFacts.
Import Js Prog Http Route RouteMore Observe ProgFacts JsFacts RouteFacts ObserveFacts.
Local Open Scope prog_scope.

Arguments vision_request : simpl never.
Arguments treatment_request : simpl never.
Arguments guidance_request : simpl never.
Arguments guidance_payload : simpl never.
Arguments unavailable_payload : simpl never.
Arguments enhancedAnalysis : simpl never.
Arguments endpoint : simpl never.
Arguments analyse : simpl never.

(** The ways an accepted request ends, with the calls made before the
    fallback sub-flow is entered. *)
Lemma POST_traces (rt : Runtime) (w : World) (env : Env) (request : NextRequest)
    (groqApiKey : string) (imageBase64 language : value) :
  accepted env request groqApiKey imageBase64 language ->
  let v := vision_call groqApiKey imageBase64 in
  (exists fields d s,
     validate rt (Obj fields) = Ret tt /\
     exec w (POST rt env request) =
     (Returned
        (NextResponse_json
           (enhancedAnalysis (Obj fields)
              (content_of (upstream w [v] (treatment_request groqApiKey language d s)))
              (clock w [v; treatment_call groqApiKey language d s]) language)
           200),
      [v; treatment_call groqApiKey language d s])) \/
  (exists calls,
     (calls = [v] \/ exists d s, calls = [v; treatment_call groqApiKey language d s]) /\
     exec w (POST rt env request) =
     run_from w (getFallbackAnalysis rt groqApiKey language) calls).
Proof.
  intros Hacc v. subst v.
  destruct (upstream w [] (vision_request groqApiKey imageBase64))
    as [| resp] eqn:Hresp.
  { right. exists [vision_call groqApiKey imageBase64]. split; [left; reflexivity |].
    apply (failed_tier_falls_back Hacc). left. eexists.
    rewrite vision_tier_run, Hresp. reflexivity. }
  destruct (on_vision_response_cases rt groqApiKey language resp)
    as [Hf | [Ht | [analysis Hs]]].
  - right. exists [vision_call groqApiKey imageBase64]. split; [left; reflexivity |].
    rewrite (POST_accepted rt w Hacc), analyse_run, vision_tier_run, Hresp, Hf.
    rewrite getFallbackAnalysis_run. reflexivity.
  - right. exists [vision_call groqApiKey imageBase64]. split; [left; reflexivity |].
    apply (thrown_after_vision rt w Hacc Hresp Ht).
  - pose proof (on_vision_response_succeeds groqApiKey language Hs) as Hn.
    destruct Hs as (resp' & content & Hr & Hok & Hraise & Hc & Htr & Hp & Hv).
    destruct (validate_accepts rt _ Hv) as (fields & items & -> & Hd & Hsy).
    destruct (interpolate_settled rt (lookup "disease" fields)) as [[d Hid] | Hthrow].
    2:{ right. exists [vision_call groqApiKey imageBase64].
        split; [left; reflexivity |].
        apply (failed_tier_falls_back Hacc). left.
        destruct (@narrate_unbuilt rt w groqApiKey language fields
                    [vision_call groqApiKey imageBase64] (or_introl Hthrow))
          as [e He].
        exists e. rewrite vision_tier_run, Hresp, Hn. exact He. }
    destruct (call_join_settled rt (lookup "symptoms" fields) ", ")
      as [[s Hjs] | Hthrow].
    2:{ right. exists [vision_call groqApiKey imageBase64].
        split; [left; reflexivity |].
        apply (failed_tier_falls_back Hacc). left.
        destruct (@narrate_unbuilt rt w groqApiKey language fields
                    [vision_call groqApiKey imageBase64] (or_intror Hthrow))
          as [e He].
        exists e. rewrite vision_tier_run, Hresp, Hn. exact He. }
    pose proof (@narrate_run rt w groqApiKey language fields d s
                  [vision_call groqApiKey imageBase64] Hid Hjs) as Hrun.
    simpl in Hrun.
    destruct (raises (upstream w [vision_call groqApiKey imageBase64]
                        (treatment_request groqApiKey language d s))) eqn:Hr2.
    + right. exists [vision_call groqApiKey imageBase64;
                     treatment_call groqApiKey language d s].
      split; [right; exists d, s; reflexivity |].
      apply (failed_tier_falls_back Hacc). left. eexists.
      rewrite vision_tier_run, Hresp, Hn. exact Hrun.
    + left. exists fields, d, s. split; [exact Hv |].
      rewrite (POST_accepted rt w Hacc), analyse_run, vision_tier_run, Hresp, Hn, Hrun.
      reflexivity.
Qed.

(** ** Every request is answered *)

(** X1.  Whatever the request, the environment, the engine and the world,
    [POST] returns a response and never throws; the status of the response
    is 200, 400 or 500. *)
Theorem X1_POST_always_answers (rt : Runtime) (env : Env) (request : NextRequest)
    (w : World) :
  exists res calls,
    exec w (POST rt env request) = (Returned res, calls) /\
    (res_status res = 200 \/ res_status res = 400 \/ res_status res = 500).
Proof.
  pose proof (wp_run (answer w) (POST rt env request) _ _ []
                (POST_never_throws rt env request)) as H.
  unfold exec, run_from.
  destruct (run (answer w) (POST rt env request) []) as [[res | e] calls];
    simpl in H; [| contradiction].
  exists res, calls. split; [reflexivity | exact H].
Qed.



(** ** The vision call *)

(** X3.  When the vision call is rejected or answered outside 2xx, the
    request ends in the fallback sub-flow whatever the error body says: the
    search of the error message for "image" or "vision" changes nothing in
    what is called and returned.  The calls are the vision call and the
    guidance call, the answer is what [getFallbackAnalysis] returns after the
    vision call, with status 200 and [fallbackMode: true]. *)
Theorem X3_failed_vision_call_falls_back (rt : Runtime) (w : World) (env : Env)
    (request : NextRequest) (groqApiKey : string) (imageBase64 language : value) :
  accepted env request groqApiKey imageBase64 language ->
  match upstream w [] (vision_request groqApiKey imageBase64) with
  | Rejected => True
  | Answered resp => ok resp = false
  end ->
  exec w (POST rt env request) =
    run_from w (getFallbackAnalysis rt groqApiKey language)
      [vision_call groqApiKey imageBase64] /\
  exists res,
    exec w (POST rt env request) =
    (Returned res,
     [vision_call groqApiKey imageBase64; guidance_call groqApiKey language]) /\
    res_status res = 200 /\
    field (res_body res) "fallbackMode" = Some (Bool true).
Proof.
  intros Hacc Hfail.
  assert (Hrun : exec w (POST rt env request) =
                 run_from w (getFallbackAnalysis rt groqApiKey language)
                   [vision_call groqApiKey imageBase64]).
  { destruct (upstream w [] (vision_request groqApiKey imageBase64))
      as [| resp] eqn:Hresp.
    - apply (failed_tier_falls_back Hacc). left. eexists.
      rewrite vision_tier_run, Hresp. reflexivity.
    - destruct (on_vision_response_cases rt groqApiKey language resp)
        as [Hf | [Ht | [analysis Hs]]].
      + rewrite (POST_accepted rt w Hacc), analyse_run, vision_tier_run, Hresp, Hf.
        rewrite getFallbackAnalysis_run. reflexivity.
      + apply (thrown_after_vision rt w Hacc Hresp Ht).
      + destruct Hs as (resp' & content & Hr & Hok & _).
        inversion Hr; subst resp'. congruence. }
  split; [exact Hrun |].
  rewrite Hrun, getFallbackAnalysis_run.
  eexists. split; [reflexivity |]. split; [reflexivity |]. simpl.
  match goal with
  | |- context [if raises ?r then _ else _] => destruct (raises r)
  end; reflexivity.
Qed.

Lemma X3_witness :
  exec Scenario2.unauthorized
    (POST Engine.runtime Scenario.env_configured Scenario.request_with_image) =
    run_from Scenario2.unauthorized
      (getFallbackAnalysis Engine.runtime "gsk_test_key" (Str "en"))
      [vision_call "gsk_test_key" Scenario.leaf_image] /\
  exists res,
    exec Scenario2.unauthorized
      (POST Engine.runtime Scenario.env_configured Scenario.request_with_image) =
    (Returned res,
     [vision_call "gsk_test_key" Scenario.leaf_image;
      guidance_call "gsk_test_key" (Str "en")]) /\
    res_status res = 200 /\
    field (res_body res) "fallbackMode" = Some (Bool true).
Proof.
  apply (@X3_failed_vision_call_falls_back Engine.runtime Scenario2.unauthorized
           Scenario.env_configured Scenario.request_with_image
           "gsk_test_key" Scenario.leaf_image (Str "en")).
  - exists (Obj [("imageBase64", Scenario.leaf_image); ("language", Str "en")]).
    repeat split; try reflexivity. discriminate.
  - reflexivity.
Defined.

(** ** The remote calls of a request *)

(** X4.  An accepted request makes two or three remote calls.  The first is
    the vision call; it is followed by the narrative call alone (success),
    by the guidance call alone, or by the narrative call and then the
    guidance call.  The guidance call is made at most once and is then the
    last call. *)
Theorem X4_at_most_three_calls (rt : Runtime) (w : World) (env : Env)
    (request : NextRequest) (groqApiKey : string) (imageBase64 language : value) :
  accepted env request groqApiKey imageBase64 language ->
  exists res calls,
    exec w (POST rt env request) = (Returned res, calls) /\
    (calls = [vision_call groqApiKey imageBase64;
              guidance_call groqApiKey language] \/
     exists d s,
       calls = [vision_call groqApiKey imageBase64;
                treatment_call groqApiKey language d s] \/
       calls = [vision_call groqApiKey imageBase64;
                treatment_call groqApiKey language d s;
                guidance_call groqApiKey language]).
Proof.
  intros Hacc.
  destruct (POST_traces rt w Hacc)
    as [(fields & d & s & _ & Hrun) | (calls & Hcalls & Hrun)].
  - eexists. eexists. split; [exact Hrun |]. right. exists d, s. left. reflexivity.
  - rewrite getFallbackAnalysis_run in Hrun. simpl in Hrun.
    eexists. eexists. split; [exact Hrun |].
    destruct Hcalls as [-> | (d & s & ->)].
    + left. reflexivity.
    + right. exists d, s. right. reflexivity.
Qed.

Lemma X4_witness :
  exists res calls,
    exec Scenario.narrative_unreachable
      (POST Engine.runtime Scenario.env_configured Scenario.request_with_image) =
    (Returned res, calls) /\
    (calls = [vision_call "gsk_test_key" Scenario.leaf_image;
              guidance_call "gsk_test_key" (Str "en")] \/
     exists d s,
       calls = [vision_call "gsk_test_key" Scenario.leaf_image;
                treatment_call "gsk_test_key" (Str "en") d s] \/
       calls = [vision_call "gsk_test_key" Scenario.leaf_image;
                treatment_call "gsk_test_key" (Str "en") d s;
                guidance_call "gsk_test_key" (Str "en")]).
Proof.
  apply (@X4_at_most_three_calls Engine.runtime Scenario.narrative_unreachable
           Scenario.env_configured Scenario.request_with_image
           "gsk_test_key" Scenario.leaf_image (Str "en")).
  exists (Obj [("imageBase64", Scenario.leaf_image); ("language", Str "en")]).
  repeat split; try reflexivity. discriminate.
Defined.

(** X5.  Every remote call of an accepted request is a POST to the Groq
    completions endpoint that carries the configured key as bearer token:
    the credential goes nowhere else, and no call is made without it. *)
Theorem X5_every_call_is_authorized (rt : Runtime) (w : World) (env : Env)
    (request : NextRequest) (groqApiKey : string) (imageBase64 language : value) :
  accepted env request groqApiKey imageBase64 language ->
  Forall (authorized groqApiKey) (snd (exec w (POST rt env request))).
Proof.
  intros Hacc.
  destruct (POST_traces rt w Hacc)
    as [(fields & d & s & _ & Hrun) | (calls & Hcalls & Hrun)].
  - rewrite Hrun. simpl. repeat constructor.
  - rewrite Hrun, getFallbackAnalysis_run. simpl.
    destruct Hcalls as [-> | (d & s & ->)]; simpl; repeat constructor.
Qed.

Lemma X5_witness :
  Forall (authorized "gsk_test_key")
    (snd (exec Scenario.healthy
            (POST Engine.runtime Scenario.env_configured Scenario.request_with_image))).
Proof.
  apply (@X5_every_call_is_authorized Engine.runtime Scenario.healthy
           Scenario.env_configured Scenario.request_with_image
           "gsk_test_key" Scenario.leaf_image (Str "en")).
  exists (Obj [("imageBase64", Scenario.leaf_image); ("language", Str "en")]).
  repeat split; try reflexivity. discriminate.
Defined.

(** ** The language *)

Lemma requests_by_language_name (groqApiKey : string) (l1 l2 : value) :
  language_name l1 = language_name l2 ->
  guidance_request groqApiKey l1 = guidance_request groqApiKey l2 /\
  forall d s,
    treatment_request groqApiKey l1 d s = treatment_request groqApiKey l2 d s.
Proof.
  intros H.
  unfold guidance_request, treatment_request, guidance_system_prompt,
    treatment_system_prompt.
  rewrite H. split; reflexivity.
Qed.

Lemma same_but_language_guidance (g : option value) (now : string) (l1 l2 : value) :
  same_but_language (NextResponse_json (guidance_payload g now l1) 200)
                    (NextResponse_json (guidance_payload g now l2) 200).
Proof.
  split; [reflexivity |]. intros k Hk. apply String.eqb_neq in Hk.
  unfold field, guidance_payload. simpl.
  repeat (match goal with
          | |- context [(k =? ?c)%string] =>
              destruct (k =? c)%string eqn:?; [try reflexivity; try congruence |]
          end).
  reflexivity.
Qed.

Lemma same_but_language_enhanced (analysis : value) (tc : option value)
    (now : string) (l1 l2 : value) :
  same_but_language (NextResponse_json (enhancedAnalysis analysis tc now l1) 200)
                    (NextResponse_json (enhancedAnalysis analysis tc now l2) 200).
Proof.
  split; [reflexivity |]. intros k Hk. apply String.eqb_neq in Hk.
  unfold field, enhancedAnalysis. simpl.
  rewrite !lookup_set, Hk. reflexivity.
Qed.

Lemma same_but_language_refl (res : NextResponse) : same_but_language res res.
Proof. split; reflexivity. Qed.

Section Languages.
Variable rt : Runtime.
Variable groqApiKey : string.
Variables l1 l2 : value.
Hypothesis same_name : language_name l1 = language_name l2.

Lemma getFallbackAnalysis_alike :
  alike same_but_language
    (getFallbackAnalysis rt groqApiKey l1) (getFallbackAnalysis rt groqApiKey l2).
Proof.
  unfold getFallbackAnalysis, await_fetch.
  destruct (requests_by_language_name groqApiKey l1 l2 same_name) as [-> _].
  simpl. constructor. intros [| [st [data |]]]; simpl.
  - constructor. intros now. constructor. apply same_but_language_refl.
  - destruct data; simpl;
      constructor; intros now; constructor;
      first [apply same_but_language_guidance | apply same_but_language_refl].
  - constructor. intros now. constructor. apply same_but_language_refl.
Qed.

Lemma narrate_alike (analysis : value) :
  alike same_but_language
    (narrate rt groqApiKey l1 analysis) (narrate rt groqApiKey l2 analysis).
Proof.
  unfold narrate.
  destruct (read_settled rt analysis "disease") as [[o H] | [e H]];
    rewrite H; simpl; [| constructor].
  destruct (interpolate_settled rt o) as [[d Hd] | [e Hd]];
    rewrite Hd; simpl; [| constructor].
  destruct (read_settled rt analysis "symptoms") as [[o' H'] | [e H']];
    rewrite H'; simpl; [| constructor].
  destruct (call_join_settled rt o' ", ") as [[s Hs] | [e Hs]];
    rewrite Hs; simpl; [| constructor].
  destruct (requests_by_language_name groqApiKey l1 l2 same_name) as [_ Ht].
  rewrite (Ht d s). unfold await_fetch. simpl.
  constructor. intros [| [st [data |]]]; simpl; try constructor.
  destruct data; simpl;
    constructor; intros now; constructor; apply same_but_language_enhanced.
Qed.

Lemma on_vision_response_alike (resp : Response) :
  alike same_but_language
    (on_vision_response rt groqApiKey l1 resp)
    (on_vision_response rt groqApiKey l2 resp).
Proof.
  unfold on_vision_response.
  destruct (ok resp); simpl.
  - unfold await_json. destruct (json resp) as [data |]; simpl; [| constructor].
    unfold choice_content.
    destruct (get data "choices") as [choices |]; simpl; [| constructor].
    destruct (get_opt (get_opt (index0_opt choices) "message") "content")
      as [content |]; [| constructor].
    destruct (truthy content); simpl; [| constructor].
    destruct (parse_analysis_settled rt content) as [[a Ha] | [e Ha]];
      rewrite Ha; simpl; [| constructor].
    destruct (validate_settled rt a) as [[[] Hv] | [e Hv]];
      rewrite Hv; simpl; [| constructor].
    apply narrate_alike.
  - unfold await_json. destruct (json resp) as [errorData |]; simpl; [| constructor].
    destruct (error_mentions_settled rt errorData "image") as [[[] H1] | [e H1]];
      rewrite H1; simpl; try constructor.
    + apply getFallbackAnalysis_alike.
    + destruct (error_mentions_settled rt errorData "vision") as [[[] H2] | [e H2]];
        rewrite H2; simpl; try constructor.
      apply getFallbackAnalysis_alike.
Qed.

Lemma analyse_alike (imageBase64 : value) :
  alike same_but_language
    (analyse rt groqApiKey imageBase64 l1) (analyse rt groqApiKey imageBase64 l2).
Proof.
  unfold analyse. apply alike_try_catch.
  - unfold vision_tier, await_fetch. simpl. constructor.
    intros [| resp]; simpl; [constructor | apply on_vision_response_alike].
  - intros e. apply getFallbackAnalysis_alike.
Qed.
End Languages.

Ltac settle :=
  repeat match goal with
         | |- _ /\ _ => split
         | |- _ <-> _ => split
         | |- _ -> _ => intro
         | |- _ <> _ => intro
         | H : _ /\ _ |- _ => destruct H
         end;
  try reflexivity; try discriminate; try congruence.

(** The name of the language by cases. *)
Lemma language_name_cases (l : value) :
  (language_name l = "Hindi" <-> l = Str "hi") /\
  (language_name l = "Kannada" <-> l = Str "kn") /\
  (language_name l = "English" <-> l <> Str "hi" /\ l <> Str "kn").
Proof.
  destruct l as [| b | q | s | items | fields]; simpl; try solve [settle].
  destruct (String.eqb_spec s "hi") as [-> | Hhi]; [solve [settle] |].
  destruct (String.eqb_spec s "kn") as [-> | Hkn]; [solve [settle] |].
  settle.
Qed.

(** Languages of different names get different guidance requests. *)
Lemma guidance_requests_differ (groqApiKey : string) (l1 l2 : value) :
  language_name l1 <> language_name l2 ->
  guidance_request groqApiKey l1 <> guidance_request groqApiKey l2.
Proof.
  intros Hne Heq. apply Hne.
  assert (Hp : guidance_system_prompt l1 = guidance_system_prompt l2).
  { unfold guidance_request, post_json, text_message in Heq. congruence. }
  clear Heq. unfold guidance_system_prompt in Hp.
  assert (Hcases : forall l,
             language_name l = "Hindi" \/ language_name l = "Kannada" \/
             language_name l = "English").
  { intros l. unfold language_name. destruct l as [| b | q | s | items | fields]; auto.
    destruct (s =? "hi")%string; auto. destruct (s =? "kn")%string; auto. }
  destruct (Hcases l1) as [H1 | [H1 | H1]], (Hcases l2) as [H2 | [H2 | H2]];
    rewrite H1, H2 in *; try reflexivity; simpl in Hp; congruence.
Qed.

(** X6.  The handler tells three languages apart: Hindi for the text "hi",
    Kannada for the text "kn", English for every other value, and the three
    get different guidance requests.  Two accepted requests with the same
    key and image whose languages have the same name (as "ta" and "en") make
    the same remote calls and get the same answer but for the echoed
    [language] field. *)
Theorem X6_other_languages_are_served_in_English (rt : Runtime) (w : World)
    (env : Env) (request1 request2 : NextRequest) (groqApiKey : string)
    (imageBase64 l1 l2 : value) :
  accepted env request1 groqApiKey imageBase64 l1 ->
  accepted env request2 groqApiKey imageBase64 l2 ->
  language_name l1 = language_name l2 ->
  (forall l : value,
     (language_name l = "Hindi" <-> l = Str "hi") /\
     (language_name l = "Kannada" <-> l = Str "kn") /\
     (language_name l = "English" <-> l <> Str "hi" /\ l <> Str "kn")) /\
  (forall l l' : value,
     language_name l <> language_name l' ->
     guidance_request groqApiKey l <> guidance_request groqApiKey l') /\
  exists res1 res2 calls,
    exec w (POST rt env request1) = (Returned res1, calls) /\
    exec w (POST rt env request2) = (Returned res2, calls) /\
    same_but_language res1 res2.
Proof.
  intros H1 H2 Hname.
  split; [exact language_name_cases |].
  split; [intros l l'; apply guidance_requests_differ |].
  destruct (POST_returns rt env request1 w) as [res1 Hres1].
  destruct (POST_returns rt env request2 w) as [res2 Hres2].
  pose proof (alike_run (answer w) []
                (@analyse_alike rt groqApiKey l1 l2 Hname imageBase64)) as [Hcalls Hrel].
  rewrite (POST_accepted rt w H1) in Hres1 |- *.
  rewrite (POST_accepted rt w H2) in Hres2 |- *.
  unfold run_from in *.
  destruct (run (answer w) (analyse rt groqApiKey imageBase64 l1) [])
    as [o1 c1].
  destruct (run (answer w) (analyse rt groqApiKey imageBase64 l2) [])
    as [o2 c2].
  simpl in *. subst o1 o2 c2.
  exists res1, res2, c1. repeat split; apply Hrel.
Qed.

Lemma X6_witness :
  (forall l : value,
     (language_name l = "Hindi" <-> l = Str "hi") /\
     (language_name l = "Kannada" <-> l = Str "kn") /\
     (language_name l = "English" <-> l <> Str "hi" /\ l <> Str "kn")) /\
  (forall l l' : value,
     language_name l <> language_name l' ->
     guidance_request "gsk_test_key" l <> guidance_request "gsk_test_key" l') /\
  exists res1 res2 calls,
    exec Scenario.healthy
      (POST Engine.runtime Scenario.env_configured (Scenario2.request_in "ta")) =
      (Returned res1, calls) /\
    exec Scenario.healthy
      (POST Engine.runtime Scenario.env_configured (Scenario2.request_in "en")) =
      (Returned res2, calls) /\
    same_but_language res1 res2.
Proof.
  apply (@X6_other_languages_are_served_in_English Engine.runtime Scenario.healthy
           Scenario.env_configured
           (Scenario2.request_in "ta") (Scenario2.request_in "en")
           "gsk_test_key" Scenario.leaf_image (Str "ta") (Str "en")).
  - exists (Obj [("imageBase64", Scenario.leaf_image); ("language", Str "ta")]).
    repeat split; try reflexivity. discriminate.
  - exists (Obj [("imageBase64", Scenario.leaf_image); ("language", Str "en")]).
    repeat split; try reflexivity. discriminate.
  - reflexivity.
Defined.

(** X7.  A request whose body has no [language] is served exactly as the
    same body with [language: "en"]: same calls, same answer. *)
Theorem X7_language_defaults_to_en (rt : Runtime) (w : World) (env : Env)
    (fields : list (string * value)) (imageBase64 : value) (groqApiKey : string) :
  lookup "imageBase64" fields = Some imageBase64 ->
  truthy imageBase64 = true ->
  lookup "language" fields = None ->
  GROQ_API_KEY env = Some groqApiKey ->
  groqApiKey <> "" ->
  exec w (POST rt env {| request_json := Some (Obj fields) |}) =
  exec w (POST rt env
            {| request_json := Some (Obj (set "language" (Str "en") fields)) |}).
Proof.
  intros Hi Ht Hl Hk Hne.
  assert (H1 : accepted env {| request_json := Some (Obj fields) |}
                 groqApiKey imageBase64 (Str "en")).
  { exists (Obj fields). unfold field. simpl. rewrite Hi, Hl. repeat split; auto. }
  assert (H2 : accepted env
                 {| request_json := Some (Obj (set "language" (Str "en") fields)) |}
                 groqApiKey imageBase64 (Str "en")).
  { exists (Obj (set "language" (Str "en") fields)). unfold field. simpl.
    rewrite !lookup_set. simpl. rewrite Hi. repeat split; auto. }
  rewrite (POST_accepted rt w H1), (POST_accepted rt w H2). reflexivity.
Qed.

Lemma X7_witness :
  exec Scenario.healthy
    (POST Engine.runtime Scenario.env_configured
       {| request_json := Some (Obj [("imageBase64", Scenario.leaf_image)]) |}) =
  exec Scenario.healthy
    (POST Engine.runtime Scenario.env_configured
       {| request_json :=
            Some (Obj (set "language" (Str "en")
                         [("imageBase64", Scenario.leaf_image)])) |}).
Proof.
  apply (@X7_language_defaults_to_en Engine.runtime Scenario.healthy
           Scenario.env_configured [("imageBase64", Scenario.leaf_image)]
           Scenario.leaf_image "gsk_test_key").
  - reflexivity.
  - reflexivity.
  - reflexivity.
  - reflexivity.
  - discriminate.
Defined.

(** ** Parsing and validation *)

Lemma upto_last_close_none (s : string) :
  lacks "}" s = true -> upto_last_close s = None.
Proof.
  induction s as [| c r IH]; simpl; [reflexivity |].
  intros H. apply andb_true_iff in H. destruct H as [Hc Hr].
  rewrite (IH Hr). apply negb_true_iff in Hc. rewrite Hc. reflexivity.
Qed.

Lemma upto_last_close_app (mid post : string) :
  lacks "}" post = true ->
  upto_last_close (mid ++ String "}" post) = Some (mid ++ "}").
Proof.
  intros H. induction mid as [| c r IH]; simpl.
  - rewrite (upto_last_close_none post H). reflexivity.
  - rewrite IH. reflexivity.
Qed.

Lemma from_first_open_app (pre r : string) :
  lacks "{" pre = true -> from_first_open (pre ++ String "{" r) = Some r.
Proof.
  induction pre as [| c t IH]; simpl; [reflexivity |].
  intros H. apply andb_true_iff in H. destruct H as [Hc Ht].
  apply negb_true_iff in Hc. rewrite Hc. apply IH, Ht.
Qed.

Lemma append_closing (mid post : string) :
  (mid ++ "}") ++ post = mid ++ String "}" post.
Proof.
  induction mid as [| c r IH]; simpl; [reflexivity |]. rewrite IH. reflexivity.
Qed.

(** X8.  Step 3 recovers a JSON object wrapped in prose: when the reply is
    not JSON as a whole, the text before the object has no opening brace and
    the text after it no closing brace, the span the handler locates is
    exactly the object, and the analysis is what [JSON.parse] makes of
    it. *)
Theorem X8_object_wrapped_in_prose_is_recovered (rt : Runtime)
    (pre mid post : string) (analysis : value) :
  lacks "{" pre = true ->
  lacks "}" post = true ->
  JSON_parse rt (pre ++ ("{" ++ mid ++ "}") ++ post) = None ->
  JSON_parse rt ("{" ++ mid ++ "}") = Some analysis ->
  match_braces (pre ++ ("{" ++ mid ++ "}") ++ post) = Some ("{" ++ mid ++ "}") /\
  parse_analysis rt (Str (pre ++ ("{" ++ mid ++ "}") ++ post)) = Ret analysis.
Proof.
  intros Hpre Hpost Hwhole Hjson.
  assert (Hm : match_braces (pre ++ ("{" ++ mid ++ "}") ++ post)
               = Some ("{" ++ mid ++ "}")).
  { unfold match_braces. simpl. rewrite append_closing.
    rewrite (@from_first_open_app pre _ Hpre), (@upto_last_close_app mid post Hpost).
    reflexivity. }
  split; [exact Hm |].
  unfold parse_analysis, JSON_parse_value. cbn [to_string].
  rewrite Hwhole. cbn [try_catch]. rewrite Hm, Hjson. reflexivity.
Qed.

Lemma X8_witness :
  match_braces Scenario2.wrapped = Some Scenario.leaf_blight /\
  parse_analysis Engine.runtime (Str Scenario2.wrapped) =
  Ret Scenario.leaf_blight_analysis.
Proof.
  apply (@X8_object_wrapped_in_prose_is_recovered Engine.runtime
           "Here is my analysis: " Scenario2.leaf_blight_inside
           " I hope this helps." Scenario.leaf_blight_analysis).
  - reflexivity.
  - reflexivity.
  - vm_compute. reflexivity.
  - vm_compute. reflexivity.
Defined.

(** X9.  The structural validation accepts exactly the objects that have a
    truthy [disease] and an array as [symptoms]: an empty array passes, and
    so does a disease that is not a text, while [null], arrays, texts and
    numbers are rejected, as are objects whose disease is absent, [null],
    [false], [0] or the empty string. *)
Theorem X9_validation_accepts_exactly (rt : Runtime) (analysis : value) :
  validate rt analysis = Ret tt <->
  exists fields items,
    analysis = Obj fields /\
    truthy_opt (lookup "disease" fields) = true /\
    lookup "symptoms" fields = Some (Arr items).
Proof.
  split.
  - apply validate_accepts.
  - intros (fields & items & -> & Hd & Hs).
    unfold validate, read. simpl. rewrite Hd. simpl. rewrite Hs. reflexivity.
Qed.

(** ** The fallback sub-flow *)



(** ** What the model cannot set *)

(** X11.  Whatever the vision reply contains, the [analysisTimestamp] of the
    answer to an accepted request is the reading of the clock taken after the
    last remote call, and its [language] is the language of the request; only
    the hardcoded payload of the last tier has no [language]. *)
Theorem X11_timestamp_and_language_are_the_handlers (rt : Runtime) (w : World)
    (env : Env) (request : NextRequest) (groqApiKey : string)
    (imageBase64 language : value) :
  accepted env request groqApiKey imageBase64 language ->
  exists res calls,
    exec w (POST rt env request) = (Returned res, calls) /\
    field (res_body res) "analysisTimestamp" = Some (Str (clock w calls)) /\
    (field (res_body res) "language" = Some language \/
     res_body res = unavailable_payload (clock w calls)).
Proof.
  intros Hacc.
  destruct (POST_traces rt w Hacc)
    as [(fields & d & s & _ & Hrun) | (calls & _ & Hrun)].
  - eexists. eexists. split; [exact Hrun |]. simpl res_body.
    match goal with
    | |- context [enhancedAnalysis _ ?tc ?now _] =>
        destruct (enhanced_additions fields tc now language) as (_ & Hn & Hl)
    end.
    split; [exact Hn | left; exact Hl].
  - rewrite getFallbackAnalysis_run in Hrun. simpl in Hrun.
    eexists. eexists. split; [exact Hrun |]. simpl.
    destruct (raises (upstream w calls (guidance_request groqApiKey language))).
    + split; [reflexivity | right; reflexivity].
    + split; [reflexivity | left; reflexivity].
Qed.

Lemma X11_witness :
  exists res calls,
    exec Scenario.worded_reply
      (POST Engine.runtime Scenario.env_configured Scenario.request_with_image) =
      (Returned res, calls) /\
    field (res_body res) "analysisTimestamp" =
      Some (Str (clock Scenario.worded_reply calls)) /\
    (field (res_body res) "language" = Some (Str "en") \/
     res_body res = unavailable_payload (clock Scenario.worded_reply calls)).
Proof.
  apply (@X11_timestamp_and_language_are_the_handlers Engine.runtime
           Scenario.worded_reply Scenario.env_configured Scenario.request_with_image
           "gsk_test_key" Scenario.leaf_image (Str "en")).
  exists (Obj [("imageBase64", Scenario.leaf_image); ("language", Str "en")]).
  repeat split; try reflexivity. discriminate.
Defined.

End RouteMoreFacts.


(* ================================================================== *)
(** * More facts about the chat submission flow                        *)
(* ================================================================== *)

Module ChatMoreFacts.
Import Js Prog Http Chat ChatMore Observe ProgFacts ObserveFacts ChatFacts.
Local Open Scope prog_scope.

Lemma string_of_Z_injective (a b : Z) :
  string_of_Z a = string_of_Z b -> a = b.
Proof.
  unfold string_of_Z. intros H.
  assert (Hint : forall z,
             NilZero.int_of_string (NilZero.string_of_int (Z.to_int z))
             = Some (Z.to_int z)).
  { intros z. apply NilZero.isi.
    - destruct z; simpl; try discriminate.
      intros Hp. inversion Hp as [Hp'].
      apply (DecimalPos.Unsigned.to_uint_nonnil _ Hp').
    - destruct z; simpl; try discriminate.
      intros Hp. inversion Hp as [Hp'].
      apply (DecimalPos.Unsigned.to_uint_nonnil _ Hp'). }
  assert (Hto : Z.to_int a = Z.to_int b).
  { pose proof (Hint a) as Ha. rewrite H, Hint in Ha. congruence. }
  rewrite <- (DecimalZ.of_to a), <- (DecimalZ.of_to b), Hto. reflexivity.
Qed.

(** What a submission that passes the guard leaves behind. *)
Lemma submitMessage_session (rt : Runtime) (w : World) (locale : string)
    (isMuted : bool) (messageText : string) (s : Session) :
  trim messageText <> "" ->
  exists (a : Message) (s' : Session),
    exec w (submitMessage rt false locale isMuted messageText) s =
      (Returned tt, s') /\
    messages s' =
      (messages s ++
       [{| id := string_of_Z (time w (ticks s)); role := user;
           content := Str messageText; timestamp := time w (S (ticks s)) |};
        a])%list /\
    role a = assistant /\
    (exists (i : nat) (n : Z),
       id a = string_of_Z (time w i + n) /\ (ticks s <= i)%nat /\ 0 < n) /\
    input s' = "" /\
    loading s' = false /\
    content a =
      match server w (requests s) (query_request locale messageText) with
      | Rejected => Str apology
      | Answered resp =>
          if ok resp then
            match json resp with
            | None => Str apology
            | Some Null => Str apology
            | Some data =>
                or_else (get_opt (Some data) "response") (Str "No response from AI")
            end
          else Str apology
      end.
Proof.
  intros Hne. apply String.eqb_neq in Hne.
  unfold exec, submitMessage. rewrite Hne. simpl.
  destruct (server w (requests s) (query_request locale messageText))
    as [| resp] eqn:Hserver; simpl.
  { do 2 eexists. split; [reflexivity |]. simpl.
    rewrite <- app_assoc. split; [reflexivity |]. split; [reflexivity |].
    split; [exists (S (S (ticks s))), 2; repeat split; lia |].
    repeat split. }
  destruct (ok resp) eqn:Hok; simpl.
  2:{ do 2 eexists. split; [reflexivity |]. simpl.
      rewrite <- app_assoc. split; [reflexivity |]. split; [reflexivity |].
      split; [exists (S (S (ticks s))), 2; repeat split; lia |].
      repeat split. }
  destruct (json resp) as [data |]; simpl.
  2:{ do 2 eexists. split; [reflexivity |]. simpl.
      rewrite <- app_assoc. split; [reflexivity |]. split; [reflexivity |].
      split; [exists (S (S (ticks s))), 2; repeat split; lia |].
      repeat split. }
  destruct (get data "response") as [response_text |] eqn:Hget; simpl.
  2:{ destruct data; simpl in Hget; try discriminate.
      do 2 eexists. split; [reflexivity |]. simpl.
      rewrite <- app_assoc. split; [reflexivity |]. split; [reflexivity |].
      split; [exists (S (S (S (ticks s)))), 2; repeat split; lia |].
      repeat split. }
  assert (Hspeak :
    forall (h : Exn -> Flow unit) (s0 : Session),
      run (answer w)
        (try_finally
           (try_catch
              (match response_text with
               | Some text =>
                   if negb isMuted && truthy text then speakText rt locale text
                   else Ret tt
               | None => Ret tt
               end) h)
           (trigger (setIsLoading false))) s0 =
      (Returned tt,
       {| messages := messages s0; input := input s0; loading := false;
          requests := requests s0; ticks := ticks s0 |})).
  { intros h s0. rewrite run_try_finally, run_try_catch.
    destruct response_text as [text |]; [| reflexivity].
    destruct (negb isMuted && truthy text); [| reflexivity].
    change (run (answer w) (speakText rt locale text) s0)
      with (exec w (speakText rt locale text) s0).
    rewrite speakText_run. reflexivity. }
  rewrite Hspeak. simpl.
  do 2 eexists. split; [reflexivity |]. simpl.
  rewrite <- app_assoc. split; [reflexivity |]. split; [reflexivity |].
  split; [exists (S (S (ticks s))), 1; repeat split; lia |].
  split; [reflexivity |]. split; [reflexivity |].
  destruct data; simpl in Hget; inversion Hget; subst; reflexivity.
Qed.

(** X12.  When the chat endpoint answers within 2xx, the assistant-turn
    shows the [response] of the JSON body as it is; a body without a truthy
    [response] gives "No response from AI", and a body that is not JSON, or
    is [null], gives the apology. *)
Theorem X12_reply_is_shown_or_defaulted (rt : Runtime) (w : World)
    (locale : string) (isMuted : bool) (messageText : string) (s : Session)
    (resp : Response) :
  trim messageText <> "" ->
  server w (requests s) (query_request locale messageText) = Answered resp ->
  ok resp = true ->
  exists (u a : Message) (s' : Session),
    exec w (submitMessage rt false locale isMuted messageText) s =
      (Returned tt, s') /\
    messages s' = (messages s ++ [u; a])%list /\
    content a =
      match json resp with
      | None => Str apology
      | Some Null => Str apology
      | Some data =>
          or_else (get_opt (Some data) "response") (Str "No response from AI")
      end.
Proof.
  intros Hne Hserver Hok.
  destruct (@submitMessage_session rt w locale isMuted messageText s Hne)
    as (a & s' & Hrun & Hm & _ & _ & _ & _ & Hc).
  rewrite Hserver, Hok in Hc.
  eexists. exists a, s'. split; [exact Hrun |]. split; [exact Hm | exact Hc].
Qed.

Lemma X12_witness :
  exists (u a : Message) (s' : Session),
    exec ChatScenario.online
      (submitMessage Engine.runtime false "en" false ChatScenario.question)
      ChatScenario.typing =
      (Returned tt, s') /\
    messages s' = (messages ChatScenario.typing ++ [u; a])%list /\
    content a = Str ChatScenario.advice.
Proof.
  apply (@X12_reply_is_shown_or_defaulted Engine.runtime ChatScenario.online
           "en" false ChatScenario.question ChatScenario.typing
           {| status := 200;
              json := Some (Obj [("response", Str ChatScenario.advice)]) |}).
  - vm_compute. discriminate.
  - reflexivity.
  - reflexivity.
Defined.

(** X13.  With a clock that never goes back, the two turns that one
    submission appends have different ids. *)
Theorem X13_ids_of_the_two_turns_differ (rt : Runtime) (w : World)
    (locale : string) (isMuted : bool) (messageText : string) (s : Session) :
  monotone w ->
  trim messageText <> "" ->
  exists (u a : Message) (s' : Session),
    exec w (submitMessage rt false locale isMuted messageText) s =
      (Returned tt, s') /\
    messages s' = (messages s ++ [u; a])%list /\
    id u <> id a.
Proof.
  intros Hmono Hne.
  destruct (@submitMessage_session rt w locale isMuted messageText s Hne)
    as (a & s' & Hrun & Hm & _ & (i & n & Hid & Hi & Hn) & _).
  eexists. exists a, s'. split; [exact Hrun |]. split; [exact Hm |].
  simpl. rewrite Hid. intros Heq. apply string_of_Z_injective in Heq.
  pose proof (Hmono _ _ Hi). lia.
Qed.

Lemma X13_witness :
  exists (u a : Message) (s' : Session),
    exec ChatScenario.online
      (submitMessage Engine.runtime false "en" false ChatScenario.question)
      ChatScenario.typing =
      (Returned tt, s') /\
    messages s' = (messages ChatScenario.typing ++ [u; a])%list /\
    id u <> id a.
Proof.
  apply (@X13_ids_of_the_two_turns_differ Engine.runtime ChatScenario.online
           "en" false ChatScenario.question ChatScenario.typing).
  - intros n m Hnm. unfold ChatScenario.online. cbn [time]. lia.
  - vm_compute. discriminate.
Defined.

(** X22.  Every submission that passes the guard empties the input box and
    releases the loading flag, also when the request fails: the text typed is
    kept in the transcript only. *)
Theorem X22_input_is_cleared_on_every_path (rt : Runtime) (w : World)
    (locale : string) (isMuted : bool) (messageText : string) (s : Session) :
  trim messageText <> "" ->
  exists s',
    exec w (submitMessage rt false locale isMuted messageText) s =
      (Returned tt, s') /\
    input s' = "" /\
    loading s' = false.
Proof.
  intros Hne.
  destruct (@submitMessage_session rt w locale isMuted messageText s Hne)
    as (a & s' & Hrun & _ & _ & _ & Hi & Hl & _).
  exists s'. auto.
Qed.

Lemma X22_witness :
  exists s',
    exec ChatScenario.offline
      (submitMessage Engine.runtime false "en" false ChatScenario.question)
      ChatScenario.typing =
      (Returned tt, s') /\
    input s' = "" /\
    loading s' = false.
Proof.
  apply (@X22_input_is_cleared_on_every_path Engine.runtime ChatScenario.offline
           "en" false ChatScenario.question ChatScenario.typing).
  vm_compute. discriminate.
Defined.

(** ** Speech *)

Ltac walk :=
  repeat (cbn [always bind try_catch try_finally trigger negb andb];
          match goal with
          | |- True => exact I
          | |- _ = _ => reflexivity
          | |- _ /\ _ => split
          | |- forall _, _ => intro
          | |- always _ ?p =>
              match p with
              | context [match ?x with _ => _ end] => destruct x
              end
          end).

(** For a locale of its table, [getLanguageCode] answers with the code of
    the table: none of them is empty, so that the default is not taken. *)
Lemma getLanguageCode_in_table (loc code : string) :
  assoc loc codes = Some code ->
  getLanguageCode loc = Code code /\ In code (map snd codes).
Proof.
  unfold getLanguageCode, codes, assoc.
  repeat (match goal with
          | |- context [(loc =? ?c)%string] => destruct (loc =? c)%string
          end;
          [intros H; inversion H; subst; simpl; auto 12 |]).
  discriminate.
Qed.

(** X15.  Whatever a submission speaks, it speaks with what
    [getLanguageCode] reads for the locale.  For one of the eight locales of
    the table that is its code; for the name of a member of
    [Object.prototype], such as "constructor" or "toString", it is the
    inherited member itself and not a code; for every other locale it is
    "en-US". *)
Theorem X15_speech_language_is_what_the_table_reads (rt : Runtime)
    (isLoading : bool) (locale : string) (isMuted : bool) (messageText : string) :
  always (speaks_in (getLanguageCode locale))
    (submitMessage rt isLoading locale isMuted messageText) /\
  (forall code, assoc locale codes = Some code ->
     getLanguageCode locale = Code code /\ In code (map snd codes)) /\
  (In locale Object_prototype -> getLanguageCode locale = Inherited locale) /\
  (assoc locale codes = None -> ~ In locale Object_prototype ->
   getLanguageCode locale = Code "en-US").
Proof.
  split; [| split; [| split]].
  - unfold submitMessage, speakText, speaks_in. walk.
  - intros code. apply getLanguageCode_in_table.
  - unfold Object_prototype. simpl.
    intros H; repeat (destruct H as [H | H]; [subst locale; reflexivity |]).
    destruct H.
  - intros Hnone Hnot. unfold getLanguageCode. rewrite Hnone.
    destruct (existsb (String.eqb locale) Object_prototype) eqn:He;
      [| reflexivity].
    apply existsb_exists in He. destruct He as (n & Hin & Heq).
    apply String.eqb_eq in Heq. subst n. contradiction.
Qed.

End ChatMoreFacts.


(* ================================================================== *)
(** * Facts about the mounted modal                                    *)
(* ================================================================== *)

Module ModalFacts.
Import Js Prog Http Chat ChatMore Modal Observe ProgFacts ObserveFacts ChatFacts
  ChatMoreFacts.
Local Open Scope prog_scope.


(** The guard of line 359 returns at once on a blank text and when the
    callback saw a request in flight. *)
Lemma guarded (rt : Runtime) (r : Render) (messageText : string) :
  trim messageText = "" \/ isLoading r = true ->
  submitMessage_of rt r messageText = Ret tt.
Proof.
  intros H. unfold submitMessage_of, submitMessage.
  destruct H as [H | H]; rewrite H.
  - reflexivity.
  - rewrite orb_true_r. reflexivity.
Qed.




(** ** Muting *)

(** A callback that saw neither a request in flight nor the modal muted
    reaches the speech synthesis when the server answers with a text. *)
Lemma unmuted_submission_can_speak (rt : Runtime) (locale messageText : string) :
  trim messageText <> "" ->
  ~ always silent_event (submitMessage rt false locale false messageText).
Proof.
  intros Hne H. apply String.eqb_neq in Hne.
  unfold submitMessage in H. rewrite Hne in H. cbn in H.
  destruct H as [_ H]. specialize (H 0). cbn in H.
  destruct H as [_ H]. specialize (H 0). cbn in H.
  destruct H as [_ H]. specialize (H tt). cbn in H.
  destruct H as [_ H]. specialize (H tt). cbn in H.
  destruct H as [_ H]. specialize (H tt). cbn in H.
  destruct H as [_ H].
  specialize (H (Answered {| status := 200;
                             json := Some (Obj [("response", Str "yes")]) |})).
  cbn in H.
  destruct H as [_ H]. specialize (H 0). cbn in H.
  destruct H as [_ H]. specialize (H 0). cbn in H.
  destruct H as [_ H]. specialize (H tt). cbn in H.
  destruct H as [H _]. exact H.
Qed.

(** X14.  Whether a submission can reach the speech synthesis is decided by
    what its callback closed over: it never speaks exactly when the text is
    blank, or the callback saw a request in flight, or it saw the modal
    muted.  A submission typed while the modal is muted therefore never
    speaks.  A voice submission goes through the callback installed when the
    recognition effect last ran, and the mute button does not change it: if
    that render was not muted, muting the modal afterwards does not silence
    the answer to what is heard. *)
Theorem X14_silence_follows_the_render_of_the_callback (rt : Runtime)
    (r : Render) (messageText : string) :
  (always silent_event (submitMessage_of rt r messageText) <->
   trim messageText = "" \/ isLoading r = true \/ isMuted r = true) /\
  (forall c : Component,
     muted c = true -> always silent_event (handleSendMessage rt c)) /\
  (forall c : Component,
     muted (toggle_mute c) = negb (muted c) /\
     voice_submission rt (toggle_mute c) messageText =
     voice_submission rt c messageText) /\
  (forall c : Component,
     muted c = true ->
     trim messageText <> "" ->
     isLoading (installed c) = false ->
     isMuted (installed c) = false ->
     ~ always silent_event (voice_submission rt c messageText)).
Proof.
  assert (Hmuted : forall (l : bool) (loc t : string),
             always silent_event (submitMessage rt l loc true t)).
  { intros l loc t. unfold submitMessage, silent_event. walk. }
  split; [| split; [| split]].
  - split.
    + intros H.
      destruct (String.eqb_spec (trim messageText) "") as [Hb | Hb];
        [left; exact Hb |].
      destruct r as [l loc m]. unfold submitMessage_of in H. simpl in *.
      destruct l; [right; left; reflexivity |].
      destruct m; [right; right; reflexivity |].
      exfalso. exact (@unmuted_submission_can_speak rt loc messageText Hb H).
    + intros [H | [H | H]].
      * rewrite (guarded rt r messageText (or_introl H)). exact I.
      * rewrite (guarded rt r messageText (or_intror H)). exact I.
      * unfold submitMessage_of. rewrite H. apply Hmuted.
  - intros c Hc. unfold handleSendMessage, submitMessage_of. simpl.
    rewrite Hc. apply Hmuted.
  - intros c. split; reflexivity.
  - intros c _ Hne Hl Hm. unfold voice_submission, submitMessage_of.
    rewrite Hl, Hm. apply unmuted_submission_can_speak. exact Hne.
Qed.

End ModalFacts.


(* ================================================================== *)
(** * Facts about [trim]                                               *)
(* ================================================================== *)

Module TrimFacts.
Import Js Chat ChatMore.

Lemma take_drop_continuation (k t : string) :
  continuation k = true ->
  starts_character t = true ->
  take_continuation (k ++ t) = k /\ drop_continuation (k ++ t) = t.
Proof.
  intros Hk Ht. induction k as [| c r IH]; simpl.
  - destruct t as [| c t']; simpl; [split; reflexivity |].
    simpl in Ht. apply negb_true_iff in Ht. rewrite Ht. split; reflexivity.
  - simpl in Hk. apply andb_true_iff in Hk. destruct Hk as [Hc Hr].
    rewrite Hc. destruct (IH Hr) as [H1 H2]. rewrite H1, H2. split; reflexivity.
Qed.

Lemma take_continuation_continuation (s : string) :
  continuation (take_continuation s) = true.
Proof.
  induction s as [| c r IH]; simpl; [reflexivity |].
  destruct (continuation_byte c) eqn:Hc; simpl; [| reflexivity].
  rewrite Hc, IH. reflexivity.
Qed.

Lemma drop_continuation_starts (s : string) :
  starts_character (drop_continuation s) = true.
Proof.
  induction s as [| c r IH]; simpl; [reflexivity |].
  destruct (continuation_byte c) eqn:Hc; simpl; [exact IH |].
  rewrite Hc. reflexivity.
Qed.

(** After the first, the characters of a text start with a byte that is not
    a continuation byte. *)
Lemma characters_inner (fuel : nat) (t : string) :
  starts_character t = true -> Forall inner (characters fuel t).
Proof.
  revert t. induction fuel as [| fuel IH]; intros t Ht; simpl; [constructor |].
  destruct t as [| c r]; [constructor |].
  constructor.
  - exists c, (take_continuation r). simpl in Ht. apply negb_true_iff in Ht.
    repeat split; auto. apply take_continuation_continuation.
  - apply IH. apply drop_continuation_starts.
Qed.

Lemma characters_shape (fuel : nat) (s : string) :
  characters_of_a_text (characters fuel s).
Proof.
  destruct fuel as [| fuel]; simpl; [exact I |].
  destruct s as [| c r]; simpl; [exact I |].
  split.
  - exists c, (take_continuation r). split; [reflexivity |].
    apply take_continuation_continuation.
  - apply characters_inner. apply drop_continuation_starts.
Qed.

Lemma inner_character (ch : string) : inner ch -> character ch.
Proof. intros (c & k & H & _ & Hk). exists c, k. auto. Qed.

Lemma inner_shape (l : list string) :
  Forall inner l -> characters_of_a_text l.
Proof.
  intros H. destruct H as [| ch rest Hch Hrest]; simpl; [exact I |].
  split; [apply inner_character; exact Hch | exact Hrest].
Qed.

Lemma concat_cons (x : string) (xs : list string) :
  String.concat "" (x :: xs) = x ++ String.concat "" xs.
Proof.
  destruct xs as [| y ys]; simpl; [| reflexivity].
  induction x as [| c r IH]; simpl; [reflexivity |]. rewrite <- IH. reflexivity.
Qed.

Lemma concat_inner_starts (l : list string) :
  Forall inner l -> starts_character (String.concat "" l) = true.
Proof.
  intros H. destruct H as [| ch rest (c & k & -> & Hc & _) _]; [reflexivity |].
  rewrite concat_cons. simpl. rewrite Hc. reflexivity.
Qed.

(** Cutting the concatenation of the characters of a text gives them
    back. *)
Lemma characters_concat (l : list string) (fuel : nat) :
  characters_of_a_text l ->
  (List.length l <= fuel)%nat ->
  characters fuel (String.concat "" l) = l.
Proof.
  revert fuel. induction l as [| ch rest IH]; intros fuel Hl Hfuel.
  - destruct fuel; reflexivity.
  - destruct Hl as [(c & k & -> & Hk) Hrest].
    destruct fuel as [| fuel]; [simpl in Hfuel; lia |].
    rewrite concat_cons. simpl.
    destruct (take_drop_continuation k (String.concat "" rest) Hk
                (concat_inner_starts Hrest)) as [H1 H2].
    rewrite H1, H2. f_equal.
    apply IH; [apply inner_shape; exact Hrest | simpl in Hfuel; lia].
Qed.

Lemma length_concat (l : list string) :
  characters_of_a_text l ->
  (List.length l <= String.length (String.concat "" l))%nat.
Proof.
  induction l as [| ch rest IH]; intros Hl; [simpl; lia |].
  destruct Hl as [(c & k & -> & Hk) Hrest].
  rewrite concat_cons. simpl.
  assert (Hlen : forall a b, String.length (a ++ b) = (String.length a + String.length b)%nat).
  { intros a b. induction a as [| x a' IHa]; simpl; [reflexivity |].
    rewrite IHa. reflexivity. }
  rewrite Hlen. specialize (IH (inner_shape Hrest)). lia.
Qed.

(** ** Dropping white space *)

Lemma drop_spaces_suffix (l : list string) :
  exists pre, l = (pre ++ drop_spaces l)%list.
Proof.
  induction l as [| ch rest IH]; simpl; [exists []; reflexivity |].
  destruct (is_space (code_point ch)).
  - destruct IH as [pre Hpre]. exists (ch :: pre). simpl. rewrite <- Hpre. reflexivity.
  - exists []. reflexivity.
Qed.

Lemma drop_spaces_idempotent (l : list string) :
  drop_spaces (drop_spaces l) = drop_spaces l.
Proof.
  induction l as [| ch rest IH]; simpl; [reflexivity |].
  destruct (is_space (code_point ch)) eqn:Hs; [exact IH |].
  simpl. rewrite Hs. reflexivity.
Qed.

Lemma trim_end_prefix (l : list string) :
  exists suf, l = (trim_end l ++ suf)%list.
Proof.
  unfold trim_end. destruct (drop_spaces_suffix (rev l)) as [pre Hpre].
  exists (rev pre).
  rewrite <- rev_app_distr, <- Hpre, rev_involutive. reflexivity.
Qed.

Lemma trim_end_idempotent (l : list string) :
  trim_end (trim_end l) = trim_end l.
Proof.
  unfold trim_end. rewrite rev_involutive, drop_spaces_idempotent. reflexivity.
Qed.

Lemma drop_spaces_inner (l : list string) :
  Forall inner l -> Forall inner (drop_spaces l).
Proof.
  induction 1 as [| ch rest Hch Hrest IH]; simpl; [constructor |].
  destruct (is_space (code_point ch)); [exact IH | constructor; assumption].
Qed.

Lemma drop_spaces_shape (l : list string) :
  characters_of_a_text l -> characters_of_a_text (drop_spaces l).
Proof.
  destruct l as [| ch rest]; simpl; [auto |].
  intros [Hch Hrest].
  destruct (is_space (code_point ch)).
  - apply inner_shape, drop_spaces_inner, Hrest.
  - split; assumption.
Qed.

Lemma prefix_shape (a b : list string) :
  characters_of_a_text (a ++ b) -> characters_of_a_text a.
Proof.
  destruct a as [| ch rest]; simpl; [auto |].
  intros [Hch Hrest]. split; [exact Hch |].
  apply Forall_app in Hrest. tauto.
Qed.

Lemma trim_end_shape (l : list string) :
  characters_of_a_text l -> characters_of_a_text (trim_end l).
Proof.
  intros H. destruct (trim_end_prefix l) as [suf Hsuf].
  rewrite Hsuf in H. apply (prefix_shape _ _ H).
Qed.

Lemma drop_spaces_length (l : list string) :
  (List.length (drop_spaces l) <= List.length l)%nat.
Proof.
  induction l as [| ch rest IH]; simpl; [lia |].
  destruct (is_space (code_point ch)); simpl; lia.
Qed.

(** A prefix of a list without leading white space has none either. *)
Lemma drop_spaces_prefix (a b : list string) :
  drop_spaces (a ++ b) = (a ++ b)%list -> drop_spaces a = a.
Proof.
  destruct a as [| ch rest]; simpl; [reflexivity |].
  destruct (is_space (code_point ch)); [| reflexivity].
  intros H. pose proof (drop_spaces_length (rest ++ b)) as Hlen.
  rewrite H in Hlen. simpl in Hlen. lia.
Qed.

(** [trim] is idempotent. *)
Lemma trim_idempotent (s : string) : trim (trim s) = trim s.
Proof.
  unfold trim.
  set (l1 := drop_spaces (characters (String.length s) s)).
  fold (trim_end l1).
  assert (Hshape : characters_of_a_text (trim_end l1)).
  { apply trim_end_shape, drop_spaces_shape, characters_shape. }
  rewrite (characters_concat _ Hshape (length_concat _ Hshape)).
  assert (Hdrop : drop_spaces (trim_end l1) = trim_end l1).
  { destruct (trim_end_prefix l1) as [suf Hsuf].
    apply (drop_spaces_prefix (trim_end l1) suf).
    rewrite <- Hsuf. apply drop_spaces_idempotent. }
  rewrite Hdrop. fold (trim_end (trim_end l1)).
  rewrite trim_end_idempotent. reflexivity.
Qed.

End TrimFacts.


(* ================================================================== *)
(** * Facts about the speech handlers                                  *)
(* ================================================================== *)

Module VoiceFacts.
Import Js Prog Http Chat ChatMore Voice ProgFacts TrimFacts ChatMoreFacts.
Local Open Scope prog_scope.

Lemma append_assoc (a b c : string) : (a ++ b) ++ c = a ++ b ++ c.
Proof.
  induction a as [| x a IH]; simpl; [reflexivity |]. rewrite IH. reflexivity.
Qed.

Lemma append_empty (a : string) : a ++ "" = a.
Proof.
  induction a as [| x a IH]; simpl; [reflexivity |]. rewrite IH. reflexivity.
Qed.

Lemma Forall_skipn_alternatives (n : nat) (l : list Result) :
  Forall (fun r => alternatives r <> []) l ->
  Forall (fun r => alternatives r <> []) (skipn n l).
Proof.
  revert l. induction n as [| n IH]; intros l H; simpl; [exact H |].
  destruct H as [| r rest Hr Hrest]; [constructor | apply IH, Hrest].
Qed.

(** The loop concatenates the first alternatives. *)
Lemma accumulate_heard (rt : Runtime) (acc : string) (rest : list Result) :
  Forall (fun r => alternatives r <> []) rest ->
  accumulate rt acc rest =
  Ret (acc ++ String.concat "" (map (fun r => hd "" (alternatives r)) rest)).
Proof.
  intros H. revert acc.
  induction H as [| r rest Hr Hrest IH]; intros acc; simpl accumulate.
  - simpl. rewrite append_empty. reflexivity.
  - unfold transcript_of.
    destruct (alternatives r) as [| t alts] eqn:Halts; [contradiction |].
    cbn [bind]. rewrite IH. cbn [map]. rewrite Halts. cbn [hd].
    rewrite concat_cons, append_assoc. reflexivity.
Qed.

(** X16.  A recognition result (every entry of which has an alternative)
    always turns the listening flag off and never throws.  When the
    transcripts heard from [resultIndex] on are blank together, nothing else
    happens: the input stays and no submission is scheduled.  Otherwise the
    input becomes their trimmed concatenation and exactly one submission of
    that text is scheduled, 300 ms later. *)
Theorem X16_result_schedules_at_most_one_submission (rt : Runtime)
    (start_ok : nat -> bool) (event : ResultEvent) (s : State) :
  well_formed event ->
  exists s',
    exec start_ok (onresult rt event) s = (Returned tt, s') /\
    isListening s' = false /\
    recognitionError s' = recognitionError s /\
    alerts s' = alerts s /\
    if (trim (heard event) =? "")%string then
      input s' = input s /\ scheduled s' = scheduled s
    else
      input s' = trim (heard event) /\
      scheduled s' = (scheduled s ++ [(trim (heard event), 300)])%list.
Proof.
  intros Hwf. unfold exec, onresult.
  rewrite (accumulate_heard rt ""
             (Forall_skipn_alternatives (resultIndex event) Hwf)).
  cbn [bind append]. fold (heard event).
  destruct (trim (heard event) =? "")%string; simpl;
    eexists; split; try reflexivity; simpl; repeat split.
Qed.

Lemma X16_witness :
  exists s',
    exec (fun _ => true)
      (onresult Engine.runtime
         {| resultIndex := 1;
            results := [ {| alternatives := ["ignored"]; isFinal := true |};
                         {| alternatives := ["  when to sow "; "when to so"];
                            isFinal := true |};
                         {| alternatives := ["ragi  "]; isFinal := true |} ] |})
      {| input := ""; isListening := true; recognitionError := "";
         scheduled := []; alerts := []; started := 1; stopped := 0 |} =
      (Returned tt, s') /\
    isListening s' = false /\
    recognitionError s' = "" /\
    alerts s' = [] /\
    input s' = "when to sow ragi" /\
    scheduled s' = [("when to sow ragi", 300)].
Proof.
  apply (@X16_result_schedules_at_most_one_submission Engine.runtime
           (fun _ => true)
           {| resultIndex := 1;
              results := [ {| alternatives := ["ignored"]; isFinal := true |};
                           {| alternatives := ["  when to sow "; "when to so"];
                              isFinal := true |};
                           {| alternatives := ["ragi  "]; isFinal := true |} ] |}
           {| input := ""; isListening := true; recognitionError := "";
              scheduled := []; alerts := []; started := 1; stopped := 0 |}).
  repeat constructor; discriminate.
Defined.

(** X17.  What a recognition result schedules is never dropped by the blank
    guard of [submitMessage]: the scheduled text is already trimmed and not
    empty, so that the callback, run while it sees no request in flight,
    appends the user-turn with exactly that text. *)
Theorem X17_scheduled_text_passes_the_guard (rt : Runtime)
    (start_ok : nat -> bool) (event : ResultEvent) (s : State) :
  well_formed event ->
  trim (heard event) <> "" ->
  scheduled (snd (exec start_ok (onresult rt event) s)) =
    (scheduled s ++ [(trim (heard event), 300)])%list /\
  trim (trim (heard event)) = trim (heard event) /\
  forall (w : World) (locale : string) (isMuted : bool) (session : Session),
  exists (u a : Message) (session' : Session),
    Chat.exec w (submitMessage rt false locale isMuted (trim (heard event)))
      session = (Returned tt, session') /\
    messages session' = (messages session ++ [u; a])%list /\
    content u = Str (trim (heard event)).
Proof.
  intros Hwf Hne. split; [| split].
  - unfold exec, onresult.
    rewrite (accumulate_heard rt ""
               (Forall_skipn_alternatives (resultIndex event) Hwf)).
    cbn [bind append]. fold (heard event).
    apply String.eqb_neq in Hne. rewrite Hne. reflexivity.
  - apply trim_idempotent.
  - intros w locale isMuted session.
    assert (Hne' : trim (trim (heard event)) <> "").
    { rewrite trim_idempotent. exact Hne. }
    destruct (@submitMessage_session rt w locale isMuted (trim (heard event))
                session Hne')
      as (a & session' & Hrun & Hm & _).
    eexists. exists a, session'. split; [exact Hrun |].
    split; [exact Hm | reflexivity].
Qed.

Lemma X17_witness :
  scheduled
    (snd (exec (fun _ => true)
            (onresult Engine.runtime
               {| resultIndex := 0;
                  results := [ {| alternatives := [" is it going to rain "];
                                  isFinal := true |} ] |})
            {| input := ""; isListening := true; recognitionError := "";
               scheduled := []; alerts := []; started := 1; stopped := 0 |})) =
    ([] ++ [("is it going to rain", 300)])%list /\
  trim (trim " is it going to rain ") = trim " is it going to rain " /\
  forall (w : World) (locale : string) (isMuted : bool) (session : Session),
  exists (u a : Message) (session' : Session),
    Chat.exec w
      (submitMessage Engine.runtime false locale isMuted
         (trim " is it going to rain "))
      session = (Returned tt, session') /\
    messages session' = (messages session ++ [u; a])%list /\
    content u = Str (trim " is it going to rain ").
Proof.
  apply (@X17_scheduled_text_passes_the_guard Engine.runtime (fun _ => true)
           {| resultIndex := 0;
              results := [ {| alternatives := [" is it going to rain "];
                              isFinal := true |} ] |}
           {| input := ""; isListening := true; recognitionError := "";
              scheduled := []; alerts := []; started := 1; stopped := 0 |}).
  - repeat constructor; discriminate.
  - vm_compute. discriminate.
Defined.

(** X18.  [handleVoiceClick] never throws and touches neither the input nor
    the scheduled submissions.  Without speech recognition it only shows the
    alert.  While listening it stops the recognition and turns the flag off.
    Otherwise it starts the recognition once; a start that throws is
    reported as "Could not start recording. Please try again." and the
    listening flag is left as it was. *)
Theorem X18_voice_click (rt : Runtime) (start_ok : nat -> bool)
    (supported listening : bool) (s : State) :
  exists s',
    exec start_ok (handleVoiceClick rt supported listening) s = (Returned tt, s') /\
    input s' = input s /\
    scheduled s' = scheduled s /\
    if negb supported then
      alerts s' = (alerts s ++ ["Speech recognition is not supported in your browser. Please use text input instead."])%list /\
      started s' = started s /\ stopped s' = stopped s /\
      isListening s' = isListening s /\ recognitionError s' = recognitionError s
    else if listening then
      stopped s' = S (stopped s) /\ started s' = started s /\
      isListening s' = false /\ recognitionError s' = recognitionError s
    else
      started s' = S (started s) /\ stopped s' = stopped s /\
      isListening s' = isListening s /\
      recognitionError s' =
        if start_ok (started s) then recognitionError s
        else "Could not start recording. Please try again.".
Proof.
  unfold exec, handleVoiceClick.
  destruct supported; simpl.
  - destruct listening; simpl.
    + eexists. split; [reflexivity |]. simpl. repeat split.
    + destruct (start_ok (started s)); simpl;
        eexists; (split; [reflexivity |]); simpl; repeat split.
  - eexists. split; [reflexivity |]. simpl. repeat split.
Qed.

End VoiceFacts.


(* ================================================================== *)
(** * Facts about the language switch                                  *)
(* ================================================================== *)

Module NavigationFacts.
Import Js Navigation.

Lemma is_prefix_append (p rest : string) : is_prefix p (p ++ rest) = true.
Proof.
  induction p as [| c p IH]; simpl; [reflexivity |].
  rewrite Ascii.eqb_refl. exact IH.
Qed.

Lemma substring_all (s : string) : substring 0 (String.length s) s = s.
Proof.
  induction s as [| c s IH]; simpl; [reflexivity |]. rewrite IH. reflexivity.
Qed.

Lemma substring_after (p rest : string) :
  substring (String.length p)
    (String.length (p ++ rest) - String.length p) (p ++ rest) = rest.
Proof.
  induction p as [| c p IH]; simpl.
  - rewrite Nat.sub_0_r. apply substring_all.
  - exact IH.
Qed.

(** The first occurrence of a text in a text that starts with it is at the
    start. *)
Lemma split_at_first_prefix (p rest : string) :
  split_at_first p (p ++ rest) = Some ("", rest).
Proof.
  assert (Hunfold : forall s,
             split_at_first p s =
             if is_prefix p s then
               Some ("", substring (String.length p)
                           (String.length s - String.length p) s)
             else
               match s with
               | EmptyString => None
               | String c r =>
                   match split_at_first p r with
                   | Some (before, after) => Some (String c before, after)
                   | None => None
                   end
               end).
  { intros s. destruct s; reflexivity. }
  rewrite Hunfold, is_prefix_append, substring_after. reflexivity.
Qed.

Lemma split_at_first_absent (p s : string) :
  includes p s = false -> split_at_first p s = None.
Proof.
  induction s as [| c r IH]; simpl; intros H.
  - apply orb_false_iff in H. destruct H as [H _]. rewrite H. reflexivity.
  - apply orb_false_iff in H. destruct H as [H1 H2].
    rewrite H1, (IH H2). reflexivity.
Qed.

(** A replacement without a dollar sign stands for itself. *)
Lemma expand_plain (matched before after template : string) :
  plain template = true -> expand matched before after template = template.
Proof.
  induction template as [| c rest IH]; simpl; [reflexivity |].
  intros H. apply andb_true_iff in H. destruct H as [Hc Hrest].
  apply negb_true_iff in Hc. rewrite Hc, (IH Hrest). reflexivity.
Qed.

Lemma replace_prefix (p r rest : string) :
  plain r = true -> replace (p ++ rest) p r = r ++ rest.
Proof.
  intros H. unfold replace.
  rewrite split_at_first_prefix, (expand_plain _ _ _ _ H). reflexivity.
Qed.

(** X19.  On a path that starts with the current locale, the language switch
    swaps that first segment for the new locale and keeps the rest of the
    path. *)
Theorem X19_switch_swaps_the_locale_segment (locale newLocale rest : string) :
  plain newLocale = true ->
  handleLanguageChange ("/" ++ locale ++ rest) locale newLocale =
  "/" ++ newLocale ++ rest.
Proof.
  intros H. unfold handleLanguageChange.
  change ("/" ++ locale ++ rest) with (("/" ++ locale) ++ rest).
  apply (replace_prefix ("/" ++ locale) ("/" ++ newLocale) rest).
  simpl. exact H.
Qed.

Lemma X19_witness :
  handleLanguageChange ("/" ++ "en" ++ "/farmer") "en" "kn" =
  "/" ++ "kn" ++ "/farmer".
Proof.
  apply (@X19_switch_swaps_the_locale_segment "en" "kn" "/farmer").
  reflexivity.
Defined.

(** X20.  Switching the language and switching back leads to the path one
    started from. *)
Theorem X20_switch_there_and_back (locale newLocale rest : string) :
  plain locale = true ->
  plain newLocale = true ->
  handleLanguageChange
    (handleLanguageChange ("/" ++ locale ++ rest) locale newLocale)
    newLocale locale =
  "/" ++ locale ++ rest.
Proof.
  intros Hl Hn. unfold handleLanguageChange.
  change ("/" ++ locale ++ rest) with (("/" ++ locale) ++ rest).
  rewrite (replace_prefix ("/" ++ locale) ("/" ++ newLocale) rest)
    by (simpl; exact Hn).
  change (("/" ++ newLocale) ++ rest) with (("/" ++ newLocale) ++ rest).
  apply (replace_prefix ("/" ++ newLocale) ("/" ++ locale) rest).
  simpl. exact Hl.
Qed.

Lemma X20_witness :
  handleLanguageChange
    (handleLanguageChange ("/" ++ "hi" ++ "/weather") "hi" "en") "en" "hi" =
  "/" ++ "hi" ++ "/weather".
Proof.
  apply (@X20_switch_there_and_back "hi" "en" "/weather"); reflexivity.
Defined.

(** X21.  On a path in which the current locale segment does not occur, the
    language switch pushes the path unchanged: the page stays where it
    is. *)
Theorem X21_switch_without_the_segment_stays (pathname locale newLocale : string) :
  includes ("/" ++ locale) pathname = false ->
  handleLanguageChange pathname locale newLocale = pathname.
Proof.
  intros H. unfold handleLanguageChange, replace.
  rewrite (split_at_first_absent _ _ H). reflexivity.
Qed.

Lemma X21_witness :
  handleLanguageChange "/" (locale_of None) "hi" = "/".
Proof.
  apply (@X21_switch_without_the_segment_stays "/" (locale_of None) "hi").
  reflexivity.
Defined.

End NavigationFacts.
